(** * Siglum worker: the CTAN package proxy

    A shallow embedding of the Cloudflare worker that resolves a LaTeX
    package name, walks the archive fallback chain, decodes the ZIP into a
    TDS file set and caches the result in R2, and of its routing layer
    and R2 file server, followed by the properties its specification states
    about it and by further properties of the decoder, the handlers and the
    router.

    Modelling conventions.
    - A JavaScript string is the sequence of its code units; the model keeps
      the code units below 256 ([ascii]).  The worker compares characters
      only against ASCII delimiters and ASCII classes.
    - A [Uint8Array] / [ArrayBuffer] is a [list byte].
    - Platform functions that are not part of the repository ([unzipSync]
      of fflate, [TextDecoder.decode], [JSON.stringify]) are section
      variables; [btoa] is written out (RFC 4648).
    - Asynchronous handlers run sequentially, so they are functions in a
      state-and-exception monad over the R2 bucket and a trace of the
      external operations performed; [console.log] is not recorded.
    - The network is the list of answers that the successive calls of
      [fetch] receive. The handlers are deterministic, so this covers every
      behaviour of the network, also answers that differ between two
      fetches of one URL.
    - A registry answer that parses is a JSON object whose fields, when
      present, are strings; reads and writes of R2 do not throw.
    - The routing layer works on the parsed request URL, with the
      components that [new URL] gives; [url.toString()] is a section
      variable. The edge cache [caches.default] is a map from the URL of
      the cache key to the response stored, and its reads do not throw. A
      [cache.put] handed to [ctx.waitUntil] takes effect after the response
      ([settle]). The headers of a response are those the code passes to
      its constructor. *)

From Stdlib Require Import ZArith NArith List Bool Ascii String Lia DecimalString.
From Stdlib Require Strings.Byte.
From stdpp Require Import gmap strings.
Import ListNotations.

Abbreviation byte := Init.Byte.byte.

(** ** JavaScript strings *)

Module Js.

Definition code (c : ascii) : nat := nat_of_ascii c.

Definition between (lo hi : nat) (c : ascii) : bool :=
  (lo <=? code c)%nat && (code c <=? hi)%nat.

Definition is_upper := between 65 90.
Definition is_lower := between 97 122.
Definition is_digit := between 48 57.
Definition is_alpha (c : ascii) : bool := is_lower c || is_upper c.

(** White space removed by [String.prototype.trim]: TAB, LF, VT, FF, CR,
    SPACE and NO-BREAK SPACE. *)
Definition is_space (c : ascii) : bool :=
  between 9 13 c || (code c =? 32)%nat || (code c =? 160)%nat.

(** [toLowerCase] on one code unit (ASCII and Latin-1 capitals). *)
Definition lower (c : ascii) : ascii :=
  if is_upper c || (between 192 222 c && negb (code c =? 215)%nat)
  then ascii_of_nat (code c + 32) else c.

Fixpoint toLowerCase (s : string) : string :=
  match s with
  | EmptyString => EmptyString
  | String c t => String (lower c) (toLowerCase t)
  end.

Definition startsWith (s p : string) : bool := String.prefix p s.

(** [s.includes(sub)] *)
Fixpoint includes (s sub : string) : bool :=
  startsWith s sub ||
  match s with
  | EmptyString => false
  | String _ t => includes t sub
  end.

(** [s.indexOf(sub)], [-1] when [sub] does not occur. *)
Fixpoint indexOf (s sub : string) : Z :=
  if startsWith s sub then 0%Z
  else match s with
       | EmptyString => (-1)%Z
       | String _ t => let i := indexOf t sub in
                       if (i <? 0)%Z then (-1)%Z else (i + 1)%Z
       end.

(** [s.lastIndexOf(c)] for a one-character needle. *)
Fixpoint lastIndexOf (s : string) (c : ascii) : Z :=
  match s with
  | EmptyString => (-1)%Z
  | String a t => let i := lastIndexOf t c in
                  if (0 <=? i)%Z then (i + 1)%Z
                  else if Ascii.eqb a c then 0%Z else (-1)%Z
  end.

Definition clamp (len : nat) (i : Z) : nat :=
  Z.to_nat (Z.min (Z.max i 0) (Z.of_nat len)).

(** [s.substring(a, b)]: both indices are clamped to [0, length] and
    swapped when [a > b]. *)
Definition substring (s : string) (a b : Z) : string :=
  let a' := clamp (String.length s) a in
  let b' := clamp (String.length s) b in
  String.substring (Nat.min a' b') (Nat.max a' b' - Nat.min a' b') s.

(** [s.substring(a)] *)
Definition substringFrom (s : string) (a : Z) : string :=
  substring s a (Z.of_nat (String.length s)).

(** [s.split(sep)] for a one-character separator. *)
Fixpoint split (s : string) (sep : ascii) : list string :=
  match s with
  | EmptyString => [EmptyString]
  | String c t =>
      if Ascii.eqb c sep then EmptyString :: split t sep
      else match split t sep with
           | x :: r => String c x :: r
           | [] => [String c EmptyString]
           end
  end.

(** [arr.pop() || ''] *)
Definition pop_or_empty (l : list string) : string := List.last l EmptyString.

Fixpoint trimStart (s : string) : string :=
  match s with
  | EmptyString => EmptyString
  | String c t => if is_space c then trimStart t else s
  end.

Fixpoint trimEnd (s : string) : string :=
  match s with
  | EmptyString => EmptyString
  | String c t =>
      match trimEnd t with
      | EmptyString => if is_space c then EmptyString else String c EmptyString
      | t' => String c t'
      end
  end.

Definition trim (s : string) : string := trimEnd (trimStart s).

Fixpoint all_chars (p : ascii -> bool) (s : string) : bool :=
  match s with
  | EmptyString => true
  | String c t => p c && all_chars p t
  end.

Fixpoint any_char (p : ascii -> bool) (s : string) : bool :=
  match s with
  | EmptyString => false
  | String c t => p c || any_char p t
  end.

(** The longest prefix of [s] whose characters satisfy [p], and the rest. *)
Fixpoint span (p : ascii -> bool) (s : string) : string * string :=
  match s with
  | EmptyString => (EmptyString, EmptyString)
  | String c t => if p c then let '(a, b) := span p t in (String c a, b)
                  else (EmptyString, s)
  end.

(** [Some r] when [s = p ++ r]. *)
Fixpoint strip_prefix (p s : string) : option string :=
  match p, s with
  | EmptyString, _ => Some s
  | String a p', String b s' => if Ascii.eqb a b then strip_prefix p' s' else None
  | String _ _, EmptyString => None
  end.

(** JavaScript truthiness of a string. *)
Definition truthy (s : string) : bool :=
  match s with EmptyString => false | _ => true end.

(** [Number.prototype.toString] on an integer. *)
Definition numberToString (n : Z) : string :=
  NilZero.string_of_int (Z.to_int n).

(** [s.endsWith(suffix)]: one of the tails of [s] is [suffix]. *)
Fixpoint endsWith (s suffix : string) : bool :=
  String.eqb s suffix ||
  match s with
  | EmptyString => false
  | String _ t => endsWith t suffix
  end.

(** [s.slice(n)] for an index [n >= 0]: [s] without its first [n]
    characters. *)
Fixpoint slice (s : string) (n : nat) : string :=
  match n, s with
  | O, _ => s
  | S k, String _ t => slice t k
  | S _, EmptyString => EmptyString
  end.

(** [s.replace(pattern, replacement)] for a string pattern and a
    replacement without [$]: only the first occurrence is replaced. *)
Fixpoint replace (s pattern replacement : string) : string :=
  match strip_prefix pattern s with
  | Some rest => replacement +:+ rest
  | None => match s with
            | EmptyString => EmptyString
            | String c t => String c (replace t pattern replacement)
            end
  end.

End Js.

(** A value that a [Record<string, string>] lookup can produce at run time:
    an own string property, or a member inherited from [Object.prototype]. *)
Inductive JsVal : Type :=
| VString (s : string)
| VFunction (fname : string)
| VObjectPrototype.

(** String conversion, as performed by a template literal (V8 prints a
    built-in function as [function f() { [native code] }]). *)
Definition ToString (v : JsVal) : string :=
  match v with
  | VString s => s
  | VFunction f => ("function " +:+ f +:+ "() { [native code] }")%string
  | VObjectPrototype => "[object Object]"
  end.

(** [d !== v] for a string [d]. *)
Definition strict_neq (d : string) (v : JsVal) : bool :=
  match v with
  | VString s => negb (String.eqb d s)
  | _ => true
  end.

(** ** Base64 ([btoa]) and the standard decoder *)

Module Base64.

Definition alphabet : string :=
  "ABCDEFGHIJKLMNOPQRSTUVWXYZabcdefghijklmnopqrstuvwxyz0123456789+/".

Definition pad : ascii := "="%char.

(** The character of a six-bit value. *)
Definition digit (n : N) : ascii :=
  match String.get (N.to_nat n) alphabet with
  | Some c => c
  | None => pad
  end.

Fixpoint find_index (c : ascii) (s : string) (i : N) : option N :=
  match s with
  | EmptyString => None
  | String a t => if Ascii.eqb a c then Some i else find_index c t (N.succ i)
  end.

(** The six-bit value of a character of the alphabet. *)
Definition value (c : ascii) : option N := find_index c alphabet 0.

Definition group3 (x y z : N) : N := (x * 65536 + y * 256 + z)%N.

(** [btoa]: every three characters of the binary string give four digits;
    one or two remaining characters give two or three digits and padding. *)
Fixpoint btoa (binary : string) : string :=
  match binary with
  | EmptyString => EmptyString
  | String a EmptyString =>
      let n := group3 (N_of_ascii a) 0 0 in
      String (digit (n / 262144)) (String (digit (n / 4096 mod 64))
        (String pad (String pad EmptyString)))
  | String a (String b EmptyString) =>
      let n := group3 (N_of_ascii a) (N_of_ascii b) 0 in
      String (digit (n / 262144)) (String (digit (n / 4096 mod 64))
        (String (digit (n / 64 mod 64)) (String pad EmptyString)))
  | String a (String b (String c rest)) =>
      let n := group3 (N_of_ascii a) (N_of_ascii b) (N_of_ascii c) in
      String (digit (n / 262144)) (String (digit (n / 4096 mod 64))
        (String (digit (n / 64 mod 64)) (String (digit (n mod 64)) (btoa rest))))
  end.

Definition byte_of_N (n : N) : byte :=
  match Byte.of_N (n mod 256) with
  | Some b => b
  | None => Byte.x00
  end.

Definition is_empty (s : string) : bool :=
  match s with EmptyString => true | _ => false end.

(** Base64 decoding (RFC 4648, section 4): four digits give three bytes;
    a final group padded with one or two [=] gives two bytes or one. *)
Fixpoint decode (s : string) : option (list byte) :=
  match s with
  | EmptyString => Some []
  | String c0 (String c1 (String c2 (String c3 rest))) =>
      match value c0, value c1 with
      | Some v0, Some v1 =>
          if Ascii.eqb c3 pad && is_empty rest then
            if Ascii.eqb c2 pad then
              let n := (v0 * 262144 + v1 * 4096)%N in
              Some [byte_of_N (n / 65536)]
            else
              match value c2 with
              | Some v2 =>
                  let n := (v0 * 262144 + v1 * 4096 + v2 * 64)%N in
                  Some [byte_of_N (n / 65536); byte_of_N (n / 256)]
              | None => None
              end
          else
            match value c2, value c3, decode rest with
            | Some v2, Some v3, Some l =>
                let n := (v0 * 262144 + v1 * 4096 + v2 * 64 + v3)%N in
                Some (byte_of_N (n / 65536) :: byte_of_N (n / 256) :: byte_of_N n :: l)
            | _, _, _ => None
            end
      | _, _ => None
      end
  | _ => None
  end.

End Base64.

(** [arrayBufferToBase64]: the loop appends one character per byte, then
    [btoa] encodes the binary string. *)
Definition arrayBufferToBase64 (buffer : list byte) : string :=
  let binary :=
    fold_left (fun binary b => (binary +:+ String (ascii_of_byte b) EmptyString)%string)
              buffer EmptyString in
  Base64.btoa binary.

(** ** The archive decoder and TDS classifier *)

Record ExtractedFile : Type := { content : string; encoding : string }.

(** The object [processZip] returns. [files] is a JavaScript object used as
    a map: an association list in insertion order, one pair per key. *)
Record PackageFiles : Type := {
  name : JsVal;
  files : list (string * ExtractedFile);
  totalFiles : nat;
  dependencies : list string
}.

Definition texExtensions : list string :=
  [".sty"; ".cls"; ".def"; ".cfg"; ".tex"; ".fd"; ".clo"; ".ltx"].

Definition fontExtensions : list string :=
  [".pfb"; ".pfm"; ".afm"; ".tfm"; ".vf"; ".map"; ".enc"].

Definition extToDir : list (string * string) :=
  [(".pfb", "fonts/type1/public"); (".pfm", "fonts/type1/public");
   (".afm", "fonts/afm/public"); (".tfm", "fonts/tfm/public");
   (".vf", "fonts/vf/public"); (".map", "fonts/map/dvips");
   (".enc", "fonts/enc/dvips")].

Definition fontKinds : list string :=
  ["type1"; "tfm"; "vf"; "afm"; "enc"; "map"; "opentype"; "truetype"].

(** [arr.includes(x)] on an array of strings. *)
Definition array_includes (l : list string) (x : string) : bool :=
  existsb (String.eqb x) l.

Fixpoint assoc {A : Type} (k : string) (l : list (string * A)) : option A :=
  match l with
  | [] => None
  | (k', v) :: r => if String.eqb k k' then Some v else assoc k r
  end.

(** [obj[k] = v]: an existing key keeps its place, a new key goes last. *)
Fixpoint obj_set {A : Type} (k : string) (v : A) (l : list (string * A))
  : list (string * A) :=
  match l with
  | [] => [(k, v)]
  | (k', v') :: r => if String.eqb k k' then (k, v) :: r else (k', v') :: obj_set k v r
  end.

(** [set.add(d)] on a [Set<string>], kept in insertion order. *)
Definition set_add (d : string) (s : list string) : list string :=
  if array_includes s d then s else s ++ [d].

Definition is_slash (c : ascii) : bool := Ascii.eqb c "/"%char.
Definition not_slash (c : ascii) : bool := negb (is_slash c).

(** [filePath.match(/<lit>([^/]+)/)]: group 1 of the leftmost match, where
    [lit] is a literal. *)
Fixpoint match_segment_after (lit s : string) : option string :=
  let here :=
    match Js.strip_prefix lit s with
    | Some r => match fst (Js.span not_slash r) with
                | EmptyString => None
                | seg => Some seg
                end
    | None => None
    end in
  match here with
  | Some seg => Some seg
  | None => match s with
            | EmptyString => None
            | String _ t => match_segment_after lit t
            end
  end.

(** The tail [(\/[^/]+)*\/([^/]+)$]: one or more groups of a slash followed
    by at least one other character, up to the end of the string.
    [in_segment] tells that the last slash has been followed by a character
    (it starts true, so that the first slash is accepted). *)
Fixpoint slash_segments (in_segment : bool) (s : string) : bool :=
  match s with
  | EmptyString => in_segment
  | String c t => if is_slash c then in_segment && slash_segments false t
                  else slash_segments true t
  end.

(** [fonts\/(type1|tfm|...)(\/[^/]+)*\/([^/]+)$] matched at the head. *)
Definition fonts_here (s : string) : bool :=
  match Js.strip_prefix "fonts/" s with
  | Some r =>
      existsb (fun kind => match Js.strip_prefix kind r with
                           | Some r' => match r' with
                                        | String c _ => is_slash c && slash_segments true r'
                                        | EmptyString => false
                                        end
                           | None => false
                           end) fontKinds
  | None => false
  end.

(** The alternative [\/] of [(?:^|\/)] at some position of [s]. *)
Fixpoint fonts_after_slash (s : string) : bool :=
  match s with
  | EmptyString => false
  | String c t => (is_slash c && fonts_here t) || fonts_after_slash t
  end.

(** [filePath.match(/(?:^|\/)fonts\/(type1|...)(\/[^/]+)*\/([^/]+)$/)]
    as a truth value. *)
Definition fontsMatch (filePath : string) : bool :=
  fonts_here filePath || fonts_after_slash filePath.

(** *** Dependency scanning

    [/\\RequirePackage(?:\[[^\]]*\])?\{([^}]+)\}/g] *)

Definition RequirePackage_macro : string :=
  String "\"%char "RequirePackage".

Definition not_char (x : ascii) (c : ascii) : bool := negb (Ascii.eqb c x).

(** [\{([^}]+)\}] at the head of [s]: group 1 and what follows the match. *)
Definition match_braces (s : string) : option (string * string) :=
  match s with
  | String c t =>
      if Ascii.eqb c "{"%char then
        match Js.span (not_char "}"%char) t with
        | (String g0 g, String _ r) => Some (String g0 g, r)
        | _ => None
        end
      else None
  | EmptyString => None
  end.

(** [\[[^\]]*\]] at the head of [s]: what follows the match. *)
Definition match_options (s : string) : option string :=
  match s with
  | String c t =>
      if Ascii.eqb c "["%char then
        match snd (Js.span (not_char "]"%char) t) with
        | String _ r => Some r
        | EmptyString => None
        end
      else None
  | EmptyString => None
  end.

(** The whole pattern at the head of [s]. The optional group is tried first;
    when the rest then fails, the matcher backtracks to the empty
    alternative. *)
Definition match_RequirePackage (s : string) : option (string * string) :=
  match Js.strip_prefix RequirePackage_macro s with
  | Some r =>
      match match_options r with
      | Some r1 => match match_braces r1 with
                   | Some m => Some m
                   | None => match_braces r
                   end
      | None => match_braces r
      end
  | None => None
  end.

(** [text.matchAll(...)]: group 1 of every match, left to right; after a
    match the search resumes where it ended. [skip] counts the characters of
    the current match still to pass over. *)
Fixpoint matchAll_from (skip : nat) (s : string) : list string :=
  match s with
  | EmptyString => []
  | String _ t =>
      match skip with
      | S k => matchAll_from k t
      | O => match match_RequirePackage s with
             | Some (g, r) =>
                 g :: matchAll_from (String.length s - String.length r - 1) t
             | None => matchAll_from 0 t
             end
      end
  end.

Definition matchAll_RequirePackage (textContent : string) : list string :=
  matchAll_from 0 textContent.

(** [/^[a-zA-Z][a-zA-Z0-9-]*$/.test(d)] *)
Definition is_identifier (d : string) : bool :=
  match d with
  | EmptyString => false
  | String c t =>
      Js.is_alpha c &&
      Js.all_chars (fun x => Js.is_alpha x || Js.is_digit x || Ascii.eqb x "-"%char) t
  end.

(** The body of the [for (const match of reqMatches)] loop. *)
Definition add_dependencies (detectedDeps : list string) (group1 : string)
  : list string :=
  let deps := map Js.trim (Js.split group1 ","%char) in
  fold_left (fun acc d => set_add d acc) (List.filter is_identifier deps) detectedDeps.

Definition scan_dependencies (textContent : string) (detectedDeps : list string)
  : list string :=
  fold_left add_dependencies (matchAll_RequirePackage textContent) detectedDeps.

(** *** Path classification *)

(** The guard that skips documentation and source trees. *)
Definition skipped (filePath : string) : bool :=
  Js.includes filePath "/doc/" || Js.startsWith filePath "doc/" ||
  Js.includes filePath "/source/" || Js.startsWith filePath "source/".

Definition file_ext (filePath : string) : string :=
  Js.toLowerCase (Js.substringFrom filePath (Js.lastIndexOf filePath "."%char)).

Definition file_name (filePath : string) : string :=
  Js.pop_or_empty (Js.split filePath "/"%char).

Definition texTargetDir (filePath : string) (pkgName : JsVal) : string :=
  let targetDir := "/texlive/texmf-dist/tex/latex/" +:+ ToString pkgName in
  if Js.includes filePath "/tex/latex/" then
    match match_segment_after "/tex/latex/" filePath with
    | Some m => "/texlive/texmf-dist/tex/latex/" +:+ m
    | None => targetDir
    end
  else if Js.includes filePath "/tex/generic/" then
    match match_segment_after "/tex/generic/" filePath with
    | Some m => "/texlive/texmf-dist/tex/generic/" +:+ m
    | None => targetDir
    end
  else targetDir.

Definition fontTargetDir (filePath ext : string) (pkgName : JsVal) : string :=
  if fontsMatch filePath then
    let fontsIdx := Js.indexOf filePath "fonts/" in
    let fontsPath :=
      Js.substring filePath fontsIdx (Js.lastIndexOf filePath "/"%char) in
    "/texlive/texmf-dist/" +:+ fontsPath
  else
    let baseDir := match assoc ext extToDir with
                   | Some d => d
                   | None => "fonts/type1/public"
                   end in
    "/texlive/texmf-dist/" +:+ baseDir +:+ "/" +:+ ToString pkgName.

(** The result of a call that may throw. *)
Inductive Outcome (A : Type) : Type :=
| Returned (a : A)
| Thrown (message : string).
Arguments Returned {A} a.
Arguments Thrown {A} message.

Section Decoder.

(** [unzipSync] of fflate: the entries of the archive in the order
    [Object.entries] lists them, or an exception on a malformed archive. *)
Variable unzipSync : list byte -> Outcome (list (string * list byte)).

(** [new TextDecoder().decode] *)
Variable TextDecoder_decode : list byte -> string.

(** The loop state of [processZip]: [result] and [detectedDeps]. *)
Definition DecoderState : Type :=
  (list (string * ExtractedFile) * list string)%type.

(** One round of [for (const [filePath, content] of Object.entries(files))]. *)
Definition processEntry (pkgName : JsVal) (st : DecoderState)
           (entry : string * list byte) : DecoderState :=
  let '(result, detectedDeps) := st in
  let '(filePath, bytes) := entry in
  let ext := file_ext filePath in
  let fileName := file_name filePath in
  if skipped filePath then st
  else if array_includes texExtensions ext then
    let targetDir := texTargetDir filePath pkgName in
    let textContent := TextDecoder_decode bytes in
    (obj_set (targetDir +:+ "/" +:+ fileName)
             {| content := textContent; encoding := "text" |} result,
     scan_dependencies textContent detectedDeps)
  else if array_includes fontExtensions ext then
    let targetDir := fontTargetDir filePath ext pkgName in
    let base64Content := arrayBufferToBase64 bytes in
    (obj_set (targetDir +:+ "/" +:+ fileName)
             {| content := base64Content; encoding := "base64" |} result,
     detectedDeps)
  else st.

(** [processZip] after [unzipSync]: the loop and the construction of the
    result; [None] is JavaScript's [null]. *)
Definition processFiles (entries : list (string * list byte)) (pkgName : JsVal)
  : option PackageFiles :=
  let '(result, detectedDeps) := fold_left (processEntry pkgName) entries ([], []) in
  let fileCount := List.length result in
  let dependencies := List.filter (fun d => strict_neq d pkgName) detectedDeps in
  if (fileCount =? 0)%nat then None
  else Some {| name := pkgName; files := result;
               totalFiles := fileCount; dependencies := dependencies |}.

Definition processZip (zipBuffer : list byte) (pkgName : JsVal)
  : Outcome (option PackageFiles) :=
  match unzipSync zipBuffer with
  | Thrown e => Thrown e
  | Returned entries => Returned (processFiles entries pkgName)
  end.

End Decoder.

(** ** The worker's environment *)

(** What an R2 object or a response body holds: the string or the buffer it
    was made from. *)
Inductive Blob : Type :=
| BlobText (s : string)
| BlobBytes (l : list byte).

#[local] Set Warnings "-register-all".

(** JSON values, as passed to [JSON.stringify]. *)
Inductive Json : Type :=
| JNull
| JString (s : string)
| JNumber (n : Z)
| JArray (items : list Json)
| JObject (fields : list (string * Json)).

(** The fields the worker reads from a CTAN registry answer
    ([https://ctan.org/json/2.0/pkg/<name>]). An absent field is [None];
    [errors] is the truth value of [info.errors]. *)
Record CtanInfo : Type := {
  errors : bool;
  info_name : option string;
  install : option string;
  ctan_path : option string;
  miktex : option string;
  texlive : option string
}.

(** An upstream [Response], as far as the worker looks at it. *)
Record Fetched : Type := {
  fetched_status : Z;
  fetched_json : Outcome CtanInfo;
  fetched_arrayBuffer : list byte
}.

(** [response.ok] *)
Definition ok (r : Fetched) : bool :=
  (200 <=? fetched_status r)%Z && (fetched_status r <=? 299)%Z.

(** What [fetch] does: it resolves with a response or rejects. *)
Inductive NetResult : Type :=
| Responded (r : Fetched)
| NetworkError (message : string).

(** The external operations of one invocation, in the order performed. *)
Inductive Event : Type :=
| EvGet (key : string)
| EvPut (key : string) (value : Blob)
| EvFetch (url : string).

(** The state an invocation runs in: the R2 bucket, the answers the network
    will give to the successive calls of [fetch] (an exhausted list is a
    transport failure), and the trace so far. *)
Record World : Type := {
  bucket : gmap string Blob;
  pending : list NetResult;
  trace : list Event
}.

(** The response the worker returns. *)
Record Response : Type := {
  status : Z;
  headers : list (string * string);
  body : Blob
}.

Definition Async (A : Type) : Type := World -> Outcome A * World.

Definition ret {A : Type} (a : A) : Async A := fun w => (Returned a, w).

Definition throw {A : Type} (e : string) : Async A := fun w => (Thrown e, w).

Definition bind {A B : Type} (m : Async A) (k : A -> Async B) : Async B :=
  fun w => match m w with
           | (Returned a, w') => k a w'
           | (Thrown e, w') => (Thrown e, w')
           end.

(** [try { m } catch (e) { handler e }] *)
Definition try_catch {A : Type} (m : Async A) (handler : string -> Async A)
  : Async A :=
  fun w => match m w with
           | (Returned a, w') => (Returned a, w')
           | (Thrown e, w') => handler e w'
           end.

Declare Scope async_scope.
Delimit Scope async_scope with async.
Notation "x <- m ;; k" := (bind m (fun x => k))
  (at level 100, m at next level, right associativity) : async_scope.
Local Open Scope async_scope.

Definition record (e : Event) (w : World) : World :=
  {| bucket := bucket w; pending := pending w; trace := trace w ++ [e] |}.

(** [env.BUNDLES.get(key)] *)
Definition BUNDLES_get (key : string) : Async (option Blob) :=
  fun w => (Returned (bucket w !! key), record (EvGet key) w).

(** [env.BUNDLES.put(key, value, ...)] *)
Definition BUNDLES_put (key : string) (value : Blob) : Async unit :=
  fun w => (Returned tt,
            {| bucket := <[key := value]> (bucket w);
               pending := pending w;
               trace := trace w ++ [EvPut key value] |}).

(** [fetch(url, ...)] *)
Definition fetch (url : string) : Async Fetched :=
  fun w => match pending w with
           | Responded r :: rest =>
               (Returned r,
                {| bucket := bucket w; pending := rest;
                   trace := trace w ++ [EvFetch url] |})
           | NetworkError e :: rest =>
               (Thrown e,
                {| bucket := bucket w; pending := rest;
                   trace := trace w ++ [EvFetch url] |})
           | [] => (Thrown "fetch failed", record (EvFetch url) w)
           end.

(** [await response.json()] *)
Definition json (r : Fetched) : Async CtanInfo :=
  match fetched_json r with
  | Returned info => ret info
  | Thrown e => throw e
  end.

(** Truthiness of an optional string field. *)
Definition truthy (o : option string) : bool :=
  match o with
  | Some s => Js.truthy s
  | None => false
  end.

(** [a || b] on optional string fields. *)
Definition or_else (a b : option string) : option string :=
  if truthy a then a else b.

Definition utf8_length (s : string) : Z :=
  fold_right (fun c n => ((if (Js.code c <? 128)%nat then 1 else 2) + n)%Z) 0%Z
             (list_ascii_of_string s).

Definition blob_size (b : Blob) : Z :=
  match b with
  | BlobText s => utf8_length s
  | BlobBytes l => Z.of_nat (List.length l)
  end.

(** ** Constants of the worker *)

Definition TEXLIVE_ARCHIVE_BASE : string :=
  "https://ftp.tu-chemnitz.de/pub/tug/historic/systems/texlive/2023/tlnet-final/archive".

Definition CORS_HEADERS : list (string * string) :=
  [("Access-Control-Allow-Origin", "*");
   ("Access-Control-Allow-Methods", "GET, POST, OPTIONS");
   ("Access-Control-Allow-Headers", "Content-Type")].

Definition CTAN_CACHE_VERSION : string := "v5".

Definition bootstrapAliases : list (string * string) :=
  [("etex", "etex-pkg"); ("tikz", "pgf")].

(** The members every object literal inherits from [Object.prototype]. *)
Definition Object_prototype : list (string * JsVal) :=
  [("constructor", VFunction "Object");
   ("__defineGetter__", VFunction "__defineGetter__");
   ("__defineSetter__", VFunction "__defineSetter__");
   ("hasOwnProperty", VFunction "hasOwnProperty");
   ("__lookupGetter__", VFunction "__lookupGetter__");
   ("__lookupSetter__", VFunction "__lookupSetter__");
   ("isPrototypeOf", VFunction "isPrototypeOf");
   ("propertyIsEnumerable", VFunction "propertyIsEnumerable");
   ("toString", VFunction "toString");
   ("valueOf", VFunction "valueOf");
   ("__proto__", VObjectPrototype);
   ("toLocaleString", VFunction "toLocaleString")].

(** [obj[key]] on an object literal with string values: an own property,
    else a member of [Object.prototype], else [undefined]. *)
Definition get_property (obj : list (string * string)) (key : string)
  : option JsVal :=
  match assoc key obj with
  | Some s => Some (VString s)
  | None => assoc key Object_prototype
  end.

(** [bootstrapAliases[requestedPkg] || requestedPkg] *)
Definition resolve_alias (requestedPkg : string) : JsVal :=
  match get_property bootstrapAliases requestedPkg with
  | Some (VString s) => if Js.truthy s then VString s else VString requestedPkg
  | Some v => v
  | None => VString requestedPkg
  end.

Definition registry_url (pkgName : JsVal) : string :=
  "https://ctan.org/json/2.0/pkg/" +:+ ToString pkgName.

Definition mirror (path : string) : string := "https://mirrors.ctan.org" +:+ path.

(** The guard shared by the three package-name endpoints. *)
Definition bad_length (pkgName : string) : bool :=
  negb (Js.truthy pkgName) || (String.length pkgName <? 2)%nat
  || (50 <? String.length pkgName)%nat.

(** [/[^a-zA-Z0-9_-]/.test(pkgName)] *)
Definition bad_characters (pkgName : string) : bool :=
  Js.any_char (fun c => negb (Js.is_alpha c || Js.is_digit c
                              || Ascii.eqb c "_"%char || Ascii.eqb c "-"%char))
              pkgName.

(** ** Values shared by the handlers *)

(** The object [{ error: message }]. *)
Definition error_object (message : string) : Json :=
  JObject [("error", JString message)].

(** The value of an optional field that has been tested truthy. *)
Definition field (o : option string) : string :=
  match o with
  | Some s => s
  | None => EmptyString
  end.

Definition json_or_null (o : option string) : Json :=
  if truthy o then JString (field o) else JNull.

(** The object [processZip] returns, as [JSON.stringify] sees it: a [name]
    that is a function is left out, [Object.prototype] has no own
    enumerable property. *)
Definition json_of_result (r : PackageFiles) : Json :=
  JObject
    (match name r with
     | VString s => [("name", JString s)]
     | VFunction _ => []
     | VObjectPrototype => [("name", JObject [])]
     end ++
     [("files",
       JObject (map (fun kv : string * ExtractedFile =>
                       (fst kv, JObject [("content", JString (content (snd kv)));
                                         ("encoding", JString (encoding (snd kv)))]))
                    (files r)));
      ("totalFiles", JNumber (Z.of_nat (totalFiles r)));
      ("dependencies", JArray (map JString (dependencies r)))]).

(** The response of [handleCtanFetch] for a freshly decoded package. *)
Definition miss_response (jsonData source : string) : Response :=
  {| status := 200;
     headers := [("Content-Type", "application/json"); ("X-Cache", "MISS");
                 ("X-Source", source)] ++ CORS_HEADERS;
     body := BlobText jsonData |}.

Definition ctan_cache_key (requestedPkg : string) : string :=
  "ctan-cache/" +:+ CTAN_CACHE_VERSION +:+ "/" +:+ requestedPkg +:+ ".json".

(** [info.miktex || info.texlive || pkgName] *)
Definition parent_of (info : CtanInfo) (pkgName : JsVal) : JsVal :=
  if truthy (miktex info) then VString (field (miktex info))
  else if truthy (texlive info) then VString (field (texlive info))
  else pkgName.

(** * Vocabulary of the specification *)

Definition digit_ok (k : N) : bool :=
  match Base64.value (Base64.digit k) with
  | Some j => N.eqb j k
  | None => false
  end && negb (Ascii.eqb (Base64.digit k) Base64.pad).

(** The characters a package name may contain: [[A-Za-z0-9_-]]. *)
Definition name_char (c : ascii) : Prop :=
  (65 <= Js.code c <= 90 \/ 97 <= Js.code c <= 122 \/ 48 <= Js.code c <= 57
   \/ c = "_"%char \/ c = "-"%char)%nat.

(** A name the endpoints must refuse: its length is outside [2, 50] or one
    of its characters is outside [[A-Za-z0-9_-]]. *)
Definition invalid_name (pkgName : string) : Prop :=
  String.length pkgName < 2 \/ 50 < String.length pkgName
  \/ exists c, In c (list_ascii_of_string pkgName) /\ ~ name_char c.

Definition is_fetch (e : Event) : Prop :=
  match e with
  | EvFetch _ => True
  | _ => False
  end.

(** The validity invariant of a package request: a length in [2, 50] and
    only characters of [[A-Za-z0-9_-]]. *)
Definition valid_name (pkgName : string) : Prop :=
  2 <= String.length pkgName <= 50 /\
  forall c, In c (list_ascii_of_string pkgName) -> name_char c.

(** The registry answers with usable metadata [info]. *)
Definition registry_ok (n : NetResult) (info : CtanInfo) : Prop :=
  exists r, n = Responded r /\ ok r = true /\ fetched_json r = Returned info
            /\ errors info = false.

(** The registry lookup fails: a non-success status, or an error payload. *)
Definition registry_fails (n : NetResult) : Prop :=
  exists r, n = Responded r /\
            (ok r = false \/
             exists info, ok r = true /\ fetched_json r = Returned info
                          /\ errors info = true).

(** A download is answered with a non-success status. *)
Definition refused (n : NetResult) : Prop :=
  exists r, n = Responded r /\ ok r = false.

(** A download fails: a non-success status, or a transport failure. *)
Definition fails (n : NetResult) : Prop :=
  refused n \/ exists e, n = NetworkError e.

(** A download is answered with the archive [buf]. *)
Definition delivers (n : NetResult) (buf : list byte) : Prop :=
  exists r, n = Responded r /\ ok r = true /\ fetched_arrayBuffer r = buf.

(** A registry lookup gives no metadata: the fetch rejects, the answer has
    a non-success status or an error payload, or a 2xx answer does not
    parse. *)
Definition lookup_fails (n : NetResult) : Prop :=
  (exists e, n = NetworkError e) \/ registry_fails n \/
  (exists r e, n = Responded r /\ ok r = true /\ fetched_json r = Thrown e).

Definition install_url (info : CtanInfo) : string :=
  mirror ("/install" +:+ field (install info)).

Definition tds_url (info : CtanInfo) : string :=
  mirror (field (ctan_path info) +:+ ".tds.zip").

Definition zip_url (info : CtanInfo) : string :=
  mirror (field (ctan_path info) +:+ ".zip").

(** The world after fetching [urls] in turn, with [rest] still to answer. *)
Definition after (w : World) (urls : list string) (rest : list NetResult) : World :=
  {| bucket := bucket w; pending := rest; trace := trace w ++ map EvFetch urls |}.

(** The world after [BUNDLES.put(key, jsonData)]. *)
Definition stored (key jsonData : string) (w : World) : World :=
  {| bucket := <[key := BlobText jsonData]> (bucket w);
     pending := pending w;
     trace := trace w ++ [EvPut key (BlobText jsonData)] |}.

(** The parent package [handleCtanFetch] derives from the answer to its own
    registry lookup; [None] when the lookup throws. *)
Definition resolved_parent (n : NetResult) (pkgName : JsVal) : option JsVal :=
  match n with
  | Responded r =>
      if ok r then
        match fetched_json r with
        | Returned info =>
            Some (if negb (errors info) then parent_of info pkgName else pkgName)
        | Thrown _ => None
        end
      else Some pkgName
  | NetworkError _ => None
  end.

(** The world after the cache lookup and the registry lookup. *)
Definition looked_up (requestedPkg : string) (rest : list NetResult) (w : World)
  : World :=
  {| bucket := bucket w; pending := rest;
     trace := trace w ++ [EvGet (ctan_cache_key requestedPkg);
                          EvFetch (registry_url (resolve_alias requestedPkg))] |}.

Definition texlive_cache_key (pkgName : string) : string :=
  "texlive-cache/" +:+ pkgName +:+ ".tar.xz".

Definition texlive_url (pkgName : string) : string :=
  TEXLIVE_ARCHIVE_BASE +:+ "/" +:+ pkgName +:+ ".tar.xz".

(** The world after the passthrough proxy has missed its cache and
    fetched the archive. *)
Definition proxied (pkgName : string) (rest : list NetResult) (w : World) : World :=
  {| bucket := bucket w; pending := rest;
     trace := trace w ++ [EvGet (texlive_cache_key pkgName);
                          EvFetch (texlive_url pkgName)] |}.

(** The world after [BUNDLES.put(key, body)] of a raw archive. *)
Definition stored_bytes (key : string) (buf : list byte) (w : World) : World :=
  {| bucket := <[key := BlobBytes buf]> (bucket w);
     pending := pending w;
     trace := trace w ++ [EvPut key (BlobBytes buf)] |}.

(** [path] lies under a directory named [dir]: [dir/] begins the path or
    follows a slash. *)
Definition lies_under (dir path : string) : Prop :=
  exists pre post,
    path = (pre +:+ dir +:+ "/" +:+ post)%string /\
    (pre = EmptyString \/ exists pre', pre = (pre' +:+ "/")%string).

Definition excluded (path : string) : Prop :=
  lies_under "doc" path \/ lies_under "source" path.

(** The macro call of the specification's example. *)
Definition example_macro : string := "\RequirePackage[options]{amsmath,graphicx}".

Definition no_backslash (s : string) : Prop :=
  Js.all_chars (not_char "\"%char) s = true.

(** The text [b] after an occurrence of [\RequirePackage] leaves a brace
    open: after an optional bracket group comes an opening brace that no
    closing brace follows. *)
Definition brace_left_open (b : string) : Prop :=
  exists options g,
    b = (options +:+ "{" +:+ g)%string /\
    (options = EmptyString \/
     exists o, options = ("[" +:+ o +:+ "]")%string
               /\ Js.all_chars (not_char "]"%char) o = true) /\
    Js.all_chars (not_char "}"%char) g = true.

(** No [\RequirePackage] in [pre] is left with an open brace. *)
Definition calls_closed (pre : string) : Prop :=
  forall a b, pre = (a +:+ RequirePackage_macro +:+ b)%string -> ~ brace_left_open b.

(** The text is empty or begins with a backslash. *)
Definition at_backslash (s : string) : Prop :=
  match s with
  | EmptyString => True
  | String c _ => c = "\"%char
  end.

(** A file the decoder treats as TeX source: not under an excluded tree and
    with a TeX-source extension. *)
Definition tex_source (filePath : string) : Prop :=
  skipped filePath = false /\
  array_includes texExtensions (file_ext filePath) = true.

Definition example_tail : string := "RequirePackage[options]{amsmath,graphicx}".

(** The set of detected dependencies only grows, has no duplicates, and
    holds identifiers only. *)
Definition deps_invariant (deps : list string) : Prop :=
  List.NoDup deps /\ forall d, In d deps -> is_identifier d = true.

(** * A sample platform and sample worlds

    Concrete stand-ins for the platform functions and for the network, used
    to run the handlers on explicit inputs. *)

(** [TextDecoder.decode] on ASCII input. *)
Definition ascii_decode (l : list byte) : string := string_of_list_byte l.

(** An [unzipSync] that finds the same entries in every buffer. *)
Definition unzip_to (entries : list (string * list byte))
  : list byte -> Outcome (list (string * list byte)) :=
  fun _ => Returned entries.

Definition quoted (s : string) : string :=
  String (ascii_of_nat 34) (s +:+ String (ascii_of_nat 34) EmptyString).

(** A compact JSON printer (strings are printed without escapes). *)
Fixpoint print_json (j : Json) : string :=
  match j with
  | JNull => "null"
  | JString s => quoted s
  | JNumber n => Js.numberToString n
  | JArray items =>
      "[" +:+ (fix print_items (l : list Json) : string :=
                 match l with
                 | [] => EmptyString
                 | [x] => print_json x
                 | x :: r => print_json x +:+ "," +:+ print_items r
                 end) items +:+ "]"
  | JObject fields =>
      "{" +:+ (fix print_fields (l : list (string * Json)) : string :=
                 match l with
                 | [] => EmptyString
                 | [(k, v)] => quoted k +:+ ":" +:+ print_json v
                 | (k, v) :: r => quoted k +:+ ":" +:+ print_json v +:+ "," +:+ print_fields r
                 end) fields +:+ "}"
  end.

Definition world_with (objects : gmap string Blob) (answers : list NetResult) : World :=
  {| bucket := objects; pending := answers; trace := [] |}.

(** The registry answers 200 with metadata [info]. *)
Definition registry_answer (info : CtanInfo) : NetResult :=
  Responded {| fetched_status := 200;
               fetched_json := Returned info;
               fetched_arrayBuffer := [] |}.

(** An upstream answers with status [st] and a body that is not JSON. *)
Definition status_answer (st : Z) : NetResult :=
  Responded {| fetched_status := st;
               fetched_json := Thrown "Unexpected token < in JSON";
               fetched_arrayBuffer := [] |}.

(** The mirror delivers the archive [buf]. *)
Definition archive_answer (buf : list byte) : NetResult :=
  Responded {| fetched_status := 200;
               fetched_json := Thrown "Unexpected token P in JSON";
               fetched_arrayBuffer := buf |}.

(** Metadata whose install path is a TDS zip, as CTAN publishes them. *)
Definition info_foo : CtanInfo :=
  {| errors := false;
     info_name := Some "foo";
     install := Some "/macros/latex/contrib/foo.tds.zip";
     ctan_path := Some "/macros/latex/contrib/foo";
     miktex := Some "foo";
     texlive := Some "foo" |}.

(** Metadata whose install path is not a TDS zip. *)
Definition info_foo_plain : CtanInfo :=
  {| errors := false;
     info_name := Some "foo";
     install := Some "/macros/latex/contrib/foo.zip";
     ctan_path := Some "/macros/latex/contrib/foo";
     miktex := Some "foo";
     texlive := Some "foo" |}.

(** A one-file archive and its bytes. *)
Definition sty_text : string := "\RequirePackage[options]{amsmath,graphicx}".
Definition sty_bytes : list byte := list_byte_of_string sty_text.
Definition sty_archive : list (string * list byte) :=
  [("foo/tex/latex/bar/bar.sty", sty_bytes)].
Definition pfb_bytes : list byte := [Byte.x80; Byte.x01; Byte.xff; Byte.x00].
Definition pfb_archive : list (string * list byte) :=
  [("fonts/type1/public/bar/bar.pfb", pfb_bytes)].
Definition doc_archive : list (string * list byte) :=
  [("doc/manual.pdf", list_byte_of_string "%PDF");
   ("source/bar.dtx", list_byte_of_string "% \iffalse")].

(** A TeX file in which an unfinished macro call swallows the next one. *)
Definition swallowed_text : string :=
  "\RequirePackage{\RequirePackage[options]{amsmath,graphicx}".

(** The status of the response an invocation ended with. *)
Definition answered (out : Outcome Response * World) : option Z :=
  match fst out with
  | Returned r => Some (status r)
  | Thrown _ => None
  end.

(** The URLs fetched during an invocation, in order. *)
Definition fetched_urls (out : Outcome Response * World) : list string :=
  flat_map (fun e => match e with EvFetch u => [u] | _ => [] end) (trace (snd out)).

(** ** The handlers *)

Section Worker.

Variable unzipSync : list byte -> Outcome (list (string * list byte)).
Variable TextDecoder_decode : list byte -> string.

(** [JSON.stringify] *)
Variable JSON_stringify : Json -> string.

(** [jsonResponse(data, status)] *)
Definition jsonResponse (data : Json) (st : Z) : Response :=
  {| status := st;
     headers := ("Content-Type", "application/json") :: CORS_HEADERS;
     body := BlobText (JSON_stringify data) |}.

(** [await cached.text()] *)
Definition blob_text (b : Blob) : string :=
  match b with
  | BlobText s => s
  | BlobBytes l => TextDecoder_decode l
  end.

(** A synchronous call of [processZip] inside an asynchronous function. *)
Definition call_processZip (zipBuffer : list byte) (pkgName : JsVal)
  : Async (option PackageFiles) :=
  fun w => (processZip unzipSync TextDecoder_decode zipBuffer pkgName, w).

(** [handleTexLiveProxy]: the raw TexLive archive, cached in R2. *)
Definition handleTexLiveProxy (pkgName : string) : Async Response :=
  try_catch
    (if bad_length pkgName then
       ret (jsonResponse (error_object "Invalid package name") 400)
     else if bad_characters pkgName then
       ret (jsonResponse (error_object "Invalid package name characters") 400)
     else
       let cacheKey := "texlive-cache/" +:+ pkgName +:+ ".tar.xz" in
       cached <- BUNDLES_get cacheKey ;;
       match cached with
       | Some object =>
           ret {| status := 200;
                  headers := [("Content-Type", "application/x-xz");
                              ("Content-Length", Js.numberToString (blob_size object));
                              ("X-Cache", "HIT")] ++ CORS_HEADERS;
                  body := object |}
       | None =>
           let url := TEXLIVE_ARCHIVE_BASE +:+ "/" +:+ pkgName +:+ ".tar.xz" in
           response <- fetch url ;;
           if negb (ok response) then
             if (fetched_status response =? 404)%Z then
               ret (jsonResponse (error_object "Package not found in TexLive 2023") 404)
             else
               ret (jsonResponse
                      (error_object ("TexLive fetch failed: "
                                     +:+ Js.numberToString (fetched_status response)))
                      502)
           else
             let body := fetched_arrayBuffer response in
             _ <- BUNDLES_put cacheKey (BlobBytes body) ;;
             ret {| status := 200;
                    headers := [("Content-Type", "application/x-xz");
                                ("Content-Length",
                                 Js.numberToString (Z.of_nat (List.length body)));
                                ("X-Cache", "MISS")] ++ CORS_HEADERS;
                    body := BlobBytes body |}
       end)
    (fun e => ret (jsonResponse (error_object ("TexLive proxy error: " +:+ e)) 500)).

(** [handleCtanPkgInfo]: the registry metadata of a package. *)
Definition handleCtanPkgInfo (pkgName : string) : Async Response :=
  try_catch
    (if bad_length pkgName then
       ret (jsonResponse (error_object "Invalid package name") 400)
     else if bad_characters pkgName then
       ret (jsonResponse (error_object "Invalid package name characters") 400)
     else
       response <- fetch (registry_url (VString pkgName)) ;;
       if negb (ok response) then
         ret (jsonResponse (error_object "Package not found") 404)
       else
         data <- json response ;;
         if errors data then
           ret (jsonResponse (error_object "Package not found") 404)
         else
           ret (jsonResponse
                  (JObject
                     [("name", JString (field (or_else (info_name data) (Some pkgName))));
                      ("contained_in", json_or_null (or_else (texlive data) (miktex data)));
                      ("ctan_path", json_or_null (ctan_path data))])
                  200))
    (fun e => ret (jsonResponse (error_object ("CTAN lookup error: " +:+ e)) 500)).

(** [tryCtanTdsZip]: the TDS archive of a package, decoded, or [null]. *)
Definition tryCtanTdsZip (pkgName : JsVal) : Async (option PackageFiles) :=
  try_catch
    (infoResp <- fetch (registry_url pkgName) ;;
     if negb (ok infoResp) then ret None
     else
       info <- json infoResp ;;
       if errors info then ret None
       else
         let downloadUrl : option string :=
           if truthy (install info) then
             Some (mirror ("/install" +:+ field (install info)))
           else if truthy (ctan_path info) then
             Some (mirror (field (ctan_path info) +:+ ".tds.zip"))
           else None in
         match downloadUrl with
         | None => ret None
         | Some downloadUrl =>
             response <- fetch downloadUrl ;;
             if negb (ok response) then
               if truthy (ctan_path info) && negb (Js.includes downloadUrl ".tds.zip")
               then
                 let altUrl := mirror (field (ctan_path info) +:+ ".tds.zip") in
                 altResp <- fetch altUrl ;;
                 if ok altResp then
                   call_processZip (fetched_arrayBuffer altResp) pkgName
                 else ret None
               else ret None
             else call_processZip (fetched_arrayBuffer response) pkgName
         end)
    (fun _ => ret None).

(** [tryCtanSourceZip]: the source archive of a package, decoded, or [null]. *)
Definition tryCtanSourceZip (pkgName : JsVal) : Async (option PackageFiles) :=
  try_catch
    (infoResp <- fetch (registry_url pkgName) ;;
     if negb (ok infoResp) then ret None
     else
       info <- json infoResp ;;
       if errors info || negb (truthy (ctan_path info)) then ret None
       else
         let downloadUrl := mirror (field (ctan_path info) +:+ ".zip") in
         response <- fetch downloadUrl ;;
         if negb (ok response) then ret None
         else call_processZip (fetched_arrayBuffer response) pkgName)
    (fun _ => ret None).

(** The second half of [handleCtanFetch]: the fallback chain, from the call
    of [tryCtanTdsZip] to the not-found answer. *)
Definition fallback_chain (cacheKey : string) (pkgName parentPkg : JsVal)
  : Async Response :=
  ctanResult <- tryCtanTdsZip parentPkg ;;
  match ctanResult with
  | Some r =>
      let jsonData := JSON_stringify (json_of_result r) in
      _ <- BUNDLES_put cacheKey (BlobText jsonData) ;;
      ret (miss_response jsonData "ctan")
  | None =>
      altResult <- tryCtanSourceZip pkgName ;;
      match altResult with
      | Some r =>
          let jsonData := JSON_stringify (json_of_result r) in
          _ <- BUNDLES_put cacheKey (BlobText jsonData) ;;
          ret (miss_response jsonData "ctan-source")
      | None => ret (jsonResponse (error_object "Package not found") 404)
      end
  end.

(** [handleCtanFetch]: the processed package, from the R2 cache or from
    CTAN. *)
Definition handleCtanFetch (requestedPkg : string) : Async Response :=
  try_catch
    (if bad_length requestedPkg then
       ret (jsonResponse (error_object "Invalid package name") 400)
     else if bad_characters requestedPkg then
       ret (jsonResponse (error_object "Invalid package name characters") 400)
     else
       let cacheKey := ctan_cache_key requestedPkg in
       cached <- BUNDLES_get cacheKey ;;
       match cached with
       | Some object =>
           let cachedData := blob_text object in
           ret {| status := 200;
                  headers := [("Content-Type", "application/json");
                              ("X-Cache", "HIT")] ++ CORS_HEADERS;
                  body := BlobText cachedData |}
       | None =>
           let pkgName := resolve_alias requestedPkg in
           infoResponse <- fetch (registry_url pkgName) ;;
           parentPkg <-
             (if ok infoResponse then
                info <- json infoResponse ;;
                if negb (errors info) then ret (parent_of info pkgName)
                else ret pkgName
              else ret pkgName) ;;
           fallback_chain cacheKey pkgName parentPkg
       end)
    (fun e => ret (jsonResponse (error_object ("CTAN fetch error: " +:+ e)) 500)).

(** ** Vocabulary that depends on the platform *)

(** The status-400 JSON error answers of the validation guard. *)
Definition is_400 (r : Response) : Prop :=
  exists message, r = jsonResponse (error_object message) 400.

(** What both stages guarantee whatever the network does: they return
    (every exception is caught), they only fetch, and a result they return
    is one [processZip] produced for the name they were given. *)
Definition stage_outcome (pkgName : JsVal) (w : World)
           (out : Outcome (option PackageFiles) * World) : Prop :=
  exists res w' t,
    out = (Returned res, w') /\ bucket w' = bucket w /\
    trace w' = trace w ++ t /\ Forall is_fetch t /\
    (forall r, res = Some r ->
       exists buf, processZip unzipSync TextDecoder_decode buf pkgName
                   = Returned (Some r)).

(** What a stage makes of a delivered archive: the decoded file set, or no
    result when it is empty or the archive is malformed. *)
Definition decoded (buf : list byte) (pkgName : JsVal) : option PackageFiles :=
  match processZip unzipSync TextDecoder_decode buf pkgName with
  | Returned res => res
  | Thrown _ => None
  end.

Definition not_found : Response :=
  jsonResponse (error_object "Package not found") 404.

Definition found (r : PackageFiles) (source : string) : Response :=
  miss_response (JSON_stringify (json_of_result r)) source.

(** The source stage as the chain uses it: a result is stored and answered
    200, no result is answered not-found. *)
Definition source_result (cacheKey : string) (pkgName : JsVal) (w1 : World)
  : Outcome Response * World :=
  match tryCtanSourceZip pkgName w1 with
  | (Returned (Some r), w2) =>
      (Returned (found r "ctan-source"),
       stored cacheKey (JSON_stringify (json_of_result r)) w2)
  | (Returned None, w2) => (Returned not_found, w2)
  | (Thrown e, w2) => (Thrown e, w2)
  end.

(** The chain runs the TDS stage, stops there when it has a result, else
    runs the source stage, and answers not-found when that has none
    either. *)
Definition chain_result (cacheKey : string) (pkgName parentPkg : JsVal)
           (w : World) : Outcome Response * World :=
  match tryCtanTdsZip parentPkg w with
  | (Returned (Some r), w1) =>
      (Returned (found r "ctan"),
       stored cacheKey (JSON_stringify (json_of_result r)) w1)
  | (Returned None, w1) => source_result cacheKey pkgName w1
  | (Thrown e, w1) => (Thrown e, w1)
  end.

End Worker.

(** ** The routing layer and the R2 file server *)

(** Bump this to invalidate edge cache for all files. *)
Definition CACHE_VERSION : string := "v22".

(** [new URL(request.url)]: the components of the parsed URL. The query is
    the list of its name-value pairs, as [url.searchParams] holds it. *)
Record URL : Type := {
  protocol : string;
  hostname : string;
  port : string;
  pathname : string;
  searchParams : list (string * string);
  fragment : string
}.

(** The incoming [Request]. *)
Record Request : Type := {
  request_method : string;
  request_url : URL
}.

(** [searchParams.set(name, value)]: the first pair named [name] takes the
    value and the other pairs of that name are removed; without such a pair
    a new one is appended. *)
Fixpoint searchParams_set (name value : string) (l : list (string * string))
  : list (string * string) :=
  match l with
  | [] => [(name, value)]
  | (k, v) :: r =>
      if String.eqb k name
      then (name, value) :: List.filter (fun kv => negb (String.eqb (fst kv) name)) r
      else (k, v) :: searchParams_set name value r
  end.

(** [cacheUrl.searchParams.set('_cv', CACHE_VERSION)] on a copy of the
    request URL. *)
Definition versioned (u : URL) : URL :=
  {| protocol := protocol u; hostname := hostname u; port := port u;
     pathname := pathname u;
     searchParams := searchParams_set "_cv" CACHE_VERSION (searchParams u);
     fragment := fragment u |}.

(** Header names are compared without regard to case. *)
Definition same_header (a b : string) : bool :=
  String.eqb (Js.toLowerCase a) (Js.toLowerCase b).

(** [headers.get(name)] on a header list that holds [name] at most once. *)
Fixpoint Headers_get (name : string) (l : list (string * string)) : option string :=
  match l with
  | [] => None
  | (k, v) :: r => if same_header k name then Some v else Headers_get name r
  end.

(** [headers.set(name, value)]: the first header named [name] takes the
    value and the others of that name are removed; without such a header a
    new one is appended. *)
Fixpoint Headers_set (name value : string) (l : list (string * string))
  : list (string * string) :=
  match l with
  | [] => [(name, value)]
  | (k, v) :: r =>
      if same_header k name
      then (name, value) :: List.filter (fun kv => negb (same_header (fst kv) name)) r
      else (k, v) :: Headers_set name value r
  end.

(** What [env.BUNDLES.get] resolves with, as far as [handleR2Request] looks
    at it: the body and [httpMetadata?.contentEncoding]; [object.size] is
    the size of the body. *)
Record R2ObjectBody : Type := {
  object_body : Blob;
  object_contentEncoding : option string
}.

(** The state a request is served in: the world of the package handlers,
    the content encoding that R2 objects were uploaded with, the edge cache
    [caches.default] by the URL of the cache key, and the [cache.put] calls
    handed to [ctx.waitUntil], which complete after the response. *)
Record Edge : Type := {
  world : World;
  contentEncoding : gmap string string;
  caches_default : gmap string Response;
  waitUntil : list (string * Response)
}.

Definition Handler (A : Type) : Type := Edge -> Outcome A * Edge.

Definition retE {A : Type} (a : A) : Handler A := fun s => (Returned a, s).

Definition bindE {A B : Type} (m : Handler A) (k : A -> Handler B) : Handler B :=
  fun s => match m s with
           | (Returned a, s') => k a s'
           | (Thrown e, s') => (Thrown e, s')
           end.

(** [try { m } catch (e) { handler e }] *)
Definition try_catchE {A : Type} (m : Handler A) (handler : string -> Handler A)
  : Handler A :=
  fun s => match m s with
           | (Returned a, s') => (Returned a, s')
           | (Thrown e, s') => handler e s'
           end.

Declare Scope edge_scope.
Delimit Scope edge_scope with edge.
Notation "x <- m ;; k" := (bindE m (fun x => k))
  (at level 100, m at next level, right associativity) : edge_scope.

(** The keys that the operations [t] wrote. *)
Definition put_keys (t : list Event) : list string :=
  flat_map (fun e => match e with EvPut k _ => [k] | _ => [] end) t.

(** A package handler run at the edge. It works on the world; an object it
    puts replaces the one under that key together with its metadata, and
    the handlers put with a content type only. *)
Definition lift {A : Type} (m : Async A) : Handler A :=
  fun s =>
    let '(out, w') := m (world s) in
    let written := put_keys (skipn (List.length (trace (world s))) (trace w')) in
    (out,
     {| world := w';
        contentEncoding := fold_right (fun k m => delete k m) (contentEncoding s) written;
        caches_default := caches_default s;
        waitUntil := waitUntil s |}).

(** [env.BUNDLES.get(key)] with the metadata of the object. *)
Definition BUNDLES_get_object (key : string) : Handler (option R2ObjectBody) :=
  fun s =>
    match lift (BUNDLES_get key) s with
    | (Returned (Some b), s') =>
        (Returned (Some {| object_body := b;
                           object_contentEncoding := contentEncoding s !! key |}), s')
    | (Returned None, s') => (Returned None, s')
    | (Thrown e, s') => (Thrown e, s')
    end.

(** [await cache.match(cacheKey)] *)
Definition cache_match (cacheKey : string) : Handler (option Response) :=
  fun s => (Returned (caches_default s !! cacheKey), s).

(** [ctx.waitUntil(cache.put(cacheKey, response.clone()))] *)
Definition waitUntil_cache_put (cacheKey : string) (response : Response)
  : Handler unit :=
  fun s => (Returned tt,
            {| world := world s; contentEncoding := contentEncoding s;
               caches_default := caches_default s;
               waitUntil := waitUntil s ++ [(cacheKey, response)] |}).

(** The state once the [cache.put] calls handed to [waitUntil] have
    completed, in the order they were made. *)
Definition settle (s : Edge) : Edge :=
  {| world := world s; contentEncoding := contentEncoding s;
     caches_default :=
       fold_left (fun c kv => <[fst kv := snd kv]> c) (waitUntil s) (caches_default s);
     waitUntil := [] |}.

(** [pathname.match(/^<prefix>(.+)$/)]: group 1. The dot matches every
    character but a line terminator, and [$] only the end of the input. *)
Definition is_line_terminator (c : ascii) : bool :=
  (Js.code c =? 10)%nat || (Js.code c =? 13)%nat.

Definition match_route (prefix pathname : string) : option string :=
  match Js.strip_prefix prefix pathname with
  | Some (String c r) =>
      if Js.any_char is_line_terminator (String c r) then None
      else Some (String c r)
  | _ => None
  end.

(** The service descriptions of the health endpoints. *)
Definition health_object (service : string) : Json :=
  JObject [("status", JString "ok"); ("service", JString service)].

Definition api_object : Json :=
  JObject [("status", JString "ok"); ("service", JString "siglum-api");
           ("endpoints",
            JObject [("packages", JString "packages.siglum.org or /bundles/*");
                     ("ctan", JString "ctan-proxy.siglum.org or /api/fetch/*")])].

(** [new Response('Not found', { status: 404, headers: CORS_HEADERS })] *)
Definition not_found_text : Response :=
  {| status := 404; headers := CORS_HEADERS; body := BlobText "Not found" |}.

(** The headers [handleR2Request] gives to an object read from R2. [key] is
    the key that was asked for, [object] the object that is served, and
    [isBrotli] tells that it is the Brotli-compressed variant. *)
Definition r2_headers (key : string) (object : R2ObjectBody) (isBrotli : bool)
  : list (string * string) :=
  let headers := obj_set "X-Cache" "MISS" CORS_HEADERS in
  let headers :=
    if Js.endsWith key ".json" then
      obj_set "Cache-Control" "public, max-age=300"
              (obj_set "Content-Type" "application/json" headers)
    else obj_set "Cache-Control" "public, max-age=31536000, immutable" headers in
  let headers :=
    if Js.endsWith key ".gz" then obj_set "Content-Type" "application/gzip" headers
    else if Js.endsWith key ".br" then
      obj_set "Content-Type" "application/octet-stream" headers
    else if Js.endsWith key ".wasm" then obj_set "Content-Type" "application/wasm" headers
    else if Js.endsWith key ".js" then
      obj_set "Content-Type" "application/javascript" headers
    else headers in
  let headers :=
    if (blob_size (object_body object) =? 0)%Z then headers
    else obj_set "Content-Length" (Js.numberToString (blob_size (object_body object)))
                 headers in
  if isBrotli then obj_set "Content-Encoding" "br" headers
  else if truthy (object_contentEncoding object) then
    obj_set "Content-Encoding" (field (object_contentEncoding object)) headers
  else headers.

(** The key under which the Brotli variant of [key] is looked for. *)
Definition brotli_key (key : string) : string :=
  if Js.endsWith key ".data.gz" then Js.replace key ".data.gz" ".data.br"
  else key +:+ ".br".

Section Router.

Variable unzipSync : list byte -> Outcome (list (string * list byte)).
Variable TextDecoder_decode : list byte -> string.
Variable JSON_stringify : Json -> string.

(** [url.toString()] *)
Variable URL_toString : URL -> string.

Local Open Scope edge_scope.

(** [handleR2Request]: an R2 object, through the edge cache. *)
Definition handleR2Request (key : string) (request : Request) : Handler Response :=
  let cacheUrl := versioned (request_url request) in
  let cacheKey := URL_toString cacheUrl in
  response <- cache_match cacheKey ;;
  match response with
  | Some response =>
      let headers := Headers_set "X-Cache" "HIT" (headers response) in
      retE {| status := 200; headers := headers; body := body response |}
  | None =>
      try_catchE
        (first_try <-
           (if Js.endsWith key ".wasm" || Js.endsWith key ".data.gz" then
              let brKey := brotli_key key in
              object <- BUNDLES_get_object brKey ;;
              retE (object, match object with Some _ => true | None => false end)
            else retE (None, false)) ;;
         let '(object, isBrotli) := first_try in
         object <-
           (match object with
            | Some o => retE (Some o)
            | None => BUNDLES_get_object key
            end) ;;
         match object with
         | None => retE not_found_text
         | Some object =>
             let response :=
               {| status := 200; headers := r2_headers key object isBrotli;
                  body := object_body object |} in
             _ <- waitUntil_cache_put cacheKey response ;;
             retE response
         end)
        (fun e =>
           retE {| status := 500; headers := CORS_HEADERS;
                   body := BlobText ("Error fetching from R2: " +:+ e) |})
  end.

(** [handlePackagesHost]: packages.siglum.org serves R2 files at its root. *)
Definition handlePackagesHost (url : URL) (request : Request) : Handler Response :=
  let key := Js.slice (pathname url) 1 in
  if negb (Js.truthy key) || String.eqb key EmptyString || String.eqb key "health" then
    retE (jsonResponse JSON_stringify (health_object "packages.siglum.org") 200)
  else handleR2Request key request.

(** [handleCtanProxyHost]: ctan-proxy.siglum.org fetches packages. *)
Definition handleCtanProxyHost (url : URL) : Handler Response :=
  let packageName := Js.slice (pathname url) 1 in
  let packageName :=
    if Js.startsWith packageName "fetch/" then Js.slice packageName 6
    else packageName in
  if negb (Js.truthy packageName) || String.eqb packageName EmptyString
     || String.eqb packageName "health" then
    retE (jsonResponse JSON_stringify (health_object "ctan-proxy.siglum.org") 200)
  else lift (handleCtanFetch unzipSync TextDecoder_decode JSON_stringify packageName).

(** [handlePathBasedRouting]: the routes of the workers.dev domain. *)
Definition handlePathBasedRouting (url : URL) (request : Request)
  : Handler Response :=
  if Js.startsWith (pathname url) "/bundles/" then
    handleR2Request (Js.slice (pathname url) 9) request
  else if Js.startsWith (pathname url) "/wasm/" then
    handleR2Request ("wasm/" +:+ Js.slice (pathname url) 6) request
  else
    match match_route "/api/fetch/" (pathname url) with
    | Some name =>
        lift (handleCtanFetch unzipSync TextDecoder_decode JSON_stringify name)
    | None =>
        match match_route "/api/texlive/" (pathname url) with
        | Some name => lift (handleTexLiveProxy JSON_stringify name)
        | None =>
            match match_route "/api/ctan-pkg/" (pathname url) with
            | Some name => lift (handleCtanPkgInfo JSON_stringify name)
            | None =>
                if String.eqb (pathname url) "/xzwasm.js" then
                  object <- lift (BUNDLES_get "xzwasm.js.br") ;;
                  match object with
                  | None => retE not_found_text
                  | Some object =>
                      retE {| status := 200;
                              headers :=
                                CORS_HEADERS ++
                                [("Content-Type", "application/javascript");
                                 ("Content-Encoding", "br");
                                 ("Cache-Control",
                                  "public, max-age=31536000, immutable")];
                              body := object |}
                  end
                else if String.eqb (pathname url) "/"
                        || String.eqb (pathname url) "/health" then
                  retE (jsonResponse JSON_stringify api_object 200)
                else retE not_found_text
            end
        end
    end.

(** The [fetch] handler the worker exports: CORS preflight, then routing by
    host name. A [null] body is a body without bytes. *)
Definition default_fetch (request : Request) : Handler Response :=
  let url := request_url request in
  let hostname := hostname url in
  if String.eqb (request_method request) "OPTIONS" then
    retE {| status := 200; headers := CORS_HEADERS; body := BlobBytes [] |}
  else if String.eqb hostname "packages.siglum.org" || Js.includes hostname "packages"
  then handlePackagesHost url request
  else if String.eqb hostname "ctan-proxy.siglum.org" || Js.includes hostname "ctan"
  then handleCtanProxyHost url
  else handlePathBasedRouting url request.

End Router.

(** * Vocabulary of the properties of the code

    Predicates and functions in which the properties of the decoder, the
    handlers and the router are stated. *)

(** ** The base64 text *)

(** A character of the base64 alphabet, or the padding character. *)
Definition base64_char (c : ascii) : Prop :=
  (exists k, Base64.value c = Some k /\ (k < 64)%N) \/ c = Base64.pad.

(** The number of characters [btoa] produces for [n] bytes. *)
Definition base64_length (n : nat) : nat := 4 * ((n + 2) / 3).

(** ** The decoder *)

(** What the decoder stores for one archive entry: the path and the file,
    or nothing for an entry it passes over. *)
Definition extracted (TextDecoder_decode : list byte -> string) (pkgName : JsVal)
           (entry : string * list byte) : option (string * ExtractedFile) :=
  let '(filePath, bytes) := entry in
  if skipped filePath then None
  else if array_includes texExtensions (file_ext filePath) then
    Some (texTargetDir filePath pkgName +:+ "/" +:+ file_name filePath,
          {| content := TextDecoder_decode bytes; encoding := "text" |})
  else if array_includes fontExtensions (file_ext filePath) then
    Some (fontTargetDir filePath (file_ext filePath) pkgName +:+ "/"
          +:+ file_name filePath,
          {| content := arrayBufferToBase64 bytes; encoding := "base64" |})
  else None.

(** A path segment: not empty and without a slash. *)
Definition segment (s : string) : Prop :=
  s <> EmptyString /\ Js.all_chars not_slash s = true.

(** The directories [dirs] below one another, each after a slash. *)
Definition below (dirs : list string) : string :=
  fold_right (fun dir path => "/" +:+ dir +:+ path) EmptyString dirs.

(** A file the decoder treats as a font: not under an excluded tree, with a
    font extension and no TeX-source extension. *)
Definition font_file (filePath : string) : Prop :=
  skipped filePath = false /\
  array_includes texExtensions (file_ext filePath) = false /\
  array_includes fontExtensions (file_ext filePath) = true.

(** [path] begins a path component: it is empty or ends with a slash. *)
Definition at_component (pre : string) : Prop :=
  pre = EmptyString \/ exists p, pre = (p +:+ "/")%string.

(** The text holds a call [\RequirePackage{<group>}], with or without
    options in brackets before the braces. *)
Definition requires (text group : string) : Prop :=
  exists pre options post,
    text = (pre +:+ RequirePackage_macro +:+ options +:+ "{" +:+ group +:+ "}" +:+ post)%string
    /\ (options = EmptyString \/
        exists o, options = ("[" +:+ o +:+ "]")%string
                  /\ Js.all_chars (not_char "]"%char) o = true)
    /\ group <> EmptyString /\ Js.all_chars (not_char "}"%char) group = true.

(** The names listed in a group: the items between commas, trimmed, that
    are identifiers. *)
Definition listed (group : string) : list string :=
  List.filter is_identifier (map Js.trim (Js.split group ","%char)).

(** ** The handlers *)

(** The URLs fetched and the keys read by the operations [t]. *)
Definition fetches (t : list Event) : list string :=
  flat_map (fun e => match e with EvFetch u => [u] | _ => [] end) t.

Definition get_keys (t : list Event) : list string :=
  flat_map (fun e => match e with EvGet k => [k] | _ => [] end) t.

(** The response carries the CORS headers. *)
Definition carries_cors (r : Response) : Prop := incl CORS_HEADERS (headers r).

(** ** The router and the file server *)

(** The last character of a string. *)
Fixpoint last_char (s : string) : option ascii :=
  match s with
  | EmptyString => None
  | String c EmptyString => Some c
  | String _ t => last_char t
  end.

(** The state after [env.BUNDLES.get(key)]. *)
Definition got (key : string) (s : Edge) : Edge :=
  {| world := record (EvGet key) (world s); contentEncoding := contentEncoding s;
     caches_default := caches_default s; waitUntil := waitUntil s |}.

(** The state after a [cache.put] has been handed to [waitUntil]. *)
Definition scheduled (cacheKey : string) (response : Response) (s : Edge) : Edge :=
  {| world := world s; contentEncoding := contentEncoding s;
     caches_default := caches_default s;
     waitUntil := waitUntil s ++ [(cacheKey, response)] |}.

(** The R2 object under [key], with its metadata. *)
Definition object_at (key : string) (s : Edge) : option R2ObjectBody :=
  match bucket (world s) !! key with
  | Some b => Some {| object_body := b;
                      object_contentEncoding := contentEncoding s !! key |}
  | None => None
  end.

(** The response [handleR2Request] makes of an R2 object. *)
Definition served (key : string) (object : R2ObjectBody) (isBrotli : bool) : Response :=
  {| status := 200; headers := r2_headers key object isBrotli;
     body := object_body object |}.

(** The keys for which a Brotli variant is looked for first. *)
Definition brotli_eligible (key : string) : bool :=
  Js.endsWith key ".wasm" || Js.endsWith key ".data.gz".

(** The number of headers named [name]. *)
Definition header_count (name : string) (l : list (string * string)) : nat :=
  List.length (List.filter (fun kv => same_header (fst kv) name) l).

(** Every response in the edge cache, or on its way there, carries the
    CORS headers. *)
Definition edge_cors (s : Edge) : Prop :=
  (forall k r, caches_default s !! k = Some r -> carries_cors r) /\
  Forall (fun kr => carries_cors (snd kr)) (waitUntil s).

(** The key of a request in the edge cache. *)
Definition cache_key (URL_toString : URL -> string) (request : Request) : string :=
  URL_toString (versioned (request_url request)).

(** * Proof automation *)

#[local] Arguments String.append !s1 s2 : simpl nomatch.

Ltac b64_arith := Z.to_euclidean_division_equations; lia.

Ltac async_unfold :=
  cbv beta iota zeta delta
      [bind try_catch ret throw fetch json call_processZip record
       BUNDLES_get BUNDLES_put];
  cbn [bucket pending trace fst snd].

Ltac destruct_match :=
  match goal with
  | |- context [match pending ?w with _ => _ end] =>
      destruct (pending w) as [|[?r|?e] ?rest] eqn:?
  | |- context [match ?l with [] => _ | _ :: _ => _ end] =>
      is_var l; destruct l as [|[?r|?e] ?rest]
  | |- context [match fetched_json ?r with _ => _ end] =>
      destruct (fetched_json r) eqn:?
  | |- context [match processZip ?u ?d ?b ?p with _ => _ end] =>
      destruct (processZip u d b p) as [[?res|]|?e] eqn:?
  | |- context [if ?b then _ else _] =>
      lazymatch b with
      | context [match _ with _ => _ end] => fail
      | _ => destruct b eqn:?
      end
  end; cbn [bucket pending trace fst snd].

Ltac all_fetches := repeat (apply List.Forall_cons; [exact I |]); apply List.Forall_nil.

Ltac stage_done :=
  rewrite <- ?List.app_assoc;
  do 3 eexists; split; [reflexivity |];
  split; [reflexivity |];
  split; [reflexivity |];
  split; [all_fetches |];
  intros ? [=]; subst; eauto.

Ltac scenario :=
  unfold registry_ok, refused, delivers in *;
  repeat match goal with
         | H : exists _, _ |- _ => destruct H
         | H : _ /\ _ |- _ => destruct H
         end;
  subst.

Ltac run_stage :=
  unfold after, decoded, install_url, tds_url, zip_url in *; async_unfold;
  repeat (first
    [ match goal with
      | H : pending _ = _ |- _ => rewrite H
      | H : ok _ = _ |- _ => rewrite H
      | H : fetched_json _ = _ |- _ => rewrite H
      | H : errors _ = _ |- _ => rewrite H
      | H : truthy _ = _ |- _ => rewrite H
      | H : Js.includes _ _ = _ |- _ => rewrite H
      end
    | progress cbn [bucket pending trace fst snd negb andb orb map app] ]);
  rewrite <- ?List.app_assoc; cbn [app].

Ltac stage_delivered :=
  do 2 eexists; split; [reflexivity |];
  split; [reflexivity |];
  split;
  [ intros ? ?;
    repeat match goal with H : pending _ = _ |- _ => rewrite H end;
    cbn [In] in *; auto 10
  | let Hres := fresh "Hres" in
    intros ? Hres;
    first
      [ discriminate Hres
      | injection Hres as <-;
        repeat match goal with H : negb _ = false |- _ => apply negb_false_iff in H end;
        eexists; split; [| split; [| eassumption]];
        first [ assumption
              | repeat match goal with H : pending _ = _ |- _ => rewrite H end;
                cbn [In]; auto 10 ] ] ].

(** * Properties *)

(** ** Base64 round trip *)

Lemma append_assoc (a b c : string) : ((a +:+ b) +:+ c = a +:+ (b +:+ c))%string.
Proof. induction a as [|x a IH]; simpl; [reflexivity | now rewrite IH]. Qed.

Lemma append_empty_r (a : string) : (a +:+ EmptyString)%string = a.
Proof. induction a as [|x a IH]; simpl; [reflexivity | now rewrite IH]. Qed.

Lemma binary_string_of_buffer (buffer : list byte) (acc : string) :
  fold_left (fun binary b => (binary +:+ String (ascii_of_byte b) EmptyString)%string)
            buffer acc
  = (acc +:+ string_of_list_byte buffer)%string.
Proof.
  revert acc. induction buffer as [|b l IH]; intros acc; simpl.
  - now rewrite append_empty_r.
  - rewrite IH, append_assoc. reflexivity.
Qed.

Lemma digits_ok : forallb digit_ok (map N.of_nat (seq 0 64)) = true.
Proof. vm_compute. reflexivity. Qed.

Lemma digit_value (k : N) :
  (k < 64)%N ->
  Base64.value (Base64.digit k) = Some k /\
  Ascii.eqb (Base64.digit k) Base64.pad = false.
Proof.
  intros Hk.
  assert (Hin : In k (map N.of_nat (seq 0 64))).
  { rewrite <- (N2Nat.id k). apply in_map, in_seq. lia. }
  pose proof (proj1 (forallb_forall _ _) digits_ok k Hin) as H.
  unfold digit_ok in H. apply andb_true_iff in H as [H1 H2].
  destruct (Base64.value (Base64.digit k)) as [j|]; [| discriminate].
  apply N.eqb_eq in H1. subst j. apply negb_true_iff in H2. now split.
Qed.

Lemma code_of_byte (b : byte) : N_of_ascii (ascii_of_byte b) = Byte.to_N b.
Proof.
  rewrite ascii_of_byte_via_N. apply N_ascii_embedding.
  pose proof (Byte.to_N_bounded b). lia.
Qed.

Lemma byte_of_to_N (b : byte) (n : N) : n = Byte.to_N b -> Base64.byte_of_N n = b.
Proof.
  intros ->. unfold Base64.byte_of_N.
  pose proof (Byte.to_N_bounded b).
  rewrite N.mod_small by lia. now rewrite Byte.of_to_N.
Qed.

Lemma byte_of_low (b : byte) (n : N) :
  (n mod 256 = Byte.to_N b)%N -> Base64.byte_of_N n = b.
Proof.
  intros H. unfold Base64.byte_of_N. rewrite H. now rewrite Byte.of_to_N.
Qed.

Lemma decode_btoa_group (a b c : byte) (rest : string) (l : list byte) :
  Base64.decode (Base64.btoa rest) = Some l ->
  Base64.decode
    (Base64.btoa (String (ascii_of_byte a)
                    (String (ascii_of_byte b) (String (ascii_of_byte c) rest))))
  = Some (a :: b :: c :: l).
Proof.
  intros IH. cbn [Base64.btoa]. rewrite !code_of_byte.
  pose proof (Byte.to_N_bounded a) as Ha. pose proof (Byte.to_N_bounded b) as Hb.
  pose proof (Byte.to_N_bounded c) as Hc.
  set (x := Byte.to_N a) in *. set (y := Byte.to_N b) in *. set (z := Byte.to_N c) in *.
  unfold Base64.group3. set (n := (x * 65536 + y * 256 + z)%N).
  assert (Hn : (n < 16777216)%N) by (unfold n; lia).
  cbn [Base64.decode].
  destruct (digit_value (n / 262144)) as [-> _]; [zify; b64_arith |].
  destruct (digit_value (n / 4096 mod 64)) as [-> _]; [zify; b64_arith |].
  destruct (digit_value (n / 64 mod 64)) as [-> _]; [zify; b64_arith |].
  destruct (digit_value (n mod 64)) as [-> ->]; [zify; b64_arith |].
  cbn [andb]. rewrite IH.
  assert (Hm : (n / 262144 * 262144 + n / 4096 mod 64 * 4096 + n / 64 mod 64 * 64
                + n mod 64 = n)%N) by (zify; b64_arith).
  rewrite Hm. f_equal. f_equal; [| f_equal; [| f_equal]].
  - apply byte_of_to_N. unfold n, x. zify; b64_arith.
  - apply byte_of_low. unfold n. fold y. zify; b64_arith.
  - apply byte_of_low. unfold n. fold z. zify; b64_arith.
Qed.

Lemma decode_btoa_one (a : byte) :
  Base64.decode (Base64.btoa (String (ascii_of_byte a) EmptyString)) = Some [a].
Proof.
  cbn [Base64.btoa]. rewrite code_of_byte.
  pose proof (Byte.to_N_bounded a) as Ha. set (x := Byte.to_N a) in *.
  unfold Base64.group3. set (n := (x * 65536 + 0 * 256 + 0)%N).
  cbn [Base64.decode].
  destruct (digit_value (n / 262144)) as [-> _]; [unfold n; zify; b64_arith |].
  destruct (digit_value (n / 4096 mod 64)) as [-> _]; [zify; b64_arith |].
  cbn. f_equal. f_equal. apply byte_of_to_N. unfold n, x. zify; b64_arith.
Qed.

Lemma decode_btoa_two (a b : byte) :
  Base64.decode (Base64.btoa (String (ascii_of_byte a) (String (ascii_of_byte b) EmptyString)))
  = Some [a; b].
Proof.
  cbn [Base64.btoa]. rewrite !code_of_byte.
  pose proof (Byte.to_N_bounded a) as Ha. pose proof (Byte.to_N_bounded b) as Hb.
  set (x := Byte.to_N a) in *. set (y := Byte.to_N b) in *.
  unfold Base64.group3. set (n := (x * 65536 + y * 256 + 0)%N).
  cbn [Base64.decode].
  destruct (digit_value (n / 262144)) as [-> _]; [unfold n; zify; b64_arith |].
  destruct (digit_value (n / 4096 mod 64)) as [-> _]; [zify; b64_arith |].
  destruct (digit_value (n / 64 mod 64)) as [-> ->]; [zify; b64_arith |].
  cbn. f_equal. f_equal; [| f_equal].
  - apply byte_of_to_N. unfold n, x. zify; b64_arith.
  - apply byte_of_low. unfold n. fold y. zify; b64_arith.
Qed.

Lemma list_ind3 {A : Type} (P : list A -> Prop) :
  P [] -> (forall a, P [a]) -> (forall a b, P [a; b]) ->
  (forall a b c l, P l -> P (a :: b :: c :: l)) ->
  forall l, P l.
Proof.
  intros H0 H1 H2 H3.
  assert (H : forall l, P l /\ (forall a, P (a :: l)) /\ (forall a b, P (a :: b :: l))).
  { induction l as [|c l (IH0 & IH1 & IH2)]; [now auto |].
    repeat split; auto. }
  intros l. apply H.
Qed.

(** Decoding what [arrayBufferToBase64] produced gives the buffer back. *)
Lemma decode_arrayBufferToBase64 (buffer : list byte) :
  Base64.decode (arrayBufferToBase64 buffer) = Some buffer.
Proof.
  unfold arrayBufferToBase64. rewrite binary_string_of_buffer.
  change (EmptyString +:+ string_of_list_byte buffer)%string
    with (string_of_list_byte buffer).
  induction buffer as [| a | a b | a b c l IH] using list_ind3.
  - reflexivity.
  - apply decode_btoa_one.
  - apply decode_btoa_two.
  - apply (decode_btoa_group a b c _ l IH).
Qed.
Lemma length_append (a b : string) :
  String.length (a +:+ b) = String.length a + String.length b.
Proof. induction a as [|c a IH]; simpl; [reflexivity | now rewrite IH]. Qed.

Lemma append_inj_r (a b s : string) : (a +:+ s = b +:+ s)%string -> a = b.
Proof.
  revert b. induction a as [|c a IH]; intros [|d b] H.
  - reflexivity.
  - apply (f_equal String.length) in H. cbn [String.append] in H.
    simpl in H. rewrite length_append in H. lia.
  - apply (f_equal String.length) in H. cbn [String.append] in H.
    simpl in H. rewrite length_append in H. lia.
  - cbn [String.append] in H. injection H as -> H. f_equal. now apply IH.
Qed.

Lemma ctan_cache_key_inj (a b : string) :
  ctan_cache_key a = ctan_cache_key b -> a = b.
Proof.
  unfold ctan_cache_key. intros H.
  apply (String.app_inj "ctan-cache/") in H.
  apply (String.app_inj CTAN_CACHE_VERSION) in H.
  apply (String.app_inj "/") in H.
  now apply append_inj_r in H.
Qed.

(** ** The decoder *)

Lemma assoc_obj_set_eq {A : Type} (k : string) (v : A) (l : list (string * A)) :
  assoc k (obj_set k v l) = Some v.
Proof.
  induction l as [|[k' v'] l IH]; simpl.
  - now rewrite String.eqb_refl.
  - destruct (String.eqb k k') eqn:E; simpl; [now rewrite String.eqb_refl | now rewrite E].
Qed.

Lemma obj_set_not_nil {A : Type} (k : string) (v : A) (l : list (string * A)) :
  obj_set k v l <> [].
Proof. destruct l as [|[k' v'] l]; simpl; [| destruct (String.eqb k k')]; discriminate. Qed.

Section DecoderProperties.

Variable TextDecoder_decode : list byte -> string.

(** How one entry is treated, by the class of its path. *)
Lemma processEntry_skipped pkgName st filePath bytes :
  skipped filePath = true ->
  processEntry TextDecoder_decode pkgName st (filePath, bytes) = st.
Proof. intros H. unfold processEntry. destruct st. now rewrite H. Qed.

Lemma processEntry_tex pkgName result detectedDeps filePath bytes :
  skipped filePath = false ->
  array_includes texExtensions (file_ext filePath) = true ->
  processEntry TextDecoder_decode pkgName (result, detectedDeps) (filePath, bytes)
  = (obj_set (texTargetDir filePath pkgName +:+ "/" +:+ file_name filePath)
             {| content := TextDecoder_decode bytes; encoding := "text" |} result,
     scan_dependencies (TextDecoder_decode bytes) detectedDeps).
Proof. intros H1 H2. unfold processEntry. now rewrite H1, H2. Qed.

Lemma processEntry_font pkgName result detectedDeps filePath bytes :
  skipped filePath = false ->
  array_includes texExtensions (file_ext filePath) = false ->
  array_includes fontExtensions (file_ext filePath) = true ->
  processEntry TextDecoder_decode pkgName (result, detectedDeps) (filePath, bytes)
  = (obj_set (fontTargetDir filePath (file_ext filePath) pkgName +:+ "/"
              +:+ file_name filePath)
             {| content := arrayBufferToBase64 bytes; encoding := "base64" |} result,
     detectedDeps).
Proof. intros H1 H2 H3. unfold processEntry. now rewrite H1, H2, H3. Qed.

Lemma processFiles_skipped_entry pkgName l1 l2 filePath bytes :
  skipped filePath = true ->
  processFiles TextDecoder_decode (l1 ++ (filePath, bytes) :: l2) pkgName
  = processFiles TextDecoder_decode (l1 ++ l2) pkgName.
Proof.
  intros H. unfold processFiles.
  rewrite !fold_left_app. simpl. now rewrite processEntry_skipped.
Qed.

Lemma fold_skipped pkgName entries st :
  Forall (fun e => skipped (fst e) = true) entries ->
  fold_left (processEntry TextDecoder_decode pkgName) entries st = st.
Proof.
  intros H. revert st. induction H as [|[p b] l Hp _ IH]; intros st; simpl.
  - reflexivity.
  - rewrite processEntry_skipped by exact Hp. apply IH.
Qed.

Lemma processFiles_all_skipped pkgName entries :
  Forall (fun e => skipped (fst e) = true) entries ->
  processFiles TextDecoder_decode entries pkgName = None.
Proof. intros H. unfold processFiles. now rewrite fold_skipped. Qed.

(** A result is never empty. *)
Lemma processFiles_nonempty entries pkgName r :
  processFiles TextDecoder_decode entries pkgName = Some r ->
  name r = pkgName /\ totalFiles r = List.length (files r) /\ 0 < totalFiles r.
Proof.
  unfold processFiles.
  destruct (fold_left (processEntry TextDecoder_decode pkgName) entries ([], []))
    as [result deps].
  destruct (List.length result =? 0) eqn:E; [discriminate |].
  intros [= <-]. simpl. apply Nat.eqb_neq in E. repeat split; lia.
Qed.

End DecoderProperties.

Section RoundTrip.

Variable unzipSync : list byte -> Outcome (list (string * list byte)).
Variable TextDecoder_decode : list byte -> string.

Lemma sty_entry pkgName result detectedDeps bytes :
  processEntry TextDecoder_decode pkgName (result, detectedDeps)
               ("foo/tex/latex/bar/bar.sty", bytes)
  = (obj_set "/texlive/texmf-dist/tex/latex/bar/bar.sty"
             {| content := TextDecoder_decode bytes; encoding := "text" |} result,
     scan_dependencies (TextDecoder_decode bytes) detectedDeps).
Proof.
  rewrite processEntry_tex by reflexivity.
  replace (texTargetDir "foo/tex/latex/bar/bar.sty" pkgName)
    with "/texlive/texmf-dist/tex/latex/bar"; [reflexivity |].
  unfold texTargetDir.
  replace (Js.includes "foo/tex/latex/bar/bar.sty" "/tex/latex/") with true
    by reflexivity.
  reflexivity.
Qed.

Lemma pfb_entry pkgName result detectedDeps bytes :
  processEntry TextDecoder_decode pkgName (result, detectedDeps)
               ("fonts/type1/public/bar/bar.pfb", bytes)
  = (obj_set "/texlive/texmf-dist/fonts/type1/public/bar/bar.pfb"
             {| content := arrayBufferToBase64 bytes; encoding := "base64" |} result,
     detectedDeps).
Proof.
  rewrite processEntry_font by reflexivity.
  replace (fontTargetDir "fonts/type1/public/bar/bar.pfb"
                         (file_ext "fonts/type1/public/bar/bar.pfb") pkgName)
    with "/texlive/texmf-dist/fonts/type1/public/bar"; [reflexivity |].
  unfold fontTargetDir.
  replace (fontsMatch "fonts/type1/public/bar/bar.pfb") with true by reflexivity.
  reflexivity.
Qed.

(** C2. Decoding is a faithful classifier. A ZIP whose only entry is
    [foo/tex/latex/bar/bar.sty] gives exactly one file, at
    [/texlive/texmf-dist/tex/latex/bar/bar.sty], with encoding ["text"] and
    the decoded text as content. A ZIP whose only entry is
    [fonts/type1/public/bar/bar.pfb], with any bytes, gives exactly one
    file, at [/texlive/texmf-dist/fonts/type1/public/bar/bar.pfb], with
    encoding ["base64"], and base64-decoding its content gives the bytes
    back. Wherever the [.pfb] entry stands in a larger archive, the round
    that handles it stores that same file under that path. *)
Theorem C2_decoder_round_trip (zipBuffer bytes : list byte) (pkgName : JsVal) :
  (unzipSync zipBuffer = Returned [("foo/tex/latex/bar/bar.sty", bytes)] ->
   processZip unzipSync TextDecoder_decode zipBuffer pkgName
   = Returned (Some
       {| name := pkgName;
          files := [("/texlive/texmf-dist/tex/latex/bar/bar.sty",
                     {| content := TextDecoder_decode bytes; encoding := "text" |})];
          totalFiles := 1;
          dependencies := List.filter (fun d => strict_neq d pkgName)
                                 (scan_dependencies (TextDecoder_decode bytes) []) |}))
  /\
  (unzipSync zipBuffer = Returned [("fonts/type1/public/bar/bar.pfb", bytes)] ->
   exists base64Content,
     processZip unzipSync TextDecoder_decode zipBuffer pkgName
     = Returned (Some
         {| name := pkgName;
            files := [("/texlive/texmf-dist/fonts/type1/public/bar/bar.pfb",
                       {| content := base64Content; encoding := "base64" |})];
            totalFiles := 1;
            dependencies := [] |})
     /\ Base64.decode base64Content = Some bytes)
  /\
  (forall st, exists base64Content,
     assoc "/texlive/texmf-dist/fonts/type1/public/bar/bar.pfb"
           (fst (processEntry TextDecoder_decode pkgName st
                              ("fonts/type1/public/bar/bar.pfb", bytes)))
     = Some {| content := base64Content; encoding := "base64" |}
     /\ Base64.decode base64Content = Some bytes).
Proof.
  split; [| split].
  - intros H. unfold processZip, processFiles. rewrite H.
    cbn [fold_left]. rewrite sty_entry. reflexivity.
  - intros H. exists (arrayBufferToBase64 bytes). split.
    + unfold processZip, processFiles. rewrite H.
      cbn [fold_left]. rewrite pfb_entry. reflexivity.
    + apply decode_arrayBufferToBase64.
  - intros [result deps]. exists (arrayBufferToBase64 bytes). split.
    + rewrite pfb_entry. apply assoc_obj_set_eq.
    + apply decode_arrayBufferToBase64.
Qed.

End RoundTrip.

(** ** Name validation *)

Lemma any_char_exists (p : ascii -> bool) (s : string) :
  Js.any_char p s = true <-> exists c, In c (list_ascii_of_string s) /\ p c = true.
Proof.
  induction s as [|a s IH]; simpl.
  - split; [discriminate | intros (c & [] & _)].
  - rewrite orb_true_iff, IH. split.
    + intros [H | (c & Hin & Hc)]; [exists a | exists c]; auto.
    + intros (c & [<- | Hin] & Hc); [left | right; exists c]; auto.
Qed.

Lemma name_char_spec (c : ascii) :
  Js.is_alpha c || Js.is_digit c || Ascii.eqb c "_"%char || Ascii.eqb c "-"%char = true
  <-> name_char c.
Proof.
  unfold name_char, Js.is_alpha, Js.is_lower, Js.is_upper, Js.is_digit, Js.between.
  rewrite !orb_true_iff, !andb_true_iff, !Nat.leb_le, !Ascii.eqb_eq. tauto.
Qed.

Lemma invalid_name_guard (pkgName : string) :
  invalid_name pkgName ->
  bad_length pkgName = true \/
  (bad_length pkgName = false /\ bad_characters pkgName = true).
Proof.
  intros H. destruct (bad_length pkgName) eqn:Hlen; [now left | right; split; [easy |]].
  unfold bad_length in Hlen. rewrite !orb_false_iff in Hlen.
  destruct Hlen as [[_ Hlo] Hhi]. apply Nat.ltb_ge in Hlo, Hhi.
  destruct H as [H | [H | (c & Hin & Hc)]]; [lia | lia |].
  apply any_char_exists. exists c. split; [exact Hin |].
  apply negb_true_iff. apply not_true_iff_false. now rewrite name_char_spec.
Qed.

(** ** Dependency scanning *)

Lemma prefix_append (p s : string) : String.prefix p (p +:+ s) = true.
Proof.
  induction p as [|c p IH]; simpl; [now destruct s |].
  destruct (ascii_dec c c) as [_ | N]; [exact IH | now destruct N].
Qed.

Lemma includes_unfold (s sub : string) :
  Js.includes s sub
  = Js.startsWith s sub ||
    match s with
    | EmptyString => false
    | String _ t => Js.includes t sub
    end.
Proof. destruct s; reflexivity. Qed.

Lemma includes_append (a sub b : string) :
  Js.includes (a +:+ sub +:+ b) sub = true.
Proof.
  induction a as [|c a IH]; rewrite includes_unfold.
  - unfold Js.startsWith. cbn [String.append]. now rewrite prefix_append.
  - cbn [String.append]. rewrite IH. apply orb_true_r.
Qed.

Lemma includes_suffix (a sub : string) : Js.includes (a +:+ sub) sub = true.
Proof.
  rewrite <- (append_empty_r sub) at 1. apply includes_append.
Qed.

Lemma strip_prefix_Some (p s r : string) :
  Js.strip_prefix p s = Some r -> s = (p +:+ r)%string.
Proof.
  revert s. induction p as [|a p IH]; intros [|b s]; cbn [Js.strip_prefix String.append];
    try discriminate; try (now intros [= ->]).
  destruct (Ascii.eqb a b) eqn:E; [| discriminate].
  apply Ascii.eqb_eq in E. subst b. intros H. now rewrite (IH s H).
Qed.

Lemma all_chars_append (p : ascii -> bool) (a b : string) :
  Js.all_chars p (a +:+ b) = Js.all_chars p a && Js.all_chars p b.
Proof.
  induction a as [|c a IH]; cbn [String.append Js.all_chars]; [reflexivity |].
  now rewrite IH, andb_assoc.
Qed.

Lemma matchAll_skip (a rest : string) :
  matchAll_from (String.length a) (a +:+ rest) = matchAll_from 0 rest.
Proof.
  induction a as [|c a IH]; [reflexivity |].
  cbn [String.length String.append]. destruct rest; cbn [matchAll_from]; exact IH.
Qed.

Lemma strip_prefix_append (p s : string) : Js.strip_prefix p (p +:+ s) = Some s.
Proof.
  induction p as [|c p IH]; cbn [String.append Js.strip_prefix]; [now destruct s |].
  now rewrite Ascii.eqb_refl.
Qed.

Lemma span_until (p : ascii -> bool) (a : string) (c : ascii) (rest : string) :
  Js.all_chars p a = true -> p c = false ->
  Js.span p (a +:+ String c rest) = (a, String c rest).
Proof.
  intros Ha Hc. induction a as [|x a IH]; cbn [String.append Js.span].
  - now rewrite Hc.
  - cbn [Js.all_chars] in Ha. apply andb_true_iff in Ha as [-> Ha].
    now rewrite (IH Ha).
Qed.

Lemma match_example (post : string) :
  match_RequirePackage (example_macro +:+ post) = Some ("amsmath,graphicx", post).
Proof.
  replace (example_macro +:+ post)%string
    with (RequirePackage_macro
          +:+ String "["%char
                ("options" +:+ String "]"%char
                   (String "{"%char ("amsmath,graphicx" +:+ String "}"%char post))))%string
    by reflexivity.
  unfold match_RequirePackage. rewrite strip_prefix_append.
  unfold match_options. rewrite Ascii.eqb_refl.
  rewrite span_until by reflexivity. cbn [snd].
  unfold match_braces. rewrite Ascii.eqb_refl.
  rewrite span_until by reflexivity. reflexivity.
Qed.

Lemma matchAll_at_match (c : ascii) (t g r : string) :
  match_RequirePackage (String c t) = Some (g, r) ->
  matchAll_from 0 (String c t)
  = g :: matchAll_from (String.length (String c t) - String.length r - 1) t.
Proof. intros H. cbn [matchAll_from]. now rewrite H. Qed.

Lemma example_unfold (post : string) :
  (example_macro +:+ post)%string = String "\"%char (example_tail +:+ post).
Proof. reflexivity. Qed.

Lemma matchAll_example (post : string) :
  matchAll_from 0 (example_macro +:+ post)
  = "amsmath,graphicx" :: matchAll_from 0 post.
Proof.
  pose proof (match_example post) as Hm. rewrite example_unfold in *.
  rewrite (matchAll_at_match _ _ _ _ Hm). f_equal.
  replace (String.length (String "\"%char (example_tail +:+ post))
           - String.length post - 1)
    with (String.length example_tail).
  - apply matchAll_skip.
  - cbn [String.length]. rewrite length_append. lia.
Qed.

Lemma span_spec (p : ascii -> bool) (s a b : string) :
  Js.span p s = (a, b) ->
  s = (a +:+ b)%string /\ Js.all_chars p a = true /\
  match b with
  | String c _ => p c = false
  | EmptyString => True
  end.
Proof.
  revert a b. induction s as [|c s IH]; intros a b; cbn [Js.span].
  - intros [= <- <-]. now repeat split.
  - destruct (p c) eqn:E.
    + destruct (Js.span p s) as [a' b'] eqn:Es. intros [= <- <-].
      destruct (IH a' b' eq_refl) as (-> & H & Hb). cbn [String.append Js.all_chars].
      now rewrite E, H.
    + intros [= <- <-]. now repeat split.
Qed.

Lemma match_braces_spec (s g r : string) :
  match_braces s = Some (g, r) ->
  s = ("{" +:+ g +:+ "}" +:+ r)%string /\ g <> EmptyString /\
  Js.all_chars (not_char "}"%char) g = true.
Proof.
  unfold match_braces. destruct s as [|c t]; [discriminate |].
  destruct (Ascii.eqb c "{"%char) eqn:Ec; [| discriminate].
  apply Ascii.eqb_eq in Ec. subst c.
  destruct (Js.span (not_char "}"%char) t) as [a b] eqn:Es.
  destruct a as [|g0 a]; [discriminate |]. destruct b as [|b0 b]; [discriminate |].
  intros [= <- <-]. destruct (span_spec _ _ _ _ Es) as (-> & Ha & Hb).
  unfold not_char in Hb. apply negb_false_iff in Hb. apply Ascii.eqb_eq in Hb. subst b0.
  split; [reflexivity |]. split; [discriminate | exact Ha].
Qed.

Lemma match_options_spec (s r : string) :
  match_options s = Some r ->
  exists o, s = (("[" +:+ o +:+ "]") +:+ r)%string /\
            Js.all_chars (not_char "]"%char) o = true.
Proof.
  unfold match_options. destruct s as [|c t]; [discriminate |].
  destruct (Ascii.eqb c "["%char) eqn:Ec; [| discriminate].
  apply Ascii.eqb_eq in Ec. subst c.
  destruct (Js.span (not_char "]"%char) t) as [a b] eqn:Es. cbn [snd].
  destruct b as [|b0 b]; [discriminate |]. intros [= <-].
  destruct (span_spec _ _ _ _ Es) as (-> & Ha & Hb).
  unfold not_char in Hb. apply negb_false_iff in Hb. apply Ascii.eqb_eq in Hb. subst b0.
  exists a. split; [| exact Ha]. cbn [String.append]. now rewrite append_assoc.
Qed.

(** What the pattern matches at the head of a string. *)
Lemma match_RequirePackage_spec (s g r : string) :
  match_RequirePackage s = Some (g, r) ->
  exists options,
    s = (RequirePackage_macro +:+ options +:+ "{" +:+ g +:+ "}" +:+ r)%string /\
    (options = EmptyString \/
     exists o, options = ("[" +:+ o +:+ "]")%string
               /\ Js.all_chars (not_char "]"%char) o = true) /\
    g <> EmptyString /\ Js.all_chars (not_char "}"%char) g = true.
Proof.
  unfold match_RequirePackage.
  destruct (Js.strip_prefix RequirePackage_macro s) as [t|] eqn:Ep; [| discriminate].
  apply strip_prefix_Some in Ep. subst s.
  assert (Hplain : match_braces t = Some (g, r) ->
                   exists options,
                     (RequirePackage_macro +:+ t)%string
                     = (RequirePackage_macro +:+ options +:+ "{" +:+ g +:+ "}" +:+ r)%string /\
                     (options = EmptyString \/
                      exists o, options = ("[" +:+ o +:+ "]")%string
                                /\ Js.all_chars (not_char "]"%char) o = true) /\
                     g <> EmptyString /\ Js.all_chars (not_char "}"%char) g = true).
  { intros H. apply match_braces_spec in H as (-> & Hne & Hg).
    exists EmptyString. repeat split; auto. }
  destruct (match_options t) as [t1|] eqn:Eo; [| exact Hplain].
  destruct (match_braces t1) as [[g1 r1]|] eqn:Eb; [| exact Hplain].
  intros [= -> ->]. apply match_options_spec in Eo as (o & -> & Ho).
  apply match_braces_spec in Eb as (-> & Hne & Hg).
  exists ("[" +:+ o +:+ "]")%string. split; [now rewrite !append_assoc |].
  split; [right; eauto | now split].
Qed.

(** *** The scan of a text that goes on with the example macro *)

Lemma span_append_stop (p : ascii -> bool) (a b x y : string) (c : ascii) :
  Js.span p a = (x, String c y) ->
  Js.span p (a +:+ b) = (x, String c (y +:+ b)).
Proof.
  revert x. induction a as [|d a IH]; intros x; cbn [Js.span String.append];
    [discriminate |].
  destruct (p d).
  - destruct (Js.span p a) as [x' y'] eqn:E. intros [= <- ->].
    now rewrite (IH x' eq_refl).
  - now intros [= <- <- <-].
Qed.

Lemma span_closed (p : ascii -> bool) (a : string) :
  Js.all_chars p a = true \/ exists x c y, Js.span p a = (x, String c y).
Proof.
  induction a as [|d a IH]; cbn [Js.all_chars Js.span]; [now left |].
  destruct (p d); [| right; eauto].
  destruct IH as [-> | (x & c & y & ->)]; [now left | right; eauto].
Qed.

Lemma strip_prefix_append_tail (p a rest : string) :
  no_backslash p -> at_backslash rest ->
  Js.strip_prefix p (a +:+ rest)
  = option_map (fun b => (b +:+ rest)%string) (Js.strip_prefix p a).
Proof.
  unfold no_backslash. intros Hp Hr. revert a Hp.
  induction p as [|x p IH]; intros a Hp; [now destruct a |].
  cbn [Js.all_chars] in Hp. apply andb_true_iff in Hp as [Hx Hp].
  destruct a as [|y a]; cbn [String.append Js.strip_prefix].
  - destruct rest as [|c rest]; [reflexivity |]. cbn in Hr. subst c.
    unfold not_char in Hx. apply negb_true_iff in Hx.
    cbn [Js.strip_prefix]. now rewrite Hx.
  - destruct (Ascii.eqb x y); [now apply IH | reflexivity].
Qed.

Lemma strip_macro_append (pre rest : string) :
  pre <> EmptyString -> at_backslash rest ->
  Js.strip_prefix RequirePackage_macro (pre +:+ rest)
  = option_map (fun b => (b +:+ rest)%string)
               (Js.strip_prefix RequirePackage_macro pre).
Proof.
  intros Hne Hr. destruct pre as [|c pre]; [now destruct Hne |].
  change (Js.strip_prefix RequirePackage_macro (String c pre +:+ rest))
    with (if Ascii.eqb "\"%char c
          then Js.strip_prefix "RequirePackage" (pre +:+ rest) else None).
  change (Js.strip_prefix RequirePackage_macro (String c pre))
    with (if Ascii.eqb "\"%char c then Js.strip_prefix "RequirePackage" pre else None).
  destruct (Ascii.eqb "\"%char c); [| reflexivity].
  now apply strip_prefix_append_tail.
Qed.

Lemma match_braces_append (b rest : string) :
  at_backslash rest ->
  (exists g, b = ("{" +:+ g)%string /\ Js.all_chars (not_char "}"%char) g = true) \/
  match_braces (b +:+ rest)
  = match match_braces b with
    | Some (g, c) => Some (g, (c +:+ rest)%string)
    | None => None
    end.
Proof.
  intros Hr. destruct b as [|c t].
  - right. destruct rest as [|c rest]; [reflexivity |]. cbn in Hr. now subst c.
  - cbn [String.append]. unfold match_braces.
    destruct (Ascii.eqb c "{"%char) eqn:Ec; [| now right].
    apply Ascii.eqb_eq in Ec. subst c.
    destruct (span_closed (not_char "}"%char) t) as [Hall | (x & c & y & E)].
    + left. now exists t.
    + right. rewrite (span_append_stop _ _ _ _ _ _ E), E. now destruct x.
Qed.

Lemma match_options_append (b rest : string) :
  at_backslash rest ->
  (exists o, b = ("[" +:+ o)%string /\ Js.all_chars (not_char "]"%char) o = true) \/
  match_options (b +:+ rest)
  = option_map (fun c => (c +:+ rest)%string) (match_options b).
Proof.
  intros Hr. destruct b as [|c t].
  - right. destruct rest as [|c rest]; [reflexivity |]. cbn in Hr. now subst c.
  - cbn [String.append]. unfold match_options.
    destruct (Ascii.eqb c "["%char) eqn:Ec; [| now right].
    apply Ascii.eqb_eq in Ec. subst c.
    destruct (span_closed (not_char "]"%char) t) as [Hall | (x & c & y & E)].
    + left. now exists t.
    + right. now rewrite (span_append_stop _ _ _ _ _ _ E), E.
Qed.

(** An open bracket before the example macro is closed by the bracket of
    the macro: the match then ends with the macro's own group. *)
Lemma match_open_bracket (o post : string) :
  Js.all_chars (not_char "]"%char) o = true ->
  match_RequirePackage
    (RequirePackage_macro +:+ ("[" +:+ o) +:+ example_macro +:+ post)
  = Some ("amsmath,graphicx", post).
Proof.
  intros Ho. unfold match_RequirePackage. rewrite strip_prefix_append.
  replace (("[" +:+ o) +:+ example_macro +:+ post)%string
    with (String "["%char
            ((o +:+ "\RequirePackage[options")
             +:+ String "]"%char
                   (String "{"%char ("amsmath,graphicx" +:+ String "}"%char post))))%string
    by (cbn [String.append]; now rewrite append_assoc).
  unfold match_options. rewrite Ascii.eqb_refl.
  rewrite span_until; [| now rewrite all_chars_append, Ho | reflexivity].
  cbn [snd]. unfold match_braces. rewrite Ascii.eqb_refl.
  rewrite span_until by reflexivity. reflexivity.
Qed.

(** The match attempted at the head of a text that goes on with the
    example macro: it ends with the group of the macro, or it is the match
    attempted on the text before the macro. *)
Lemma match_RequirePackage_append (pre post : string) :
  pre <> EmptyString ->
  (forall b, pre = (RequirePackage_macro +:+ b)%string -> ~ brace_left_open b) ->
  match_RequirePackage (pre +:+ example_macro +:+ post)
  = Some ("amsmath,graphicx", post) \/
  match_RequirePackage (pre +:+ example_macro +:+ post)
  = match match_RequirePackage pre with
    | Some (g, c) => Some (g, (c +:+ example_macro +:+ post)%string)
    | None => None
    end.
Proof.
  intros Hne Hclosed.
  assert (Hr : at_backslash (example_macro +:+ post)) by reflexivity.
  assert (Hfall : forall b, ~ brace_left_open b ->
            match_braces (b +:+ example_macro +:+ post)
            = match match_braces b with
              | Some (g, c) => Some (g, (c +:+ example_macro +:+ post)%string)
              | None => None
              end).
  { intros b Hb.
    destruct (match_braces_append b (example_macro +:+ post) Hr)
      as [(g & -> & Hg) | E]; [| exact E].
    destruct Hb. exists EmptyString, g. split; [reflexivity |]. split; [now left | exact Hg]. }
  destruct (Js.strip_prefix RequirePackage_macro pre) as [b|] eqn:Ep.
  - pose proof (strip_prefix_Some _ _ _ Ep) as ->.
    specialize (Hclosed b eq_refl).
    destruct (match_options_append b (example_macro +:+ post) Hr)
      as [(o & -> & Ho) | Eo].
    + left. rewrite append_assoc. now apply match_open_bracket.
    + right. unfold match_RequirePackage.
      rewrite strip_macro_append by (exact Hne || exact Hr). rewrite Ep.
      cbn [option_map]. rewrite Eo.
      destruct (match_options b) as [r1|] eqn:E1; cbn [option_map];
        [| now apply Hfall].
      destruct (match_braces_append r1 (example_macro +:+ post) Hr)
        as [(g & -> & Hg) | Eb].
      * destruct Hclosed. apply match_options_spec in E1 as (o & -> & Ho).
        exists ("[" +:+ o +:+ "]")%string, g.
        split; [reflexivity |]. split; [right; eauto | exact Hg].
      * rewrite Eb. destruct (match_braces r1) as [[g c]|]; [reflexivity |].
        now apply Hfall.
  - right. unfold match_RequirePackage.
    rewrite strip_macro_append by (exact Hne || exact Hr). now rewrite Ep.
Qed.

(** The text that a match at the head of [s] leaves is a proper tail of
    [s]. *)
Lemma match_RequirePackage_tail (s g r : string) :
  match_RequirePackage s = Some (g, r) ->
  exists c m, s = String c (m +:+ r).
Proof.
  intros H. apply match_RequirePackage_spec in H as (options & -> & _).
  exists "\"%char, ("RequirePackage" +:+ options +:+ "{" +:+ g +:+ "}")%string.
  change (String "\"%char (("RequirePackage" +:+ options +:+ "{" +:+ g +:+ "}") +:+ r))
    with ((RequirePackage_macro +:+ options +:+ "{" +:+ g +:+ "}") +:+ r)%string.
  now rewrite !append_assoc.
Qed.

Lemma calls_closed_tail (a pre : string) : calls_closed (a +:+ pre) -> calls_closed pre.
Proof.
  intros H x b ->. apply (H (a +:+ x)%string b). now rewrite append_assoc.
Qed.

(** When no call before it is left with an open brace, the scan yields the
    group of the example macro. *)
Lemma matchAll_reaches_example (n : nat) :
  forall pre post,
    String.length pre <= n -> calls_closed pre ->
    In "amsmath,graphicx" (matchAll_from 0 (pre +:+ example_macro +:+ post)).
Proof.
  induction n as [|n IH]; intros pre post Hlen Hclosed.
  - destruct pre; [| cbn in Hlen; lia].
    change (In "amsmath,graphicx" (matchAll_from 0 (example_macro +:+ post))).
    rewrite matchAll_example. now left.
  - destruct pre as [|ch pre'].
    { change (In "amsmath,graphicx" (matchAll_from 0 (example_macro +:+ post))).
      rewrite matchAll_example. now left. }
    assert (Htail : calls_closed pre').
    { apply (calls_closed_tail (String ch EmptyString)). exact Hclosed. }
    cbn [String.length] in Hlen.
    destruct (match_RequirePackage_append (String ch pre') post) as [E | E].
    + discriminate.
    + intros b Hb. apply (Hclosed EmptyString b). exact Hb.
    + cbn [String.append] in E |- *. cbn [matchAll_from]. rewrite E. now left.
    + cbn [String.append] in E |- *. cbn [matchAll_from]. rewrite E.
      destruct (match_RequirePackage (String ch pre')) as [[g c]|] eqn:Em.
      * right. apply match_RequirePackage_tail in Em as (c0 & m & [= -> ->]).
        rewrite append_assoc.
        replace (String.length (String c0 (m +:+ c +:+ example_macro +:+ post))
                 - String.length (c +:+ example_macro +:+ post) - 1)
          with (String.length m)
          by (cbn [String.length]; rewrite !length_append; lia).
        rewrite matchAll_skip. apply IH.
        -- rewrite length_append in Hlen. lia.
        -- now apply (calls_closed_tail m).
      * apply IH; [lia | exact Htail].
Qed.

Lemma startsWith_strip_prefix (p s : string) :
  Js.startsWith s p = false -> Js.strip_prefix p s = None.
Proof.
  unfold Js.startsWith. revert s. induction p as [|a p IH]; intros s.
  - now destruct s.
  - destruct s as [|b s]; [reflexivity |]. cbn [String.prefix Js.strip_prefix].
    destruct (ascii_dec a b) as [-> | N].
    + rewrite Ascii.eqb_refl. apply IH.
    + apply Ascii.eqb_neq in N. now rewrite N.
Qed.

(** A text without [\RequirePackage] is passed over by the scan. *)
Lemma matchAll_skip_clean (pre rest : string) :
  Js.includes pre RequirePackage_macro = false -> at_backslash rest ->
  matchAll_from 0 (pre +:+ rest) = matchAll_from 0 rest.
Proof.
  intros H Hr. induction pre as [|c pre IH]; [reflexivity |].
  rewrite includes_unfold in H. apply orb_false_iff in H as [Hs H].
  cbn [String.append matchAll_from].
  change (String c (pre +:+ rest)) with (String c pre +:+ rest)%string.
  unfold match_RequirePackage.
  rewrite strip_macro_append by (discriminate || exact Hr).
  rewrite (startsWith_strip_prefix _ _ Hs). cbn [option_map]. now apply IH.
Qed.

Lemma matchAll_clean (s : string) :
  Js.includes s RequirePackage_macro = false -> matchAll_from 0 s = [].
Proof.
  intros H. rewrite <- (append_empty_r s). now rewrite matchAll_skip_clean.
Qed.

Lemma calls_closed_clean (pre : string) :
  Js.includes pre RequirePackage_macro = false -> calls_closed pre.
Proof.
  intros H a b ->. now rewrite includes_append in H.
Qed.

Lemma array_includes_In (l : list string) (x : string) :
  array_includes l x = true <-> In x l.
Proof.
  unfold array_includes. rewrite existsb_exists. split.
  - intros (y & Hy & E). apply String.eqb_eq in E. now subst.
  - intros H. exists x. split; [exact H | apply String.eqb_refl].
Qed.

Lemma set_add_In (d x : string) (s : list string) :
  In d (set_add x s) <-> d = x \/ In d s.
Proof.
  unfold set_add. destruct (array_includes s x) eqn:E.
  - apply array_includes_In in E. split; [tauto | intros [-> | H]; assumption].
  - rewrite in_app_iff. cbn [In]. intuition.
Qed.

Lemma set_add_NoDup (x : string) (s : list string) :
  List.NoDup s -> List.NoDup (set_add x s).
Proof.
  intros H. unfold set_add. destruct (array_includes s x) eqn:E; [exact H |].
  apply List.NoDup_app; [exact H | repeat constructor; intros [] |].
  intros y Hy [<- | []]. apply array_includes_In in Hy. congruence.
Qed.

Lemma fold_set_add_spec (l acc : list string) :
  (forall d, In d l -> is_identifier d = true) ->
  deps_invariant acc ->
  deps_invariant (fold_left (fun a d => set_add d a) l acc) /\
  (forall d, In d (fold_left (fun a d => set_add d a) l acc) <-> In d l \/ In d acc).
Proof.
  revert acc. induction l as [|x l IH]; intros acc Hl [Hnd Hid]; cbn [fold_left].
  - split; [now split |]. intros d. cbn [In]. tauto.
  - destruct (IH (set_add x acc)) as [Hinv Hin].
    + intros d Hd. apply Hl. now right.
    + split; [now apply set_add_NoDup |].
      intros d Hd. apply set_add_In in Hd as [-> | Hd]; [apply Hl; now left | auto].
    + split; [exact Hinv |]. intros d. rewrite Hin, set_add_In. cbn [In].
      intuition.
Qed.

Lemma add_dependencies_spec (acc : list string) (g : string) :
  deps_invariant acc ->
  deps_invariant (add_dependencies acc g) /\
  (forall d, In d acc -> In d (add_dependencies acc g)).
Proof.
  intros H. unfold add_dependencies.
  destruct (fold_set_add_spec
              (List.filter is_identifier (map Js.trim (Js.split g ","%char))) acc)
    as [Hinv Hin]; [| exact H |].
  - intros d Hd. now apply filter_In in Hd.
  - split; [exact Hinv |]. intros d Hd. apply Hin. now right.
Qed.

Lemma fold_add_dependencies_spec (gs : list string) (acc : list string) :
  deps_invariant acc ->
  deps_invariant (fold_left add_dependencies gs acc) /\
  (forall d, In d acc -> In d (fold_left add_dependencies gs acc)).
Proof.
  revert acc. induction gs as [|g gs IH]; intros acc H; cbn [fold_left].
  - now split.
  - destruct (add_dependencies_spec acc g H) as [H1 H2].
    destruct (IH _ H1) as [H3 H4]. split; [exact H3 | auto].
Qed.

Lemma scan_dependencies_spec (text : string) (acc : list string) :
  deps_invariant acc ->
  deps_invariant (scan_dependencies text acc) /\
  (forall d, In d acc -> In d (scan_dependencies text acc)).
Proof. apply fold_add_dependencies_spec. Qed.

Lemma fold_set_add_In (l acc : list string) (d : string) :
  In d (fold_left (fun a x => set_add x a) l acc) <-> In d l \/ In d acc.
Proof.
  revert acc. induction l as [|x l IH]; intros acc; cbn [fold_left In]; [tauto |].
  rewrite IH, set_add_In. intuition.
Qed.

Lemma add_dependencies_In (acc : list string) (g d : string) :
  In d (add_dependencies acc g) <-> In d (listed g) \/ In d acc.
Proof. unfold add_dependencies, listed. apply fold_set_add_In. Qed.

Lemma scan_dependencies_In (text : string) (acc : list string) (d : string) :
  In d (scan_dependencies text acc)
  <-> (exists g, In g (matchAll_RequirePackage text) /\ In d (listed g)) \/ In d acc.
Proof.
  unfold scan_dependencies. generalize (matchAll_RequirePackage text). intros gs.
  revert acc. induction gs as [|g gs IH]; intros acc; cbn [fold_left In].
  - split; [now right | intros [(g & [] & _) | H]; exact H].
  - rewrite IH, add_dependencies_In. split.
    + intros [(g' & Hg & Hd) | [Hd | Hd]]; eauto 6.
    + intros [(g' & [<- | Hg] & Hd) | Hd]; eauto 6.
Qed.

Lemma strict_neq_spec (d : string) (v : JsVal) :
  strict_neq d v = true <-> VString d <> v.
Proof.
  destruct v as [s | f |]; cbn [strict_neq]; [| split; [discriminate | reflexivity] ..].
  rewrite negb_true_iff, String.eqb_neq. split; [congruence |].
  intros H E. apply H. now subst.
Qed.

Section DependencyProperties.

Variable TextDecoder_decode : list byte -> string.

Lemma processEntry_deps pkgName st entry :
  deps_invariant (snd st) ->
  deps_invariant (snd (processEntry TextDecoder_decode pkgName st entry)) /\
  (forall d, In d (snd st) -> In d (snd (processEntry TextDecoder_decode pkgName st entry))).
Proof.
  intros H. destruct st as [result deps], entry as [filePath bytes].
  unfold processEntry.
  destruct (skipped filePath); [now split |].
  destruct (array_includes texExtensions (file_ext filePath)).
  - cbn [snd] in *. now apply scan_dependencies_spec.
  - destruct (array_includes fontExtensions (file_ext filePath)); now split.
Qed.

Lemma fold_processEntry_deps pkgName entries st :
  deps_invariant (snd st) ->
  deps_invariant (snd (fold_left (processEntry TextDecoder_decode pkgName) entries st)) /\
  (forall d, In d (snd st) ->
             In d (snd (fold_left (processEntry TextDecoder_decode pkgName) entries st))).
Proof.
  revert st. induction entries as [|e entries IH]; intros st H; cbn [fold_left].
  - now split.
  - destruct (processEntry_deps pkgName st e H) as [H1 H2].
    destruct (IH _ H1) as [H3 H4]. split; [exact H3 | auto].
Qed.

Lemma processFiles_dependencies entries pkgName r :
  processFiles TextDecoder_decode entries pkgName = Some r ->
  dependencies r
  = List.filter (fun d => strict_neq d pkgName)
           (snd (fold_left (processEntry TextDecoder_decode pkgName) entries ([], []))).
Proof.
  unfold processFiles.
  destruct (fold_left (processEntry TextDecoder_decode pkgName) entries ([], []))
    as [result deps].
  destruct (List.length result =? 0); [discriminate |]. now intros [= <-].
Qed.

Lemma deps_invariant_nil : deps_invariant [].
Proof. split; [constructor | intros d []]. Qed.

(** C4 (amended). Whatever the archive, the dependencies of a result have
    no duplicates, match the identifier pattern, and never hold the package
    name [processZip] was called with (the resolved parent name). When a
    TeX-source file of the archive holds the text
    [\RequirePackage[options]{amsmath,graphicx}] and no [\RequirePackage]
    before it in that file is left with an open brace, [amsmath] and
    [graphicx] are among the dependencies unless they are that package
    name. When that file is the whole archive and holds no other
    [\RequirePackage], the dependencies are exactly [amsmath] and
    [graphicx], in this order, less the package name. *)
Theorem C4_dependencies_of_RequirePackage
        (entries : list (string * list byte)) (pkgName : JsVal) (r : PackageFiles) :
  processFiles TextDecoder_decode entries pkgName = Some r ->
  (List.NoDup (dependencies r) /\
   forall d, In d (dependencies r) -> is_identifier d = true /\ VString d <> pkgName)
  /\
  (forall filePath bytes pre post,
     In (filePath, bytes) entries -> tex_source filePath ->
     TextDecoder_decode bytes = (pre +:+ example_macro +:+ post)%string ->
     calls_closed pre ->
     forall d, In d ["amsmath"; "graphicx"] -> VString d <> pkgName ->
               In d (dependencies r))
  /\
  (forall filePath bytes pre post,
     entries = [(filePath, bytes)] -> tex_source filePath ->
     TextDecoder_decode bytes = (pre +:+ example_macro +:+ post)%string ->
     Js.includes pre RequirePackage_macro = false ->
     Js.includes post RequirePackage_macro = false ->
     dependencies r
     = List.filter (fun d => strict_neq d pkgName) ["amsmath"; "graphicx"]).
Proof.
  intros Hr. rewrite (processFiles_dependencies _ _ _ Hr).
  split; [| split].
  - destruct (fold_processEntry_deps pkgName entries ([], [])
                deps_invariant_nil) as [[Hnd Hid] _].
    split; [now apply List.NoDup_filter |].
    intros d Hd. apply filter_In in Hd as [Hd Hne].
    split; [auto | now apply strict_neq_spec].
  - intros filePath bytes pre post Hin [Hs He] Htext Hpre d Hd Hne.
    apply filter_In. split; [| now apply strict_neq_spec].
    apply in_split in Hin as (l1 & l2 & ->).
    rewrite fold_left_app. cbn [fold_left].
    destruct (fold_processEntry_deps pkgName l1 ([], [])
                deps_invariant_nil) as [Hinv1 _].
    destruct (processEntry_deps pkgName _ (filePath, bytes) Hinv1)
      as [Hinv2 _].
    apply fold_processEntry_deps; [exact Hinv2 |].
    destruct (fold_left (processEntry TextDecoder_decode pkgName) l1 ([], []))
      as [result1 deps1].
    rewrite processEntry_tex by assumption. cbn [snd].
    apply scan_dependencies_In. left. exists "amsmath,graphicx". split.
    + rewrite Htext. unfold matchAll_RequirePackage.
      now apply (matchAll_reaches_example (String.length pre)).
    + exact Hd.
  - intros filePath bytes pre post -> [Hs He] Htext Hpre Hpost.
    cbn [fold_left]. rewrite processEntry_tex by assumption. rewrite Htext.
    cbn [snd]. unfold scan_dependencies, matchAll_RequirePackage.
    rewrite matchAll_skip_clean by (exact Hpre || reflexivity).
    rewrite matchAll_example, matchAll_clean by exact Hpost. reflexivity.
Qed.

End DependencyProperties.

(** ** The handlers: symbolic execution *)

Section WorkerProperties.

Variable unzipSync : list byte -> Outcome (list (string * list byte)).
Variable TextDecoder_decode : list byte -> string.
Variable JSON_stringify : Json -> string.

#[local] Abbreviation jsonResponse := (jsonResponse JSON_stringify).
#[local] Abbreviation blob_text := (blob_text TextDecoder_decode).
#[local] Abbreviation handleTexLiveProxy := (handleTexLiveProxy JSON_stringify).
#[local] Abbreviation handleCtanPkgInfo := (handleCtanPkgInfo JSON_stringify).
#[local] Abbreviation tryCtanTdsZip := (tryCtanTdsZip unzipSync TextDecoder_decode).
#[local] Abbreviation tryCtanSourceZip :=
  (tryCtanSourceZip unzipSync TextDecoder_decode).
#[local] Abbreviation fallback_chain :=
  (fallback_chain unzipSync TextDecoder_decode JSON_stringify).
#[local] Abbreviation handleCtanFetch :=
  (handleCtanFetch unzipSync TextDecoder_decode JSON_stringify).
#[local] Abbreviation is_400 := (is_400 JSON_stringify).
#[local] Abbreviation not_found := (not_found JSON_stringify).
#[local] Abbreviation found := (found JSON_stringify).
#[local] Abbreviation decoded := (decoded unzipSync TextDecoder_decode).
#[local] Abbreviation stage_outcome := (stage_outcome unzipSync TextDecoder_decode).
#[local] Abbreviation source_result :=
  (source_result unzipSync TextDecoder_decode JSON_stringify).
#[local] Abbreviation chain_result :=
  (chain_result unzipSync TextDecoder_decode JSON_stringify).

Lemma tryCtanTdsZip_outcome (pkgName : JsVal) (w : World) :
  stage_outcome pkgName w (tryCtanTdsZip pkgName w).
Proof.
  unfold stage_outcome, tryCtanTdsZip. async_unfold.
  repeat destruct_match; stage_done.
Qed.

Lemma tryCtanSourceZip_outcome (pkgName : JsVal) (w : World) :
  stage_outcome pkgName w (tryCtanSourceZip pkgName w).
Proof.
  unfold stage_outcome, tryCtanSourceZip. async_unfold.
  repeat destruct_match; stage_done.
Qed.

Lemma processZip_nonempty buf pkgName r :
  processZip unzipSync TextDecoder_decode buf pkgName = Returned (Some r) ->
  name r = pkgName /\ totalFiles r = List.length (files r) /\ 0 < totalFiles r.
Proof.
  unfold processZip. destruct (unzipSync buf) as [entries | e]; [| discriminate].
  intros [= H]. now apply processFiles_nonempty in H.
Qed.

(** *** Scenarios: what the network answers *)

Lemma tds_install_delivered pkgName w n1 n2 rest info buf :
  pending w = n1 :: n2 :: rest -> registry_ok n1 info ->
  truthy (install info) = true -> delivers n2 buf ->
  tryCtanTdsZip pkgName w
  = (Returned (decoded buf pkgName),
     after w [registry_url pkgName; install_url info] rest).
Proof.
  intros Hp H1 Hi H2. scenario. unfold tryCtanTdsZip. run_stage.
  destruct (processZip unzipSync TextDecoder_decode _ pkgName); reflexivity.
Qed.

Lemma tds_install_retry pkgName w n1 n2 n3 rest info :
  pending w = n1 :: n2 :: n3 :: rest -> registry_ok n1 info ->
  truthy (install info) = true -> refused n2 ->
  truthy (ctan_path info) = true ->
  Js.includes (install_url info) ".tds.zip" = false ->
  (forall buf, delivers n3 buf ->
     tryCtanTdsZip pkgName w
     = (Returned (decoded buf pkgName),
        after w [registry_url pkgName; install_url info; tds_url info] rest)) /\
  (fails n3 ->
     tryCtanTdsZip pkgName w
     = (Returned None,
        after w [registry_url pkgName; install_url info; tds_url info] rest)).
Proof.
  intros Hp H1 Hi H2 Hc Hinc. split.
  - intros buf H3. scenario. unfold tryCtanTdsZip. run_stage.
    destruct (processZip unzipSync TextDecoder_decode _ pkgName); reflexivity.
  - intros [H3 | [e ->]]; scenario; unfold tryCtanTdsZip; run_stage; reflexivity.
Qed.

Lemma tds_install_no_retry pkgName w n1 n2 rest info :
  pending w = n1 :: n2 :: rest -> registry_ok n1 info ->
  truthy (install info) = true ->
  (refused n2 /\ (truthy (ctan_path info) = false \/
                  Js.includes (install_url info) ".tds.zip" = true))
  \/ (exists e, n2 = NetworkError e) ->
  tryCtanTdsZip pkgName w
  = (Returned None, after w [registry_url pkgName; install_url info] rest).
Proof.
  intros Hp H1 Hi [[H2 [Hc | Hinc]] | [e ->]]; scenario; unfold tryCtanTdsZip;
    run_stage; try reflexivity.
  rewrite andb_false_r. reflexivity.
Qed.

Lemma tds_content_delivered pkgName w n1 n2 rest info buf :
  pending w = n1 :: n2 :: rest -> registry_ok n1 info ->
  truthy (install info) = false -> truthy (ctan_path info) = true ->
  delivers n2 buf ->
  tryCtanTdsZip pkgName w
  = (Returned (decoded buf pkgName),
     after w [registry_url pkgName; tds_url info] rest).
Proof.
  intros Hp H1 Hi Hc H2. scenario. unfold tryCtanTdsZip. run_stage.
  destruct (processZip unzipSync TextDecoder_decode _ pkgName); reflexivity.
Qed.

Lemma tds_content_failed pkgName w n1 n2 rest info :
  pending w = n1 :: n2 :: rest -> registry_ok n1 info ->
  truthy (install info) = false -> truthy (ctan_path info) = true ->
  fails n2 ->
  tryCtanTdsZip pkgName w
  = (Returned None, after w [registry_url pkgName; tds_url info] rest).
Proof.
  intros Hp H1 Hi Hc [H2 | [e ->]]; scenario; unfold tryCtanTdsZip; run_stage;
    try reflexivity.
  unfold mirror. rewrite <- append_assoc, includes_suffix. reflexivity.
Qed.

Lemma tds_no_location pkgName w n1 rest info :
  pending w = n1 :: rest -> registry_ok n1 info ->
  truthy (install info) = false -> truthy (ctan_path info) = false ->
  tryCtanTdsZip pkgName w = (Returned None, after w [registry_url pkgName] rest).
Proof.
  intros Hp H1 Hi Hc. scenario. unfold tryCtanTdsZip. run_stage. reflexivity.
Qed.

Lemma source_delivered pkgName w n1 n2 rest info buf :
  pending w = n1 :: n2 :: rest -> registry_ok n1 info ->
  truthy (ctan_path info) = true -> delivers n2 buf ->
  tryCtanSourceZip pkgName w
  = (Returned (decoded buf pkgName),
     after w [registry_url pkgName; zip_url info] rest).
Proof.
  intros Hp H1 Hc H2. scenario. unfold tryCtanSourceZip. run_stage.
  destruct (processZip unzipSync TextDecoder_decode _ pkgName); reflexivity.
Qed.

Lemma source_failed pkgName w n1 n2 rest info :
  pending w = n1 :: n2 :: rest -> registry_ok n1 info ->
  truthy (ctan_path info) = true -> fails n2 ->
  tryCtanSourceZip pkgName w
  = (Returned None, after w [registry_url pkgName; zip_url info] rest).
Proof.
  intros Hp H1 Hc [H2 | [e ->]]; scenario; unfold tryCtanSourceZip; run_stage;
    reflexivity.
Qed.

(** *** The chain and the handler *)

Lemma fallback_chain_result cacheKey pkgName parentPkg w :
  fallback_chain cacheKey pkgName parentPkg w = chain_result cacheKey pkgName parentPkg w.
Proof.
  unfold fallback_chain, chain_result, source_result, bind.
  destruct (tryCtanTdsZip parentPkg w) as [[[r|]|e] w1]; try reflexivity.
  destruct (tryCtanSourceZip pkgName w1) as [[[r|]|e] w2]; reflexivity.
Qed.

(** The chain never throws; it answers 200 with a file set that is not
    empty, stored under [cacheKey], or 404 with the bucket untouched. *)
Lemma fallback_chain_outcome cacheKey pkgName parentPkg w :
  exists resp w' t,
    fallback_chain cacheKey pkgName parentPkg w = (Returned resp, w') /\
    trace w' = trace w ++ t /\
    ((resp = not_found /\ bucket w' = bucket w /\ Forall is_fetch t) \/
     (exists r source t0,
        resp = found r source /\ 0 < totalFiles r /\
        bucket w' = <[cacheKey := BlobText (JSON_stringify (json_of_result r))]> (bucket w) /\
        t = t0 ++ [EvPut cacheKey (BlobText (JSON_stringify (json_of_result r)))] /\
        Forall is_fetch t0 /\
        exists buf p, processZip unzipSync TextDecoder_decode buf p = Returned (Some r))).
Proof.
  rewrite fallback_chain_result. unfold chain_result, source_result.
  destruct (tryCtanTdsZip_outcome parentPkg w)
    as (res1 & w1 & t1 & -> & B1 & T1 & F1 & R1).
  destruct res1 as [r|].
  - destruct (R1 r eq_refl) as [buf Hr].
    pose proof (processZip_nonempty _ _ _ Hr) as Hn.
    eexists _, _, (t1 ++ [EvPut cacheKey _]). split; [reflexivity |].
    cbn [stored trace bucket].
    split; [rewrite T1; symmetry; apply List.app_assoc |].
    right. exists r, "ctan", t1. rewrite B1.
    repeat (split; [first [reflexivity | tauto] |]). eauto.
  - destruct (tryCtanSourceZip_outcome pkgName w1)
      as (res2 & w2 & t2 & -> & B2 & T2 & F2 & R2).
    destruct res2 as [r|].
    + destruct (R2 r eq_refl) as [buf Hr].
      pose proof (processZip_nonempty _ _ _ Hr) as Hn.
      eexists _, _, ((t1 ++ t2) ++ [EvPut cacheKey _]). split; [reflexivity |].
      cbn [stored trace bucket].
      split; [rewrite T2, T1, !List.app_assoc; reflexivity |].
      right. exists r, "ctan-source", (t1 ++ t2). rewrite B2, B1.
      repeat (split; [first [reflexivity | tauto | now apply List.Forall_app] |]).
      eauto.
    + eexists _, _, (t1 ++ t2). split; [reflexivity |].
      split; [rewrite T2, T1, List.app_assoc; reflexivity |].
      left. rewrite B2, B1. repeat split. now apply List.Forall_app.
Qed.

(** *** [handleCtanFetch] on a valid name *)

Lemma valid_name_guard pkgName :
  valid_name pkgName -> bad_length pkgName = false /\ bad_characters pkgName = false.
Proof.
  intros [[Hlo Hhi] Hc]. split.
  - unfold bad_length. destruct pkgName as [|c s]; [simpl in Hlo; lia |].
    cbn [Js.truthy negb orb].
    rewrite orb_false_iff. split; apply Nat.ltb_ge; lia.
  - apply not_true_iff_false. intros H. apply any_char_exists in H as (c & Hin & H).
    apply negb_true_iff in H. apply not_true_iff_false in H. apply H.
    apply name_char_spec. auto.
Qed.

Lemma valid_name_intro pkgName :
  bad_length pkgName = false -> bad_characters pkgName = false -> valid_name pkgName.
Proof.
  intros Hl Hc. unfold bad_length in Hl. rewrite !orb_false_iff in Hl.
  destruct Hl as [[_ Hlo] Hhi]. apply Nat.ltb_ge in Hlo, Hhi.
  split; [lia |]. intros c Hin. apply name_char_spec.
  destruct (Js.is_alpha c || Js.is_digit c || Ascii.eqb c "_"%char
            || Ascii.eqb c "-"%char) eqn:E; [reflexivity |].
  assert (H : bad_characters pkgName = true); [| congruence].
  apply any_char_exists. exists c. split; [exact Hin |]. now rewrite E.
Qed.

Lemma handleCtanFetch_hit requestedPkg w object :
  valid_name requestedPkg ->
  bucket w !! ctan_cache_key requestedPkg = Some object ->
  handleCtanFetch requestedPkg w
  = (Returned {| status := 200;
                 headers := [("Content-Type", "application/json");
                             ("X-Cache", "HIT")] ++ CORS_HEADERS;
                 body := BlobText (blob_text object) |},
     record (EvGet (ctan_cache_key requestedPkg)) w).
Proof.
  intros Hv Hhit. destruct (valid_name_guard _ Hv) as [Hl Hc].
  unfold handleCtanFetch. rewrite Hl, Hc. async_unfold. rewrite Hhit. reflexivity.
Qed.

Lemma handleCtanFetch_miss requestedPkg w n rest parentPkg :
  valid_name requestedPkg ->
  bucket w !! ctan_cache_key requestedPkg = None ->
  pending w = n :: rest ->
  resolved_parent n (resolve_alias requestedPkg) = Some parentPkg ->
  handleCtanFetch requestedPkg w
  = fallback_chain (ctan_cache_key requestedPkg) (resolve_alias requestedPkg) parentPkg
          (looked_up requestedPkg rest w).
Proof.
  intros Hv Hmiss Hp Hn. destruct (valid_name_guard _ Hv) as [Hl Hc].
  unfold handleCtanFetch. rewrite Hl, Hc. async_unfold. rewrite Hmiss, Hp.
  cbn [bucket pending trace fst snd].
  unfold resolved_parent in Hn. rewrite <- ?List.app_assoc. cbn [app].
  fold (looked_up requestedPkg rest w).
  destruct (fallback_chain_outcome (ctan_cache_key requestedPkg)
              (resolve_alias requestedPkg) parentPkg (looked_up requestedPkg rest w))
    as (resp & w' & t & E & _).
  destruct n as [r | e]; [| discriminate].
  destruct (ok r).
  - destruct (fetched_json r) as [info | e]; [| discriminate].
    injection Hn as <-. destruct (negb (errors info)); now rewrite E.
  - injection Hn as <-. now rewrite E.
Qed.

Lemma handleCtanFetch_lookup_throws requestedPkg w :
  valid_name requestedPkg ->
  bucket w !! ctan_cache_key requestedPkg = None ->
  match pending w with
  | n :: _ => resolved_parent n (resolve_alias requestedPkg) = None
  | [] => True
  end ->
  exists e,
    handleCtanFetch requestedPkg w
    = (Returned (jsonResponse
                   (error_object ("CTAN fetch error: " +:+ e)) 500),
       looked_up requestedPkg (tl (pending w)) w).
Proof.
  intros Hv Hmiss Hn. destruct (valid_name_guard _ Hv) as [Hl Hc].
  unfold handleCtanFetch. rewrite Hl, Hc. async_unfold. rewrite Hmiss.
  unfold looked_up.
  destruct (pending w) as [|[r | e] rest]; cbn [tl bucket pending trace fst snd];
    rewrite <- ?List.app_assoc; cbn [app].
  - eexists. reflexivity.
  - unfold resolved_parent in Hn. destruct (ok r); [| discriminate].
    destruct (fetched_json r) as [info | e]; [discriminate |].
    eexists. reflexivity.
  - eexists. reflexivity.
Qed.

(** C3. For every name whose length is outside [2, 50] or that contains a
    character outside [[A-Za-z0-9_-]], the processed-fetch, TexLive
    passthrough and registry-metadata handlers each return a status-400
    JSON error and leave the world as it was: no network fetch, no R2
    read or write, nothing added to the trace. *)
Theorem C3_invalid_name_is_400_before_any_io (pkgName : string) (w : World) :
  invalid_name pkgName ->
  (exists r, handleCtanFetch pkgName w
             = (Returned r, w) /\ is_400 r /\ status r = 400%Z) /\
  (exists r, handleTexLiveProxy pkgName w
             = (Returned r, w) /\ is_400 r /\ status r = 400%Z) /\
  (exists r, handleCtanPkgInfo pkgName w
             = (Returned r, w) /\ is_400 r /\ status r = 400%Z).
Proof.
  intros H. unfold handleCtanFetch, handleTexLiveProxy, handleCtanPkgInfo, try_catch.
  destruct (invalid_name_guard pkgName H) as [-> | [-> ->]]; simpl;
    repeat split; eexists; (split; [reflexivity | split; [eexists; reflexivity | reflexivity]]).
Qed.

(** ** The archive fallback chain *)

(** C1 (amended). The chain tries the sources in a fixed order and stops at
    the first archive that is delivered and decodes to a file set.
    Inside [tryCtanTdsZip], with registry metadata [info]:
    (1) when [info] declares an install path, the first download is
        [<mirror>/install<path>], and a delivered archive ends the stage;
    (2) otherwise, when it declares a content path, the download is
        [<mirror><contentPath>.tds.zip];
    (3) when attempt (1) is answered with a non-success status, a content
        path exists and the install URL does not contain [.tds.zip], the
        download [<mirror><contentPath>.tds.zip] follows; when the install
        URL contains [.tds.zip], or no content path exists, or the attempt
        ended in a transport failure, nothing follows in this stage.
    (4) [fallback_chain] runs [tryCtanSourceZip] on the alias-resolved name
        only when the TDS stage has no result; that stage downloads
        [<mirror><contentPath>.zip].
    (5) The chain answers 404 exactly when both stages returned no result,
        and a 200 answer carries a file set with at least one file; on a
        cache miss [handleCtanFetch] answers what the chain answers. *)
Theorem C1_fallback_chain_order :
  (forall pkgName w n1 n2 rest info buf,
     pending w = n1 :: n2 :: rest -> registry_ok n1 info ->
     truthy (install info) = true -> delivers n2 buf ->
     tryCtanTdsZip pkgName w
     = (Returned (decoded buf pkgName),
        after w [registry_url pkgName; install_url info] rest))
  /\
  (forall pkgName w n1 n2 rest info,
     pending w = n1 :: n2 :: rest -> registry_ok n1 info ->
     truthy (install info) = false -> truthy (ctan_path info) = true ->
     (forall buf, delivers n2 buf ->
        tryCtanTdsZip pkgName w
        = (Returned (decoded buf pkgName),
           after w [registry_url pkgName; tds_url info] rest)) /\
     (fails n2 ->
        tryCtanTdsZip pkgName w
        = (Returned None, after w [registry_url pkgName; tds_url info] rest)))
  /\
  (forall pkgName w n1 n2 n3 rest info,
     pending w = n1 :: n2 :: n3 :: rest -> registry_ok n1 info ->
     truthy (install info) = true -> refused n2 ->
     truthy (ctan_path info) = true ->
     Js.includes (install_url info) ".tds.zip" = false ->
     (forall buf, delivers n3 buf ->
        tryCtanTdsZip pkgName w
        = (Returned (decoded buf pkgName),
           after w [registry_url pkgName; install_url info; tds_url info] rest)) /\
     (fails n3 ->
        tryCtanTdsZip pkgName w
        = (Returned None,
           after w [registry_url pkgName; install_url info; tds_url info] rest)))
  /\
  (forall pkgName w n1 n2 rest info,
     pending w = n1 :: n2 :: rest -> registry_ok n1 info ->
     truthy (install info) = true ->
     (refused n2 /\ (truthy (ctan_path info) = false \/
                     Js.includes (install_url info) ".tds.zip" = true))
     \/ (exists e, n2 = NetworkError e) ->
     tryCtanTdsZip pkgName w
     = (Returned None, after w [registry_url pkgName; install_url info] rest))
  /\
  (forall cacheKey pkgName parentPkg w,
     fallback_chain cacheKey pkgName parentPkg w
     = match tryCtanTdsZip parentPkg w with
       | (Returned (Some r), w1) =>
           (Returned (found r "ctan"),
            stored cacheKey (JSON_stringify (json_of_result r)) w1)
       | (Returned None, w1) =>
           match tryCtanSourceZip pkgName w1 with
           | (Returned (Some r), w2) =>
               (Returned (found r "ctan-source"),
                stored cacheKey (JSON_stringify (json_of_result r)) w2)
           | (Returned None, w2) => (Returned not_found, w2)
           | (Thrown e, w2) => (Thrown e, w2)
           end
       | (Thrown e, w1) => (Thrown e, w1)
       end)
  /\
  (forall pkgName w n1 n2 rest info,
     pending w = n1 :: n2 :: rest -> registry_ok n1 info ->
     truthy (ctan_path info) = true ->
     (forall buf, delivers n2 buf ->
        tryCtanSourceZip pkgName w
        = (Returned (decoded buf pkgName),
           after w [registry_url pkgName; zip_url info] rest)) /\
     (fails n2 ->
        tryCtanSourceZip pkgName w
        = (Returned None, after w [registry_url pkgName; zip_url info] rest)))
  /\
  (forall cacheKey pkgName parentPkg w,
     exists resp w',
       fallback_chain cacheKey pkgName parentPkg w = (Returned resp, w') /\
       ((resp = not_found /\ status resp = 404%Z /\
         fst (tryCtanTdsZip parentPkg w) = Returned None /\
         fst (tryCtanSourceZip pkgName (snd (tryCtanTdsZip parentPkg w))) = Returned None)
        \/
        (exists r source,
           resp = found r source /\ status resp = 200%Z /\
           0 < totalFiles r /\ files r <> [])))
  /\
  (forall requestedPkg w n rest parentPkg,
     valid_name requestedPkg ->
     bucket w !! ctan_cache_key requestedPkg = None ->
     pending w = n :: rest ->
     resolved_parent n (resolve_alias requestedPkg) = Some parentPkg ->
     handleCtanFetch requestedPkg w
     = fallback_chain (ctan_cache_key requestedPkg) (resolve_alias requestedPkg) parentPkg
             (looked_up requestedPkg rest w)).
Proof.
  split; [exact tds_install_delivered |].
  split; [intros; split; [intros; eapply tds_content_delivered
                         | intros; eapply tds_content_failed]; eassumption |].
  split; [exact tds_install_retry |].
  split; [exact tds_install_no_retry |].
  split; [exact fallback_chain_result |].
  split; [intros; split; [intros; eapply source_delivered
                         | intros; eapply source_failed]; eassumption |].
  split; [| exact handleCtanFetch_miss].
  intros cacheKey pkgName parentPkg w. rewrite fallback_chain_result.
  unfold chain_result, source_result.
  destruct (tryCtanTdsZip_outcome parentPkg w)
    as (res1 & w1 & t1 & E1 & _ & _ & _ & R1).
  rewrite E1. cbn [fst snd]. destruct res1 as [r|].
  - destruct (R1 r eq_refl) as [buf Hr].
    destruct (processZip_nonempty _ _ _ Hr) as (_ & Hlen & Hpos).
    do 2 eexists. split; [reflexivity |]. right. exists r, "ctan".
    repeat split; [exact Hpos |]. intros Hnil. rewrite Hnil in Hlen. simpl in Hlen. lia.
  - destruct (tryCtanSourceZip_outcome pkgName w1)
      as (res2 & w2 & t2 & E2 & _ & _ & _ & R2).
    rewrite E2. cbn [fst]. destruct res2 as [r|].
    + destruct (R2 r eq_refl) as [buf Hr].
      destruct (processZip_nonempty _ _ _ Hr) as (_ & Hlen & Hpos).
      do 2 eexists. split; [reflexivity |]. right. exists r, "ctan-source".
      repeat split; [exact Hpos |]. intros Hnil. rewrite Hnil in Hlen. simpl in Hlen. lia.
    + do 2 eexists. split; [reflexivity |]. left. repeat split.
Qed.

(** ** The R2 cache of processed packages *)

(** C5. When the bucket holds an object under
    [ctan-cache/<version>/<name>.json], [handleCtanFetch] answers 200 with
    the text of that object as body and the header [X-Cache: HIT]; the only
    external operation is the [get] of that key: nothing is fetched, nothing
    is put, the bucket and the pending network answers are what they
    were. *)
Theorem C5_cache_hit_short_circuits (requestedPkg : string) (w : World) (object : Blob) :
  valid_name requestedPkg ->
  bucket w !! ctan_cache_key requestedPkg = Some object ->
  exists resp w',
    handleCtanFetch requestedPkg w = (Returned resp, w') /\
    status resp = 200%Z /\
    body resp = BlobText (blob_text object) /\
    (forall s, object = BlobText s -> body resp = object) /\
    In ("X-Cache", "HIT") (headers resp) /\
    trace w' = trace w ++ [EvGet (ctan_cache_key requestedPkg)] /\
    bucket w' = bucket w /\
    pending w' = pending w.
Proof.
  intros Hv Hhit. rewrite (handleCtanFetch_hit _ _ _ Hv Hhit).
  do 2 eexists. split; [reflexivity |]. cbn.
  repeat split; [| now right; left]. now intros s ->.
Qed.

(** The external operations of [handleCtanFetch] on a valid name. *)
Lemma handleCtanFetch_operations requestedPkg w :
  valid_name requestedPkg ->
  exists out w' t,
    handleCtanFetch requestedPkg w = (out, w') /\
    trace w' = trace w ++ EvGet (ctan_cache_key requestedPkg) :: t /\
    (forall e, In e t ->
       is_fetch e \/ exists v, e = EvPut (ctan_cache_key requestedPkg) v) /\
    (bucket w !! ctan_cache_key requestedPkg = None ->
     exists t', t = EvFetch (registry_url (resolve_alias requestedPkg)) :: t') /\
    (forall k, k <> ctan_cache_key requestedPkg -> bucket w' !! k = bucket w !! k).
Proof.
  intros Hv.
  destruct (bucket w !! ctan_cache_key requestedPkg) as [object|] eqn:Hb.
  - rewrite (handleCtanFetch_hit _ _ _ Hv Hb).
    exists (Returned {| status := 200;
                        headers := [("Content-Type", "application/json");
                                    ("X-Cache", "HIT")] ++ CORS_HEADERS;
                        body := BlobText (blob_text object) |}),
           (record (EvGet (ctan_cache_key requestedPkg)) w), [].
    cbn. repeat split; [intros e [] | discriminate].
  - destruct (pending w) as [|n rest] eqn:Hp.
    + destruct (handleCtanFetch_lookup_throws requestedPkg w Hv Hb) as [e He].
      { now rewrite Hp. }
      rewrite He. do 3 eexists. split; [reflexivity |]. cbn.
      split; [reflexivity |]. split; [| split; [intros _; eauto | reflexivity]].
      intros ev [<- | []]. now left.
    + destruct (resolved_parent n (resolve_alias requestedPkg)) as [parentPkg|] eqn:Hn.
      * rewrite (handleCtanFetch_miss _ _ _ _ _ Hv Hb Hp Hn).
        destruct (fallback_chain_outcome (ctan_cache_key requestedPkg)
                    (resolve_alias requestedPkg) parentPkg
                    (looked_up requestedPkg rest w))
          as (resp & w' & t & -> & T & Hcases).
        exists (Returned resp), w',
          (EvFetch (registry_url (resolve_alias requestedPkg)) :: t).
        split; [reflexivity |]. cbn [looked_up trace] in T.
        split; [rewrite T, <- List.app_assoc; reflexivity |].
        split; [| split; [intros _; eauto |]].
        -- intros e [<- | Hin]; [now left |].
           destruct Hcases as [(_ & _ & F) | (r & src & t0 & _ & _ & _ & -> & F & _)].
           ++ left. rewrite List.Forall_forall in F. auto.
           ++ apply in_app_or in Hin as [Hin | [<- | []]].
              ** left. rewrite List.Forall_forall in F. auto.
              ** right. eauto.
        -- intros k Hk.
           destruct Hcases as [(_ & -> & _) | (r & src & t0 & _ & _ & -> & _)].
           ++ reflexivity.
           ++ cbn [looked_up bucket]. now rewrite lookup_insert_ne.
      * destruct (handleCtanFetch_lookup_throws requestedPkg w Hv Hb) as [e He].
        { now rewrite Hp. }
        rewrite He. do 3 eexists. split; [reflexivity |]. cbn.
        split; [reflexivity |]. split; [| split; [intros _; eauto | reflexivity]].
        intros ev [<- | []]. now left.
Qed.

(** A fresh resolution is written: on a cache miss, a 200 answer comes with
    a [put] of its body under the key of the requested name, after the
    [get], the registry lookup and the fetches of the chain. *)
Lemma handleCtanFetch_stores requestedPkg w resp w' :
  valid_name requestedPkg ->
  bucket w !! ctan_cache_key requestedPkg = None ->
  handleCtanFetch requestedPkg w = (Returned resp, w') ->
  status resp = 200%Z ->
  exists t0,
    trace w' = trace w ++ EvGet (ctan_cache_key requestedPkg)
                 :: EvFetch (registry_url (resolve_alias requestedPkg))
                 :: t0 ++ [EvPut (ctan_cache_key requestedPkg) (body resp)] /\
    Forall is_fetch t0 /\
    bucket w' = <[ctan_cache_key requestedPkg := body resp]> (bucket w).
Proof.
  intros Hv Hb Hrun Hst.
  destruct (pending w) as [|n rest] eqn:Hp.
  { destruct (handleCtanFetch_lookup_throws requestedPkg w Hv Hb) as [e He].
    { now rewrite Hp. }
    rewrite He in Hrun. injection Hrun as <- <-. discriminate Hst. }
  destruct (resolved_parent n (resolve_alias requestedPkg)) as [parentPkg|] eqn:Hn.
  - rewrite (handleCtanFetch_miss _ _ _ _ _ Hv Hb Hp Hn) in Hrun.
    destruct (fallback_chain_outcome (ctan_cache_key requestedPkg)
                (resolve_alias requestedPkg) parentPkg
                (looked_up requestedPkg rest w))
      as (resp0 & w0 & t & E & T & Hcases).
    rewrite E in Hrun. injection Hrun as <- <-.
    destruct Hcases as [(-> & _) | (r & src & t0 & -> & _ & B & -> & F & _)];
      [discriminate Hst |].
    exists t0. cbn [looked_up trace bucket] in T, B. cbn [found miss_response body].
    split; [rewrite T, <- List.app_assoc; reflexivity |]. split; [exact F | exact B].
  - destruct (handleCtanFetch_lookup_throws requestedPkg w Hv Hb) as [e He].
    { now rewrite Hp. }
    rewrite He in Hrun. injection Hrun as <- <-. discriminate Hst.
Qed.

(** With a registry that declares an install path and a mirror that
    delivers an archive which decodes, the package is answered and
    stored. *)
Lemma handleCtanFetch_resolution requestedPkg w n n1 n2 rest info buf parentPkg r :
  valid_name requestedPkg ->
  bucket w !! ctan_cache_key requestedPkg = None ->
  pending w = n :: n1 :: n2 :: rest ->
  resolved_parent n (resolve_alias requestedPkg) = Some parentPkg ->
  registry_ok n1 info -> truthy (install info) = true -> delivers n2 buf ->
  decoded buf parentPkg = Some r ->
  handleCtanFetch requestedPkg w
  = (Returned (found r "ctan"),
     stored (ctan_cache_key requestedPkg) (JSON_stringify (json_of_result r))
            (after (looked_up requestedPkg (n1 :: n2 :: rest) w)
                   [registry_url parentPkg; install_url info] rest)).
Proof.
  intros Hv Hb Hp Hn H1 Hi H2 Hd.
  rewrite (handleCtanFetch_miss _ _ _ _ _ Hv Hb Hp Hn).
  rewrite fallback_chain_result. unfold chain_result.
  rewrite (tds_install_delivered parentPkg (looked_up requestedPkg (n1 :: n2 :: rest) w)
             n1 n2 rest info buf eq_refl H1 Hi H2).
  now rewrite Hd.
Qed.

(** C10. For a valid name, the first external operation of
    [handleCtanFetch] is the [get] of
    [ctan-cache/<CTAN_CACHE_VERSION>/<requestedName>.json]; it precedes the
    registry lookup made under the alias-resolved name. Every later
    operation is a fetch or a [put] under that same key, and no other key of
    the bucket changes. The key is injective in the requested name, so
    [tikz] and [pgf] are cached under distinct keys although both resolve
    to [pgf]. A fresh resolution is written: when the registry declares an
    install path and the mirror delivers an archive that decodes, the
    handler answers the package and puts its JSON under the key of the
    requested name; and whenever a cache miss is answered 200, the last
    operation is the [put] of the answer's body under that key, after which
    the bucket holds it there. *)
Theorem C10_cache_key_from_requested_name :
  (forall requestedPkg w,
     valid_name requestedPkg ->
     exists out w' t,
       handleCtanFetch requestedPkg w = (out, w') /\
       trace w' = trace w ++ EvGet (ctan_cache_key requestedPkg) :: t /\
       (forall e, In e t ->
          is_fetch e \/ exists v, e = EvPut (ctan_cache_key requestedPkg) v) /\
       (bucket w !! ctan_cache_key requestedPkg = None ->
        exists t', t = EvFetch (registry_url (resolve_alias requestedPkg)) :: t') /\
       (forall k, k <> ctan_cache_key requestedPkg -> bucket w' !! k = bucket w !! k))
  /\ (forall a b, ctan_cache_key a = ctan_cache_key b -> a = b)
  /\ ctan_cache_key "tikz" <> ctan_cache_key "pgf"
  /\ resolve_alias "tikz" = resolve_alias "pgf"
  /\ ctan_cache_key "tikz" = "ctan-cache/v5/tikz.json"
  /\
  (forall requestedPkg w n n1 n2 rest info buf parentPkg r,
     valid_name requestedPkg ->
     bucket w !! ctan_cache_key requestedPkg = None ->
     pending w = n :: n1 :: n2 :: rest ->
     resolved_parent n (resolve_alias requestedPkg) = Some parentPkg ->
     registry_ok n1 info -> truthy (install info) = true -> delivers n2 buf ->
     decoded buf parentPkg = Some r ->
     handleCtanFetch requestedPkg w
     = (Returned (found r "ctan"),
        stored (ctan_cache_key requestedPkg) (JSON_stringify (json_of_result r))
               (after (looked_up requestedPkg (n1 :: n2 :: rest) w)
                      [registry_url parentPkg; install_url info] rest)))
  /\
  (forall requestedPkg w resp w',
     valid_name requestedPkg ->
     bucket w !! ctan_cache_key requestedPkg = None ->
     handleCtanFetch requestedPkg w = (Returned resp, w') ->
     status resp = 200%Z ->
     (exists t0,
        trace w' = trace w ++ EvGet (ctan_cache_key requestedPkg)
                     :: EvFetch (registry_url (resolve_alias requestedPkg))
                     :: t0 ++ [EvPut (ctan_cache_key requestedPkg) (body resp)] /\
        Forall is_fetch t0) /\
     bucket w' = <[ctan_cache_key requestedPkg := body resp]> (bucket w) /\
     bucket w' !! ctan_cache_key requestedPkg = Some (body resp)).
Proof.
  split; [exact handleCtanFetch_operations |].
  split; [exact ctan_cache_key_inj |].
  split; [intros H; apply ctan_cache_key_inj in H; discriminate |].
  split; [reflexivity |]. split; [reflexivity |].
  split; [exact handleCtanFetch_resolution |].
  intros requestedPkg w resp w' Hv Hb Hrun Hst.
  destruct (handleCtanFetch_stores _ _ _ _ Hv Hb Hrun Hst) as (t0 & T & F & B).
  split; [exists t0; now split |]. split; [exact B |].
  rewrite B. apply lookup_insert_eq.
Qed.

(** ** Registry lookup failure *)

Lemma tds_first_fetch pkgName w :
  exists t, trace (snd (tryCtanTdsZip pkgName w))
            = trace w ++ EvFetch (registry_url pkgName) :: t.
Proof.
  unfold tryCtanTdsZip. async_unfold.
  repeat destruct_match; rewrite <- ?List.app_assoc; cbn [app]; eexists; reflexivity.
Qed.

Lemma chain_first_fetch cacheKey pkgName parentPkg w :
  exists resp w' t,
    fallback_chain cacheKey pkgName parentPkg w = (Returned resp, w') /\
    (status resp = 200%Z \/ status resp = 404%Z) /\
    trace w' = trace w ++ EvFetch (registry_url parentPkg) :: t.
Proof.
  destruct (tds_first_fetch parentPkg w) as [t0 Ht0].
  rewrite fallback_chain_result. unfold chain_result, source_result.
  destruct (tryCtanTdsZip_outcome parentPkg w)
    as (res1 & w1 & t1 & E1 & _ & _ & _ & _).
  rewrite E1 in *. cbn [snd] in Ht0. destruct res1 as [r|].
  - do 3 eexists. split; [reflexivity |]. split; [now left |].
    cbn [stored trace]. rewrite Ht0, <- List.app_assoc. reflexivity.
  - destruct (tryCtanSourceZip_outcome pkgName w1)
      as (res2 & w2 & t2 & E2 & _ & T2 & _ & _).
    rewrite E2. destruct res2 as [r|].
    + do 3 eexists. split; [reflexivity |]. split; [now left |].
      cbn [stored trace]. rewrite T2, Ht0, <- !List.app_assoc. reflexivity.
    + do 3 eexists. split; [reflexivity |]. split; [now right |].
      rewrite T2, Ht0, <- List.app_assoc. reflexivity.
Qed.


(** ** Upstream failures *)

Lemma handleTexLiveProxy_upstream pkgName w n rest :
  valid_name pkgName ->
  bucket w !! texlive_cache_key pkgName = None ->
  pending w = n :: rest ->
  handleTexLiveProxy pkgName w
  = (Returned
       match n with
       | Responded r =>
           if ok r then
             {| status := 200;
                headers := [("Content-Type", "application/x-xz");
                            ("Content-Length",
                             Js.numberToString
                               (Z.of_nat (List.length (fetched_arrayBuffer r))));
                            ("X-Cache", "MISS")] ++ CORS_HEADERS;
                body := BlobBytes (fetched_arrayBuffer r) |}
           else if (fetched_status r =? 404)%Z then
             jsonResponse
               (error_object "Package not found in TexLive 2023") 404
           else
             jsonResponse
               (error_object ("TexLive fetch failed: "
                              +:+ Js.numberToString (fetched_status r))) 502
       | NetworkError e =>
           jsonResponse
             (error_object ("TexLive proxy error: " +:+ e)) 500
       end,
     match n with
     | Responded r =>
         if ok r then
           stored_bytes (texlive_cache_key pkgName) (fetched_arrayBuffer r)
                        (proxied pkgName rest w)
         else proxied pkgName rest w
     | NetworkError _ => proxied pkgName rest w
     end).
Proof.
  intros Hv Hb Hp. destruct (valid_name_guard _ Hv) as [Hl Hc].
  unfold handleTexLiveProxy. rewrite Hl, Hc. async_unfold.
  fold (texlive_cache_key pkgName). fold (texlive_url pkgName).
  rewrite Hb, Hp. cbn [bucket pending trace fst snd].
  unfold proxied, stored_bytes. rewrite <- ?List.app_assoc. cbn [app].
  destruct n as [r | e]; cbn [bucket pending trace fst snd]; [| reflexivity].
  destruct (ok r); cbn [negb bucket pending trace fst snd]; [reflexivity |].
  destruct (fetched_status r =? 404)%Z; reflexivity.
Qed.

(** A stage whose registry lookup gives no metadata has no result. *)
Lemma tds_lookup_failed pkgName w n1 rest :
  pending w = n1 :: rest -> lookup_fails n1 ->
  tryCtanTdsZip pkgName w = (Returned None, after w [registry_url pkgName] rest).
Proof.
  intros Hp [[e ->] | [(r & -> & [Hok | (info & Hok & Hj & He)])
                      | (r & e & -> & Hok & Hj)]];
    unfold tryCtanTdsZip; run_stage; reflexivity.
Qed.

Lemma source_lookup_failed pkgName w n1 rest :
  pending w = n1 :: rest ->
  lookup_fails n1 \/ (exists info, registry_ok n1 info /\ truthy (ctan_path info) = false) ->
  tryCtanSourceZip pkgName w = (Returned None, after w [registry_url pkgName] rest).
Proof.
  intros Hp [[[e ->] | [(r & -> & [Hok | (info & Hok & Hj & He)])
                       | (r & e & -> & Hok & Hj)]]
            | (info & H1 & Hc)];
    scenario; unfold tryCtanSourceZip; run_stage; reflexivity.
Qed.

(** The registry lookup of [handleCtanFetch] itself is inside the handler's
    [try] only: when it rejects, or when a 2xx answer does not parse, the
    [catch] answers 500 and no stage is run. *)
Lemma handleCtanFetch_lookup_rejected requestedPkg w n rest e :
  valid_name requestedPkg ->
  bucket w !! ctan_cache_key requestedPkg = None ->
  pending w = n :: rest ->
  n = NetworkError e \/
  (exists r, n = Responded r /\ ok r = true /\ fetched_json r = Thrown e) ->
  handleCtanFetch requestedPkg w
  = (Returned (jsonResponse (error_object ("CTAN fetch error: " +:+ e)) 500),
     looked_up requestedPkg rest w).
Proof.
  intros Hv Hmiss Hp Hn. destruct (valid_name_guard _ Hv) as [Hl Hc].
  unfold handleCtanFetch. rewrite Hl, Hc. async_unfold. rewrite Hmiss, Hp.
  unfold looked_up.
  destruct Hn as [-> | (r & -> & Hok & Hj)]; cbn [bucket pending trace fst snd];
    rewrite <- ?List.app_assoc; cbn [app]; [reflexivity |].
  rewrite Hok, Hj. reflexivity.
Qed.

(** C9 (amended). In the raw passthrough ([handleTexLiveProxy]), on a cache
    miss: an upstream 404 is answered with a 404 JSON error, any other
    non-2xx answer with a 502 JSON error, and a transport failure (a [fetch]
    that rejects) with the 500 JSON error of the handler's [catch]. In the
    processed pipeline a failure inside the fallback chain, by status or by
    transport, is absorbed: both stages always return; a failed TDS
    download, also a refused install download whose retry fails, and a
    registry lookup of the TDS stage that gives no metadata are followed by
    the source stage, which answers 404 when its own lookup or download
    fails; the chain answers 200 or 404 whatever the network does. The
    registry lookup of [handleCtanFetch] itself is absorbed when it is
    answered with a non-success status or an error payload, so that the
    answer is then 200 or 404; when that lookup rejects, or its 2xx answer
    does not parse, nothing is absorbed: the handler's [catch] answers 500
    and no fallback stage is tried. *)
Theorem C9_upstream_failures :
  (forall pkgName w n rest,
     valid_name pkgName ->
     bucket w !! texlive_cache_key pkgName = None ->
     pending w = n :: rest ->
     (forall r, n = Responded r -> ok r = false -> fetched_status r = 404%Z ->
        handleTexLiveProxy pkgName w
        = (Returned (jsonResponse
                       (error_object "Package not found in TexLive 2023") 404),
           proxied pkgName rest w)) /\
     (forall r, n = Responded r -> ok r = false -> fetched_status r <> 404%Z ->
        handleTexLiveProxy pkgName w
        = (Returned (jsonResponse
                       (error_object ("TexLive fetch failed: "
                                      +:+ Js.numberToString (fetched_status r))) 502),
           proxied pkgName rest w)) /\
     (forall e, n = NetworkError e ->
        handleTexLiveProxy pkgName w
        = (Returned (jsonResponse
                       (error_object ("TexLive proxy error: " +:+ e)) 500),
           proxied pkgName rest w)))
  /\
  (forall pkgName w,
     (exists res w', tryCtanTdsZip pkgName w = (Returned res, w')) /\
     (exists res w', tryCtanSourceZip pkgName w = (Returned res, w')))
  /\
  (forall cacheKey pkgName parentPkg w n1 n2 rest info,
     pending w = n1 :: n2 :: rest -> registry_ok n1 info ->
     truthy (install info) = false -> truthy (ctan_path info) = true ->
     fails n2 ->
     fallback_chain cacheKey pkgName parentPkg w
     = source_result cacheKey pkgName
         (after w [registry_url parentPkg; tds_url info] rest))
  /\
  (forall cacheKey pkgName parentPkg w n1 n2 rest info,
     pending w = n1 :: n2 :: rest -> registry_ok n1 info ->
     truthy (install info) = true ->
     (refused n2 /\ (truthy (ctan_path info) = false \/
                     Js.includes (install_url info) ".tds.zip" = true))
     \/ (exists e, n2 = NetworkError e) ->
     fallback_chain cacheKey pkgName parentPkg w
     = source_result cacheKey pkgName
         (after w [registry_url parentPkg; install_url info] rest))
  /\
  (forall cacheKey pkgName w n1 n2 rest info,
     pending w = n1 :: n2 :: rest -> registry_ok n1 info ->
     truthy (ctan_path info) = true -> fails n2 ->
     source_result cacheKey pkgName w
     = (Returned not_found, after w [registry_url pkgName; zip_url info] rest))
  /\
  (forall cacheKey pkgName parentPkg w n1 n2 n3 rest info,
     pending w = n1 :: n2 :: n3 :: rest -> registry_ok n1 info ->
     truthy (install info) = true -> refused n2 ->
     truthy (ctan_path info) = true ->
     Js.includes (install_url info) ".tds.zip" = false ->
     fails n3 ->
     fallback_chain cacheKey pkgName parentPkg w
     = source_result cacheKey pkgName
         (after w [registry_url parentPkg; install_url info; tds_url info] rest))
  /\
  (forall cacheKey pkgName parentPkg w n1 rest,
     pending w = n1 :: rest ->
     lookup_fails n1 \/
     (exists info, registry_ok n1 info /\ truthy (install info) = false
                   /\ truthy (ctan_path info) = false) ->
     fallback_chain cacheKey pkgName parentPkg w
     = source_result cacheKey pkgName (after w [registry_url parentPkg] rest))
  /\
  (forall cacheKey pkgName w n1 rest,
     pending w = n1 :: rest ->
     lookup_fails n1 \/
     (exists info, registry_ok n1 info /\ truthy (ctan_path info) = false) ->
     source_result cacheKey pkgName w
     = (Returned not_found, after w [registry_url pkgName] rest))
  /\
  (forall cacheKey pkgName parentPkg w,
     exists resp w',
       fallback_chain cacheKey pkgName parentPkg w = (Returned resp, w') /\
       (status resp = 200%Z \/ status resp = 404%Z))
  /\
  (forall requestedPkg w n rest,
     valid_name requestedPkg ->
     bucket w !! ctan_cache_key requestedPkg = None ->
     pending w = n :: rest ->
     (forall e,
        n = NetworkError e \/
        (exists r, n = Responded r /\ ok r = true /\ fetched_json r = Thrown e) ->
        handleCtanFetch requestedPkg w
        = (Returned (jsonResponse (error_object ("CTAN fetch error: " +:+ e)) 500),
           looked_up requestedPkg rest w)) /\
     (forall parentPkg,
        resolved_parent n (resolve_alias requestedPkg) = Some parentPkg ->
        exists resp w',
          handleCtanFetch requestedPkg w = (Returned resp, w') /\
          (status resp = 200%Z \/ status resp = 404%Z)) /\
     (registry_fails n ->
      resolved_parent n (resolve_alias requestedPkg)
      = Some (resolve_alias requestedPkg))).
Proof.
  split; [| split; [| split; [| split; [| split; [| split; [| split; [| split; [| split]]]]]]]].
  - intros pkgName w n rest Hv Hb Hp.
    rewrite (handleTexLiveProxy_upstream _ _ _ _ Hv Hb Hp).
    split; [| split].
    + intros r -> Hok Hst. rewrite Hok, Hst. reflexivity.
    + intros r -> Hok Hst. rewrite Hok.
      apply Z.eqb_neq in Hst. rewrite Hst. reflexivity.
    + intros e ->. reflexivity.
  - intros pkgName w. split.
    + destruct (tryCtanTdsZip_outcome pkgName w) as (res & w' & _ & E & _). eauto.
    + destruct (tryCtanSourceZip_outcome pkgName w) as (res & w' & _ & E & _). eauto.
  - intros cacheKey pkgName parentPkg w n1 n2 rest info Hp H1 Hi Hc H2.
    rewrite fallback_chain_result. unfold chain_result.
    now rewrite (tds_content_failed _ _ _ _ _ _ Hp H1 Hi Hc H2).
  - intros cacheKey pkgName parentPkg w n1 n2 rest info Hp H1 Hi H2.
    rewrite fallback_chain_result. unfold chain_result.
    now rewrite (tds_install_no_retry _ _ _ _ _ _ Hp H1 Hi H2).
  - intros cacheKey pkgName w n1 n2 rest info Hp H1 Hc H2.
    unfold source_result.
    now rewrite (source_failed _ _ _ _ _ _ Hp H1 Hc H2).
  - intros cacheKey pkgName parentPkg w n1 n2 n3 rest info Hp H1 Hi H2 Hc Hinc H3.
    rewrite fallback_chain_result. unfold chain_result.
    now rewrite (proj2 (tds_install_retry _ _ _ _ _ _ _ Hp H1 Hi H2 Hc Hinc) H3).
  - intros cacheKey pkgName parentPkg w n1 rest Hp [H1 | (info & H1 & Hi & Hc)];
      rewrite fallback_chain_result; unfold chain_result.
    + now rewrite (tds_lookup_failed _ _ _ _ Hp H1).
    + now rewrite (tds_no_location _ _ _ _ _ Hp H1 Hi Hc).
  - intros cacheKey pkgName w n1 rest Hp H1. unfold source_result.
    now rewrite (source_lookup_failed _ _ _ _ Hp H1).
  - intros cacheKey pkgName parentPkg w.
    destruct (chain_first_fetch cacheKey pkgName parentPkg w)
      as (resp & w' & _ & E & S & _).
    eauto.
  - intros requestedPkg w n rest Hv Hb Hp. split; [| split].
    + intros e He. exact (handleCtanFetch_lookup_rejected _ _ _ _ _ Hv Hb Hp He).
    + intros parentPkg Hn. rewrite (handleCtanFetch_miss _ _ _ _ _ Hv Hb Hp Hn).
      destruct (chain_first_fetch (ctan_cache_key requestedPkg)
                  (resolve_alias requestedPkg) parentPkg
                  (looked_up requestedPkg rest w)) as (resp & w' & _ & E & S & _).
      eauto.
    + intros (r & -> & Hr). unfold resolved_parent.
      destruct Hr as [-> | (info & -> & -> & ->)]; reflexivity.
Qed.

(** ** Excluded trees *)

Lemma lies_under_guard dir path :
  lies_under dir path ->
  Js.includes path ("/" +:+ dir +:+ "/") = true \/
  Js.startsWith path (dir +:+ "/") = true.
Proof.
  intros (pre & post & -> & [-> | [pre' ->]]).
  - right. unfold Js.startsWith.
    replace (EmptyString +:+ dir +:+ "/" +:+ post)%string
      with ((dir +:+ "/") +:+ post)%string
      by (now rewrite append_assoc).
    apply prefix_append.
  - left.
    replace ((pre' +:+ "/") +:+ dir +:+ "/" +:+ post)%string
      with (pre' +:+ ("/" +:+ dir +:+ "/") +:+ post)%string
      by (now rewrite !append_assoc).
    apply includes_append.
Qed.

Lemma excluded_skipped path : excluded path -> skipped path = true.
Proof.
  unfold skipped. intros [H | H]; apply lies_under_guard in H;
    cbn [String.append] in H; rewrite !orb_true_iff; tauto.
Qed.

Lemma excluded_archive_no_result buf pkgName entries :
  unzipSync buf = Returned entries ->
  Forall (fun e => excluded (fst e)) entries ->
  processZip unzipSync TextDecoder_decode buf pkgName = Returned None.
Proof.
  intros Hu Hall. unfold processZip. rewrite Hu.
  rewrite processFiles_all_skipped; [reflexivity |].
  rewrite List.Forall_forall in *. intros e He. apply excluded_skipped. auto.
Qed.

(** A result of a stage is decoded from an archive that the network
    delivered during the stage; a stage leaves the bucket as it is and only
    uses up pending answers. *)
Lemma tryCtanTdsZip_delivered pkgName w :
  exists res w',
    tryCtanTdsZip pkgName w = (Returned res, w') /\
    bucket w' = bucket w /\
    (forall x, In x (pending w') -> In x (pending w)) /\
    (forall r, res = Some r ->
       exists fr, In (Responded fr) (pending w) /\ ok fr = true /\
                  processZip unzipSync TextDecoder_decode (fetched_arrayBuffer fr) pkgName
                  = Returned (Some r)).
Proof.
  unfold tryCtanTdsZip. async_unfold. repeat destruct_match; stage_delivered.
Qed.

Lemma tryCtanSourceZip_delivered pkgName w :
  exists res w',
    tryCtanSourceZip pkgName w = (Returned res, w') /\
    bucket w' = bucket w /\
    (forall x, In x (pending w') -> In x (pending w)) /\
    (forall r, res = Some r ->
       exists fr, In (Responded fr) (pending w) /\ ok fr = true /\
                  processZip unzipSync TextDecoder_decode (fetched_arrayBuffer fr) pkgName
                  = Returned (Some r)).
Proof.
  unfold tryCtanSourceZip. async_unfold. repeat destruct_match; stage_delivered.
Qed.

(** When every archive that the network delivers holds only excluded
    entries, the chain answers not-found and stores nothing. *)
Lemma fallback_chain_excluded cacheKey pkgName parentPkg w :
  (forall fr entries,
     In (Responded fr) (pending w) -> ok fr = true ->
     unzipSync (fetched_arrayBuffer fr) = Returned entries ->
     Forall (fun e => excluded (fst e)) entries) ->
  exists w',
    fallback_chain cacheKey pkgName parentPkg w = (Returned not_found, w') /\
    bucket w' = bucket w.
Proof.
  intros Hall.
  assert (Hnone : forall fr p r,
            In (Responded fr) (pending w) -> ok fr = true ->
            processZip unzipSync TextDecoder_decode (fetched_arrayBuffer fr) p
            <> Returned (Some r)).
  { intros fr p r Hin Hok Hz.
    destruct (unzipSync (fetched_arrayBuffer fr)) as [entries | e] eqn:Hu.
    - rewrite (excluded_archive_no_result _ p _ Hu (Hall fr entries Hin Hok Hu)) in Hz.
      discriminate Hz.
    - unfold processZip in Hz. rewrite Hu in Hz. discriminate Hz. }
  rewrite fallback_chain_result. unfold chain_result, source_result.
  destruct (tryCtanTdsZip_delivered parentPkg w) as (res1 & w1 & -> & B1 & P1 & D1).
  destruct res1 as [r|].
  { destruct (D1 r eq_refl) as (fr & Hin & Hok & Hz).
    now destruct (Hnone fr parentPkg r Hin Hok). }
  destruct (tryCtanSourceZip_delivered pkgName w1) as (res2 & w2 & -> & B2 & P2 & D2).
  destruct res2 as [r|].
  { destruct (D2 r eq_refl) as (fr & Hin & Hok & Hz).
    now destruct (Hnone fr pkgName r (P1 _ Hin) Hok). }
  exists w2. split; [reflexivity |]. now rewrite B2, B1.
Qed.

(** C6. An archive entry whose path lies under a [doc/] or [source/]
    directory, at the top of the archive or below a slash, does not change
    the decoder's state, so the output is that of the archive without it.
    A ZIP holding only [doc/manual.pdf] and [source/bar.dtx] makes
    [processZip] return [null], without an exception, and so does every
    archive that holds only such entries: a stage that is delivered one has
    no result. When every archive that the mirror delivers in the run (each
    2xx answer among the pending ones whose body unzips) holds only such
    entries, [handleCtanFetch] answers 404 on a cache miss and stores
    nothing (provided its own registry lookup does not throw). *)
Theorem C6_doc_and_source_excluded :
  (forall pkgName st filePath bytes,
     excluded filePath ->
     processEntry TextDecoder_decode pkgName st (filePath, bytes) = st)
  /\
  (forall pkgName l1 l2 filePath bytes,
     excluded filePath ->
     processFiles TextDecoder_decode (l1 ++ (filePath, bytes) :: l2) pkgName
     = processFiles TextDecoder_decode (l1 ++ l2) pkgName)
  /\
  (forall zipBuffer pkgName manual dtx,
     unzipSync zipBuffer
     = Returned [("doc/manual.pdf", manual); ("source/bar.dtx", dtx)] ->
     processZip unzipSync TextDecoder_decode zipBuffer pkgName = Returned None)
  /\
  (forall zipBuffer pkgName entries,
     unzipSync zipBuffer = Returned entries ->
     Forall (fun e => excluded (fst e)) entries ->
     processZip unzipSync TextDecoder_decode zipBuffer pkgName = Returned None /\
     decoded zipBuffer pkgName = None)
  /\
  (forall requestedPkg w n rest,
     valid_name requestedPkg ->
     bucket w !! ctan_cache_key requestedPkg = None ->
     pending w = n :: rest ->
     resolved_parent n (resolve_alias requestedPkg) <> None ->
     (forall fr entries,
        In (Responded fr) rest -> ok fr = true ->
        unzipSync (fetched_arrayBuffer fr) = Returned entries ->
        Forall (fun e => excluded (fst e)) entries) ->
     exists w',
       handleCtanFetch requestedPkg w = (Returned not_found, w') /\
       status not_found = 404%Z /\
       bucket w' = bucket w).
Proof.
  split; [| split; [| split; [| split]]].
  - intros. apply processEntry_skipped. now apply excluded_skipped.
  - intros. apply processFiles_skipped_entry. now apply excluded_skipped.
  - intros zipBuffer pkgName manual dtx H. unfold processZip. rewrite H.
    reflexivity.
  - intros zipBuffer pkgName entries Hu Hall.
    pose proof (excluded_archive_no_result _ pkgName _ Hu Hall) as E.
    split; [exact E |]. unfold decoded. now rewrite E.
  - intros requestedPkg w n rest Hv Hb Hp Hn Hall.
    destruct (resolved_parent n (resolve_alias requestedPkg)) as [parentPkg|] eqn:E;
      [| now destruct Hn].
    rewrite (handleCtanFetch_miss _ _ _ _ _ Hv Hb Hp E).
    destruct (fallback_chain_excluded (ctan_cache_key requestedPkg)
                (resolve_alias requestedPkg) parentPkg (looked_up requestedPkg rest w))
      as (w' & -> & B); [exact Hall |].
    exists w'. repeat split. exact B.
Qed.

(** ** Bootstrap aliases *)

Lemma alias_tikz : resolve_alias "tikz" = VString "pgf".
Proof. reflexivity. Qed.

Lemma alias_etex : resolve_alias "etex" = VString "etex-pkg".
Proof. reflexivity. Qed.

(** A name that is neither an alias nor a member of [Object.prototype] is
    looked up under its own name. *)
Lemma alias_other requestedPkg :
  assoc requestedPkg bootstrapAliases = None ->
  assoc requestedPkg Object_prototype = None ->
  resolve_alias requestedPkg = VString requestedPkg.
Proof.
  intros H1 H2. unfold resolve_alias, get_property. now rewrite H1, H2.
Qed.

(** On a cache miss the registry lookup goes to the alias-resolved name. *)
Lemma registry_lookup_uses_alias requestedPkg w :
  valid_name requestedPkg ->
  bucket w !! ctan_cache_key requestedPkg = None ->
  exists t,
    trace (snd (handleCtanFetch requestedPkg w))
    = trace w ++ [EvGet (ctan_cache_key requestedPkg);
                  EvFetch (registry_url (resolve_alias requestedPkg))] ++ t.
Proof.
  intros Hv Hb.
  destruct (handleCtanFetch_operations requestedPkg w Hv)
    as (out & w' & t & E & T & _ & F & _).
  destruct (F Hb) as [t' ->]. rewrite E. exists t'. cbn [snd]. rewrite T. reflexivity.
Qed.

(** ** Read-through caching *)

(** X1. After a request that was answered 200, the same request is
    answered from the bucket with the same body and the header
    [X-Cache: HIT], and performs nothing but the [get]. *)
Lemma second_request_is_a_hit requestedPkg w resp w' :
  valid_name requestedPkg ->
  handleCtanFetch requestedPkg w = (Returned resp, w') ->
  status resp = 200%Z ->
  exists resp',
    handleCtanFetch requestedPkg w'
    = (Returned resp', record (EvGet (ctan_cache_key requestedPkg)) w') /\
    body resp' = body resp /\
    In ("X-Cache", "HIT") (headers resp').
Proof.
  intros Hv Hrun Hst.
  assert (Hhit : exists s, bucket w' !! ctan_cache_key requestedPkg = Some (BlobText s)
                           /\ body resp = BlobText s \/
                 exists object, bucket w' !! ctan_cache_key requestedPkg = Some object
                                /\ body resp = BlobText (blob_text object)).
  { destruct (bucket w !! ctan_cache_key requestedPkg) as [object|] eqn:Hb.
    - rewrite (handleCtanFetch_hit _ _ _ Hv Hb) in Hrun. injection Hrun as <- <-.
      exists EmptyString. right. exists object. split; [exact Hb | reflexivity].
    - destruct (pending w) as [|n rest] eqn:Hp.
      + destruct (handleCtanFetch_lookup_throws requestedPkg w Hv Hb) as [e He].
        { now rewrite Hp. }
        rewrite He in Hrun. injection Hrun as <- <-. discriminate Hst.
      + destruct (resolved_parent n (resolve_alias requestedPkg)) as [parentPkg|] eqn:Hn.
        * rewrite (handleCtanFetch_miss _ _ _ _ _ Hv Hb Hp Hn) in Hrun.
          destruct (fallback_chain_outcome (ctan_cache_key requestedPkg)
                      (resolve_alias requestedPkg) parentPkg
                      (looked_up requestedPkg rest w))
            as (resp0 & w0 & t & E & _ & Hcases).
          rewrite E in Hrun. injection Hrun as <- <-.
          destruct Hcases as [(-> & _) | (r & src & t0 & -> & _ & B & _)];
            [discriminate Hst |].
          eexists. left. split; [| reflexivity].
          rewrite B. apply lookup_insert_eq.
        * destruct (handleCtanFetch_lookup_throws requestedPkg w Hv Hb) as [e He].
          { now rewrite Hp. }
          rewrite He in Hrun. injection Hrun as <- <-. discriminate Hst. }
  destruct Hhit as [s [(Hb & Hbody) | (object & Hb & Hbody)]].
  - rewrite (handleCtanFetch_hit _ _ _ Hv Hb). eexists. split; [reflexivity |].
    split; [now rewrite Hbody | now right; left].
  - rewrite (handleCtanFetch_hit _ _ _ Hv Hb). eexists. split; [reflexivity |].
    split; [now rewrite Hbody | now right; left].
Qed.

End WorkerProperties.

(** * Properties of the decoder, the handlers and the router *)

(** ** The shape of the base64 text *)

Lemma digit_is_base64_char (k : N) : (k < 64)%N -> base64_char (Base64.digit k).
Proof. intros H. left. exists k. split; [apply (digit_value k H) | exact H]. Qed.

Lemma btoa_step (a b c : ascii) (rest : string) :
  Base64.btoa (String a (String b (String c rest)))
  = let n := Base64.group3 (N_of_ascii a) (N_of_ascii b) (N_of_ascii c) in
    String (Base64.digit (n / 262144)) (String (Base64.digit (n / 4096 mod 64))
      (String (Base64.digit (n / 64 mod 64)) (String (Base64.digit (n mod 64))
         (Base64.btoa rest)))).
Proof. reflexivity. Qed.

Lemma group3_bound (x y z : N) :
  (x < 256 -> y < 256 -> z < 256 -> Base64.group3 x y z / 262144 < 64)%N.
Proof. unfold Base64.group3. intros. zify. b64_arith. Qed.

Lemma btoa_shape (l : list byte) :
  String.length (Base64.btoa (string_of_list_byte l)) = base64_length (List.length l) /\
  Forall base64_char (list_ascii_of_string (Base64.btoa (string_of_list_byte l))).
Proof.
  induction l as [| a | a b | a b c l [IHlen IHchars]] using list_ind3.
  - split; [reflexivity | constructor].
  - split; [reflexivity |].
    change (string_of_list_byte [a]) with (String (ascii_of_byte a) EmptyString).
    cbn [Base64.btoa list_ascii_of_string].
    rewrite code_of_byte. pose proof (Byte.to_N_bounded a).
    repeat apply List.Forall_cons; try apply List.Forall_nil; try (now right);
      apply digit_is_base64_char;
      [apply group3_bound; lia | apply N.mod_lt; discriminate].
  - split; [reflexivity |].
    change (string_of_list_byte [a; b])
      with (String (ascii_of_byte a) (String (ascii_of_byte b) EmptyString)).
    cbn [Base64.btoa list_ascii_of_string].
    rewrite !code_of_byte.
    pose proof (Byte.to_N_bounded a). pose proof (Byte.to_N_bounded b).
    repeat apply List.Forall_cons; try apply List.Forall_nil; try (now right);
      apply digit_is_base64_char;
      [apply group3_bound; lia | apply N.mod_lt; discriminate ..].
  - change (string_of_list_byte (a :: b :: c :: l))
      with (String (ascii_of_byte a)
              (String (ascii_of_byte b) (String (ascii_of_byte c) (string_of_list_byte l)))).
    rewrite btoa_step. cbv zeta.
    cbn [String.length list_ascii_of_string List.length]. split.
    + rewrite IHlen. unfold base64_length.
      replace (S (S (S (List.length l))) + 2) with (List.length l + 2 + 1 * 3) by lia.
      rewrite Nat.div_add by discriminate. lia.
    + rewrite !code_of_byte.
      pose proof (Byte.to_N_bounded a). pose proof (Byte.to_N_bounded b).
      pose proof (Byte.to_N_bounded c).
      repeat apply List.Forall_cons; try exact IHchars;
        apply digit_is_base64_char;
        [apply group3_bound; lia | apply N.mod_lt; discriminate ..].
Qed.

(** X3. [arrayBufferToBase64] produces four characters for every three bytes
    begun, all of them in the base64 alphabet or padding, and it is
    injective: two buffers with the same text are the same buffer. *)
Theorem arrayBufferToBase64_shape (buffer : list byte) :
  String.length (arrayBufferToBase64 buffer) = base64_length (List.length buffer) /\
  Forall base64_char (list_ascii_of_string (arrayBufferToBase64 buffer)) /\
  (forall buffer', arrayBufferToBase64 buffer = arrayBufferToBase64 buffer' ->
                   buffer = buffer').
Proof.
  assert (E : arrayBufferToBase64 buffer = Base64.btoa (string_of_list_byte buffer)).
  { unfold arrayBufferToBase64. now rewrite binary_string_of_buffer. }
  rewrite E. destruct (btoa_shape buffer) as [Hlen Hchars].
  split; [exact Hlen |]. split; [exact Hchars |].
  intros buffer' H. rewrite <- E in H.
  pose proof (decode_arrayBufferToBase64 buffer) as H1.
  pose proof (decode_arrayBufferToBase64 buffer') as H2.
  rewrite H in H1. rewrite H1 in H2. now injection H2.
Qed.

(** ** The file set of a decoded archive *)

Lemma assoc_obj_set {A : Type} (k k' : string) (v : A) (l : list (string * A)) :
  assoc k' (obj_set k v l) = if String.eqb k' k then Some v else assoc k' l.
Proof.
  induction l as [|[k0 v0] l IH]; cbn [obj_set assoc].
  - reflexivity.
  - destruct (String.eqb k k0) eqn:E; cbn [assoc].
    + apply String.eqb_eq in E. subst k0. now destruct (String.eqb k' k).
    + rewrite IH. destruct (String.eqb k' k0) eqn:E0; [| reflexivity].
      apply String.eqb_eq in E0. subst k0.
      now rewrite String.eqb_sym, E.
Qed.

Lemma obj_set_In {A : Type} (k : string) (v : A) (l : list (string * A)) (p : string * A) :
  In p (obj_set k v l) -> p = (k, v) \/ In p l.
Proof.
  induction l as [|[k0 v0] l IH]; cbn [obj_set In].
  - intros [<- | []]. now left.
  - destruct (String.eqb k k0); cbn [In]; intuition.
Qed.

Lemma obj_set_keys {A : Type} (k : string) (v : A) (l : list (string * A)) (x : string) :
  In x (map fst (obj_set k v l)) <-> x = k \/ In x (map fst l).
Proof.
  induction l as [|[k0 v0] l IH]; cbn [obj_set map fst In].
  - intuition.
  - destruct (String.eqb k k0) eqn:E; cbn [map fst In].
    + apply String.eqb_eq in E. subst k0. intuition.
    + rewrite IH. intuition.
Qed.

Lemma obj_set_NoDup {A : Type} (k : string) (v : A) (l : list (string * A)) :
  List.NoDup (map fst l) -> List.NoDup (map fst (obj_set k v l)).
Proof.
  induction l as [|[k0 v0] l IH]; cbn [obj_set map fst]; intros H.
  - repeat constructor. intros [].
  - apply List.NoDup_cons_iff in H as [Hin H].
    destruct (String.eqb k k0) eqn:E; cbn [map fst].
    + apply String.eqb_eq in E. subst k0. now constructor.
    + constructor; [| now apply IH].
      rewrite obj_set_keys. intros [-> | Hk]; [| contradiction].
      now rewrite String.eqb_refl in E.
Qed.

Lemma obj_set_length {A : Type} (k : string) (v : A) (l : list (string * A)) :
  List.length (obj_set k v l) <= S (List.length l).
Proof.
  induction l as [|[k0 v0] l IH]; cbn [obj_set List.length]; [lia |].
  destruct (String.eqb k k0); cbn [List.length]; lia.
Qed.

Section FileSet.

Variable TextDecoder_decode : list byte -> string.

#[local] Abbreviation extracted := (extracted TextDecoder_decode).
#[local] Abbreviation processEntry := (processEntry TextDecoder_decode).
#[local] Abbreviation processFiles := (processFiles TextDecoder_decode).

Lemma processEntry_files pkgName result detectedDeps entry :
  fst (processEntry pkgName (result, detectedDeps) entry)
  = match extracted pkgName entry with
    | Some (path, file) => obj_set path file result
    | None => result
    end.
Proof.
  destruct entry as [filePath bytes]. unfold processEntry, extracted.
  destruct (skipped filePath); [reflexivity |].
  destruct (array_includes texExtensions (file_ext filePath)); [reflexivity |].
  destruct (array_includes fontExtensions (file_ext filePath)); reflexivity.
Qed.

(** An entry that is stored lies outside the excluded trees; its path is
    under the TeX tree and its file holds the text, or the base64 text,
    of its bytes. *)
Lemma extracted_sound pkgName filePath bytes path file :
  extracted pkgName (filePath, bytes) = Some (path, file) ->
  skipped filePath = false /\
  String.prefix "/texlive/texmf-dist/" path = true /\
  (file = {| content := TextDecoder_decode bytes; encoding := "text" |} \/
   file = {| content := arrayBufferToBase64 bytes; encoding := "base64" |}).
Proof.
  unfold extracted. destruct (skipped filePath); [discriminate |].
  destruct (array_includes texExtensions (file_ext filePath)).
  - intros [= <- <-]. split; [reflexivity |]. split; [| now left].
    unfold texTargetDir.
    destruct (Js.includes filePath "/tex/latex/");
      [destruct (match_segment_after "/tex/latex/" filePath); reflexivity |].
    destruct (Js.includes filePath "/tex/generic/");
      [destruct (match_segment_after "/tex/generic/" filePath) |]; reflexivity.
  - destruct (array_includes fontExtensions (file_ext filePath)); [| discriminate].
    intros [= <- <-]. split; [reflexivity |]. split; [| now right].
    unfold fontTargetDir.
    destruct (fontsMatch filePath); rewrite append_assoc; apply prefix_append.
Qed.

(** What the loop keeps true of [result], from any state on. *)
Lemma fold_processEntry_files pkgName entries st :
  List.NoDup (map fst (fst st)) ->
  let final := fst (fold_left (processEntry pkgName) entries st) in
  List.NoDup (map fst final) /\
  List.length final <= List.length (fst st) + List.length entries /\
  (forall p, In p final ->
     In p (fst st) \/ exists entry, In entry entries /\ extracted pkgName entry = Some p) /\
  (forall path, assoc path (fst st) <> None -> assoc path final <> None).
Proof.
  revert st. induction entries as [|entry entries IH]; intros [result deps] Hnd;
    cbn [fold_left fst List.length].
  - split; [exact Hnd |]. split; [lia |]. split; [now left | auto].
  - pose proof (processEntry_files pkgName result deps entry) as Hstep.
    destruct (processEntry pkgName (result, deps) entry) as [result' deps'] eqn:E.
    cbn [fst] in Hstep.
    assert (Hnd' : List.NoDup (map fst result')).
    { rewrite Hstep. destruct (extracted pkgName entry) as [[path file]|];
        [now apply obj_set_NoDup | exact Hnd]. }
    destruct (IH (result', deps') Hnd') as (H1 & H2 & H3 & H4). cbn [fst] in *.
    split; [exact H1 |]. split; [| split].
    + assert (List.length result' <= S (List.length result)); [| lia].
      rewrite Hstep. destruct (extracted pkgName entry) as [[path file]|];
        [apply obj_set_length | lia].
    + intros p Hp. destruct (H3 p Hp) as [Hin | (e & He & Hx)];
        [| right; exists e; split; [now right | exact Hx]].
      rewrite Hstep in Hin.
      destruct (extracted pkgName entry) as [[path file]|] eqn:Hx; [| now left].
      apply obj_set_In in Hin as [-> | Hin]; [| now left].
      right. exists entry. split; [now left | exact Hx].
    + intros path Hpath. apply H4. rewrite Hstep.
      destruct (extracted pkgName entry) as [[path' file]|]; [| exact Hpath].
      rewrite assoc_obj_set. now destruct (String.eqb path path').
Qed.

(** The entry that stored last under a path decides the file. *)
Lemma fold_processEntry_last pkgName entries st entry path file :
  extracted pkgName entry = Some (path, file) ->
  Forall (fun e => forall file', extracted pkgName e <> Some (path, file')) entries ->
  assoc path (fst (fold_left (processEntry pkgName) entries
                             (processEntry pkgName st entry))) = Some file.
Proof.
  intros Hx Hl.
  assert (H0 : assoc path (fst (processEntry pkgName st entry)) = Some file).
  { destruct st as [result deps]. rewrite processEntry_files, Hx.
    apply assoc_obj_set_eq. }
  revert H0. generalize (processEntry pkgName st entry).
  induction Hl as [|e l He _ IH]; intros st' H0; cbn [fold_left]; [exact H0 |].
  apply IH. destruct st' as [result deps]. rewrite processEntry_files.
  destruct (extracted pkgName e) as [[path' file']|] eqn:E; [| exact H0].
  rewrite assoc_obj_set. destruct (String.eqb path path') eqn:Ep; [| exact H0].
  apply String.eqb_eq in Ep. subst path'. now destruct (He file').
Qed.

Lemma processFiles_files entries pkgName r :
  processFiles entries pkgName = Some r ->
  files r = fst (fold_left (processEntry pkgName) entries ([], [])).
Proof.
  unfold processFiles.
  destruct (fold_left (processEntry pkgName) entries ([], [])) as [result deps].
  destruct (List.length result =? 0); [discriminate |]. now intros [= <-].
Qed.

Lemma NoDup_nil_keys : List.NoDup (map fst (@nil (string * ExtractedFile))).
Proof. constructor. Qed.

(** X4. Whatever the archive, the files of a result have distinct paths, at
    least one and at most as many as the archive has entries. Every one was
    stored for an archive entry outside the excluded trees, lies under
    [/texlive/texmf-dist/], and holds either the decoded text of that entry
    or the base64 text of its bytes, which decodes to these bytes. *)
Theorem processZip_file_set entries pkgName r :
  processFiles entries pkgName = Some r ->
  List.NoDup (map fst (files r)) /\
  totalFiles r = List.length (files r) /\
  1 <= totalFiles r <= List.length entries /\
  forall path file, In (path, file) (files r) ->
    String.prefix "/texlive/texmf-dist/" path = true /\
    exists filePath bytes,
      In (filePath, bytes) entries /\ skipped filePath = false /\
      extracted pkgName (filePath, bytes) = Some (path, file) /\
      (file = {| content := TextDecoder_decode bytes; encoding := "text" |} \/
       file = {| content := arrayBufferToBase64 bytes; encoding := "base64" |} /\
       Base64.decode (content file) = Some bytes).
Proof.
  intros Hr. pose proof (processFiles_files _ _ _ Hr) as Hf.
  destruct (processFiles_nonempty _ _ _ _ Hr) as (_ & Hlen & Hpos).
  destruct (fold_processEntry_files pkgName entries ([], []) NoDup_nil_keys)
    as (Hnd & Hle & Hsrc & _).
  cbv zeta in *. rewrite <- Hf in *. cbn [fst List.length] in Hle.
  split; [exact Hnd |]. split; [exact Hlen |]. split; [lia |].
  intros path file Hin.
  destruct (Hsrc _ Hin) as [[] | ([filePath bytes] & He & Hx)].
  destruct (extracted_sound _ _ _ _ _ Hx) as (Hs & Hp & Hfile).
  split; [exact Hp |]. exists filePath, bytes.
  repeat (split; [assumption |]).
  destruct Hfile as [-> | ->]; [now left | right].
  split; [reflexivity | apply decode_arrayBufferToBase64].
Qed.

(** X5. Every archive entry that is stored has its path in the result, and
    when several entries are stored under one path, the file is that of the
    last of them: an entry followed by no entry with its path is in the
    result as it was stored. *)
Theorem last_entry_of_a_path_wins entries pkgName r :
  processFiles entries pkgName = Some r ->
  (forall entry path file,
     In entry entries -> extracted pkgName entry = Some (path, file) ->
     assoc path (files r) <> None) /\
  (forall l1 entry l2 path file,
     entries = l1 ++ entry :: l2 ->
     extracted pkgName entry = Some (path, file) ->
     Forall (fun e => forall file', extracted pkgName e <> Some (path, file')) l2 ->
     assoc path (files r) = Some file /\ In (path, file) (files r)).
Proof.
  intros Hr. rewrite (processFiles_files _ _ _ Hr). split.
  - intros entry path file Hin Hx.
    apply in_split in Hin as (l1 & l2 & ->).
    rewrite fold_left_app. cbn [fold_left].
    destruct (fold_left (processEntry pkgName) l1 ([], [])) as [result deps] eqn:E1.
    destruct (processEntry pkgName (result, deps) entry) as [result' deps'] eqn:E2.
    assert (Hnd : List.NoDup (map fst (fst (result', deps')))).
    { rewrite <- E2, processEntry_files.
      pose proof (fold_processEntry_files pkgName l1 ([], []) NoDup_nil_keys) as (H & _).
      cbv zeta in H. rewrite E1 in H. cbn [fst] in H.
      destruct (extracted pkgName entry) as [[p f]|]; [now apply obj_set_NoDup | exact H]. }
    apply (fold_processEntry_files pkgName l2 (result', deps') Hnd).
    rewrite <- E2, processEntry_files, Hx, assoc_obj_set_eq. discriminate.
  - intros l1 entry l2 path file -> Hx Hl2.
    rewrite fold_left_app. cbn [fold_left].
    pose proof (fold_processEntry_last pkgName l2
                  (fold_left (processEntry pkgName) l1 ([], [])) entry path file Hx Hl2)
      as Ha.
    split; [exact Ha |].
    revert Ha. generalize (fst (fold_left (processEntry pkgName) l2
                                  (processEntry pkgName
                                     (fold_left (processEntry pkgName) l1 ([], [])) entry))).
    intros l. induction l as [|[k v] l IH]; cbn [assoc]; [discriminate |].
    destruct (String.eqb path k) eqn:E.
    + apply String.eqb_eq in E. subst k. intros [= ->]. now left.
    + intros H. right. now apply IH.
Qed.

End FileSet.

(** ** Where the decoder files an entry *)

Lemma prefix_empty (s : string) : String.prefix EmptyString s = true.
Proof. now destruct s. Qed.

Lemma prefix_cons (a b : ascii) (p s : string) :
  String.prefix (String a p) (String b s) = Ascii.eqb a b && String.prefix p s.
Proof.
  cbn [String.prefix]. destruct (ascii_dec a b) as [-> | N].
  - now rewrite Ascii.eqb_refl.
  - apply Ascii.eqb_neq in N. now rewrite N.
Qed.

Lemma span_all (p : ascii -> bool) (a : string) :
  Js.all_chars p a = true -> Js.span p a = (a, EmptyString).
Proof.
  induction a as [|c a IH]; cbn [Js.all_chars Js.span]; [reflexivity |].
  intros H. apply andb_true_iff in H as [-> H]. now rewrite (IH H).
Qed.

Lemma match_segment_after_unfold (lit s : string) :
  match_segment_after lit s
  = match match Js.strip_prefix lit s with
          | Some r => match fst (Js.span not_slash r) with
                      | EmptyString => None
                      | seg => Some seg
                      end
          | None => None
          end with
    | Some seg => Some seg
    | None => match s with
              | EmptyString => None
              | String _ t => match_segment_after lit t
              end
    end.
Proof. destruct s; reflexivity. Qed.

(** The first segment after a literal that starts with a slash, when no
    slash precedes the literal. *)
Lemma match_segment_after_top (lit top seg rest : string) :
  Js.all_chars not_slash top = true -> segment seg ->
  rest = EmptyString \/ (exists r, rest = String "/"%char r) ->
  match_segment_after (String "/"%char lit) (top +:+ String "/"%char lit +:+ seg +:+ rest)
  = Some seg.
Proof.
  intros Htop [Hne Hseg] Hrest. induction top as [|c top IH].
  - cbn [String.append].
    replace (String "/"%char (lit +:+ seg +:+ rest))
      with (String "/"%char lit +:+ seg +:+ rest)%string by reflexivity.
    rewrite match_segment_after_unfold, strip_prefix_append.
    assert (Hspan : fst (Js.span not_slash (seg +:+ rest)) = seg).
    { destruct Hrest as [-> | [r ->]].
      - rewrite append_empty_r, span_all by exact Hseg. reflexivity.
      - rewrite span_until; [reflexivity | exact Hseg | reflexivity]. }
    rewrite Hspan. destruct seg; [now destruct Hne | reflexivity].
  - cbn [Js.all_chars] in Htop. apply andb_true_iff in Htop as [Hc Htop].
    cbn [String.append]. rewrite match_segment_after_unfold.
    cbn [Js.strip_prefix].
    unfold not_slash, is_slash in Hc. apply negb_true_iff in Hc.
    rewrite Ascii.eqb_sym, Hc. exact (IH Htop).
Qed.

Lemma split_not_nil (s : string) (sep : ascii) : Js.split s sep <> [].
Proof.
  induction s as [|c s IH]; cbn [Js.split]; [discriminate |].
  destruct (Ascii.eqb c sep); [discriminate |].
  destruct (Js.split s sep); discriminate.
Qed.

Lemma last_append {A : Type} (l1 l2 : list A) (d : A) :
  l2 <> [] -> List.last (l1 ++ l2) d = List.last l2 d.
Proof.
  intros H. induction l1 as [|x l1 IH]; [reflexivity |].
  cbn [app List.last]. destruct (l1 ++ l2) eqn:E; [| exact IH].
  apply app_eq_nil in E as [_ E]. now destruct H.
Qed.

(** The pieces of [a ++ sep ++ b] end with the pieces of [b]. *)
Lemma split_append (a b : string) (sep : ascii) :
  exists x l, Js.split (a +:+ String sep b) sep = (x :: l) ++ Js.split b sep.
Proof.
  induction a as [|c a (x & l & IH)]; cbn [String.append Js.split].
  - rewrite Ascii.eqb_refl. now exists EmptyString, [].
  - rewrite IH. destruct (Ascii.eqb c sep).
    + now exists EmptyString, (x :: l).
    + now exists (String c x), l.
Qed.

Lemma split_segment (b : string) (sep : ascii) :
  Js.all_chars (not_char sep) b = true -> Js.split b sep = [b].
Proof.
  induction b as [|c b IH]; cbn [Js.all_chars Js.split]; [reflexivity |].
  intros H. apply andb_true_iff in H as [Hc H].
  unfold not_char in Hc. apply negb_true_iff in Hc. rewrite Hc, (IH H). reflexivity.
Qed.

(** The file name of a path is the file name of what follows a slash. *)
Lemma file_name_append (dir rest : string) :
  file_name (dir +:+ "/" +:+ rest) = file_name rest.
Proof.
  unfold file_name, Js.pop_or_empty.
  destruct (split_append dir rest "/"%char) as (x & l & E).
  cbn [String.append]. rewrite E. apply last_append, split_not_nil.
Qed.

Lemma file_name_segment (fileName : string) :
  Js.all_chars not_slash fileName = true -> file_name fileName = fileName.
Proof.
  intros H. unfold file_name, Js.pop_or_empty.
  rewrite split_segment; [reflexivity | exact H].
Qed.

(** A literal that starts with a slash does not occur before the first
    slash. *)
Lemma includes_skip_top (top lit s : string) :
  Js.all_chars not_slash top = true ->
  Js.includes (top +:+ s) (String "/"%char lit) = Js.includes s (String "/"%char lit).
Proof.
  intros H. induction top as [|c top IH]; [reflexivity |].
  cbn [Js.all_chars] in H. apply andb_true_iff in H as [Hc H].
  cbn [String.append]. rewrite includes_unfold. unfold Js.startsWith.
  rewrite prefix_cons. unfold not_slash, is_slash in Hc. apply negb_true_iff in Hc.
  rewrite Ascii.eqb_sym, Hc. cbn [andb orb]. exact (IH H).
Qed.

Lemma includes_segment (a lit : string) :
  Js.all_chars not_slash a = true -> Js.includes a (String "/"%char lit) = false.
Proof.
  intros H. rewrite <- (append_empty_r a), includes_skip_top by exact H. reflexivity.
Qed.

(** A string that begins with a literal holding a slash holds a slash. *)
Lemma prefix_with_slash (a b s : string) :
  String.prefix (a +:+ String "/"%char b) s = true -> Js.all_chars not_slash s = false.
Proof.
  revert s. induction a as [|c a IH]; intros [|d s]; cbn [String.append];
    try discriminate; rewrite prefix_cons; intros H;
    apply andb_true_iff in H as [Hc H]; cbn [Js.all_chars].
  - apply Ascii.eqb_eq in Hc. subst d. reflexivity.
  - rewrite (IH s H). apply andb_false_r.
Qed.

(** Two paths that agree up to their first slash have the same first
    segment. *)
Lemma prefix_first_segment (a b seg s : string) :
  Js.all_chars not_slash a = true -> Js.all_chars not_slash seg = true ->
  String.prefix (a +:+ String "/"%char b) (seg +:+ String "/"%char s) = true ->
  a = seg /\ String.prefix b s = true.
Proof.
  revert seg. induction a as [|c a IH]; intros [|d seg] Ha Hseg; cbn [String.append];
    rewrite prefix_cons; intros H; apply andb_true_iff in H as [Hc H].
  - now split.
  - apply Ascii.eqb_eq in Hc. subst d. cbn [Js.all_chars] in Hseg. discriminate Hseg.
  - apply Ascii.eqb_eq in Hc. subst c. cbn [Js.all_chars] in Ha. discriminate Ha.
  - cbn [Js.all_chars] in Ha, Hseg.
    apply andb_true_iff in Ha as [_ Ha]. apply andb_true_iff in Hseg as [_ Hseg].
    apply Ascii.eqb_eq in Hc. subst d.
    destruct (IH seg Ha Hseg H) as [-> Hp]. now split.
Qed.

(** An entry [tex/<tree>/<dir>/<file>] at the top of the archive holds no
    [/tex/<other>/]: the only slash before a [tex/] is too late. *)
Lemma top_level_tree (tree other dir fileName : string) :
  tree <> "tex" ->
  Js.all_chars not_slash tree = true -> Js.all_chars not_slash other = true ->
  Js.all_chars not_slash dir = true -> Js.all_chars not_slash fileName = true ->
  Js.includes ("tex/" +:+ tree +:+ "/" +:+ dir +:+ "/" +:+ fileName)
              ("/tex/" +:+ other +:+ "/") = false.
Proof.
  intros Hne Ht Ho Hd Hf.
  change ("/tex/" +:+ other +:+ "/")%string
    with (String "/"%char ("tex" +:+ String "/"%char (other +:+ "/"))).
  change ("tex/" +:+ tree +:+ "/" +:+ dir +:+ "/" +:+ fileName)%string
    with ("tex" +:+ String "/"%char (tree +:+ String "/"%char (dir +:+ String "/"%char fileName)))%string.
  rewrite (includes_skip_top "tex") by reflexivity.
  rewrite includes_unfold. apply orb_false_iff. split.
  { unfold Js.startsWith. rewrite prefix_cons, Ascii.eqb_refl. cbn [andb].
    apply not_true_iff_false. intros E.
    apply prefix_first_segment in E as [E _]; [| reflexivity | exact Ht].
    now destruct Hne. }
  rewrite includes_skip_top by exact Ht.
  rewrite includes_unfold. apply orb_false_iff. split.
  { unfold Js.startsWith. rewrite prefix_cons, Ascii.eqb_refl. cbn [andb].
    apply not_true_iff_false. intros E.
    apply prefix_first_segment in E as [_ E]; [| reflexivity | exact Hd].
    apply (prefix_with_slash other EmptyString) in E. congruence. }
  rewrite includes_skip_top by exact Hd.
  rewrite includes_unfold. apply orb_false_iff. split.
  { unfold Js.startsWith. rewrite prefix_cons, Ascii.eqb_refl. cbn [andb].
    apply not_true_iff_false. intros E.
    apply prefix_with_slash in E. congruence. }
  now apply includes_segment.
Qed.

(** *** Fonts *)

Lemma slash_segments_skip (a rest : string) :
  Js.all_chars not_slash a = true ->
  slash_segments true (a +:+ rest) = slash_segments true rest.
Proof.
  intros H. induction a as [|c a IH]; [reflexivity |].
  cbn [Js.all_chars] in H. apply andb_true_iff in H as [Hc H].
  cbn [String.append slash_segments].
  unfold not_slash in Hc. apply negb_true_iff in Hc. rewrite Hc.
  destruct a; [reflexivity | exact (IH H)].
Qed.

Lemma slash_segments_segment (seg rest : string) :
  segment seg ->
  slash_segments true (String "/"%char (seg +:+ rest)) = slash_segments true rest.
Proof.
  intros [Hne H]. destruct seg as [|c seg]; [now destruct Hne |].
  cbn [Js.all_chars] in H. apply andb_true_iff in H as [Hc H].
  cbn [String.append slash_segments]. unfold is_slash at 1. rewrite Ascii.eqb_refl.
  cbn [andb]. unfold not_slash in Hc. apply negb_true_iff in Hc. rewrite Hc.
  now apply slash_segments_skip.
Qed.

Lemma below_cons (dir : string) (dirs : list string) :
  below (dir :: dirs) = String "/"%char (dir +:+ below dirs).
Proof. reflexivity. Qed.

(** The tail of the fonts pattern accepts directories and a file name. *)
Lemma slash_segments_below (dirs : list string) (fileName : string) :
  Forall segment dirs -> segment fileName ->
  slash_segments true (below dirs +:+ "/" +:+ fileName) = true.
Proof.
  intros Hd Hf. induction Hd as [|dir dirs Hdir _ IH].
  - cbn [below fold_right String.append].
    rewrite <- (append_empty_r fileName), slash_segments_segment by exact Hf.
    reflexivity.
  - rewrite below_cons. cbn [String.append]. rewrite append_assoc.
    rewrite slash_segments_segment by exact Hdir. exact IH.
Qed.

Lemma below_starts_with_slash (dirs : list string) (fileName : string) :
  exists r, (below dirs +:+ "/" +:+ fileName)%string = String "/"%char r.
Proof. destruct dirs; cbn [below fold_right String.append]; eauto. Qed.

Lemma fonts_here_tree (kind : string) (dirs : list string) (fileName : string) :
  In kind fontKinds -> Forall segment dirs -> segment fileName ->
  fonts_here ("fonts/" +:+ kind +:+ below dirs +:+ "/" +:+ fileName) = true.
Proof.
  intros Hk Hd Hf. unfold fonts_here. rewrite strip_prefix_append.
  apply existsb_exists. exists kind. split; [exact Hk |].
  rewrite strip_prefix_append.
  pose proof (slash_segments_below dirs fileName Hd Hf) as Hs.
  destruct (below_starts_with_slash dirs fileName) as [r E]. rewrite E in *.
  now rewrite Hs.
Qed.

Lemma fonts_after_slash_append (p s : string) :
  fonts_here s = true -> fonts_after_slash ((p +:+ "/") +:+ s) = true.
Proof.
  intros H. induction p as [|c p IH]; cbn [String.append fonts_after_slash].
  - now rewrite H.
  - rewrite IH. apply orb_true_r.
Qed.

Lemma fontsMatch_tree (pre kind : string) (dirs : list string) (fileName : string) :
  at_component pre -> In kind fontKinds -> Forall segment dirs -> segment fileName ->
  fontsMatch (pre +:+ "fonts/" +:+ kind +:+ below dirs +:+ "/" +:+ fileName) = true.
Proof.
  intros [-> | [p ->]] Hk Hd Hf; unfold fontsMatch.
  - change (fonts_here ("fonts/" +:+ kind +:+ below dirs +:+ "/" +:+ fileName)
            || fonts_after_slash ("fonts/" +:+ kind +:+ below dirs +:+ "/" +:+ fileName)
            = true).
    now rewrite fonts_here_tree.
  - rewrite fonts_after_slash_append by now apply fonts_here_tree.
    apply orb_true_r.
Qed.

(** The fonts pattern only matches a path that holds [fonts/]. *)
Lemma fonts_here_includes (s : string) :
  fonts_here s = true -> Js.includes s "fonts/" = true.
Proof.
  unfold fonts_here. destruct (Js.strip_prefix "fonts/" s) as [r|] eqn:E; [| discriminate].
  intros _. apply strip_prefix_Some in E. subst s.
  rewrite includes_unfold. unfold Js.startsWith. now rewrite prefix_append.
Qed.

Lemma fontsMatch_includes (filePath : string) :
  fontsMatch filePath = true -> Js.includes filePath "fonts/" = true.
Proof.
  unfold fontsMatch. intros H. apply orb_true_iff in H as [H | H];
    [now apply fonts_here_includes |].
  induction filePath as [|c s IH]; [discriminate |].
  cbn [fonts_after_slash] in H. rewrite includes_unfold.
  apply orb_true_iff in H as [H | H].
  - apply andb_true_iff in H as [_ H]. rewrite (fonts_here_includes s H).
    apply orb_true_r.
  - rewrite (IH H). apply orb_true_r.
Qed.

(** Positions in a path. *)
Lemma lastIndexOf_segment (f : string) (c : ascii) :
  Js.all_chars (not_char c) f = true -> Js.lastIndexOf f c = (-1)%Z.
Proof.
  induction f as [|a f IH]; cbn [Js.all_chars Js.lastIndexOf]; [reflexivity |].
  intros H. apply andb_true_iff in H as [Ha H]. rewrite (IH H). cbn.
  unfold not_char in Ha. apply negb_true_iff in Ha. now rewrite Ha.
Qed.

Lemma lastIndexOf_append (a f : string) (c : ascii) :
  Js.all_chars (not_char c) f = true ->
  Js.lastIndexOf (a +:+ String c f) c = Z.of_nat (String.length a).
Proof.
  intros H. induction a as [|x a IH]; cbn [String.append Js.lastIndexOf String.length].
  - rewrite (lastIndexOf_segment f c H). cbn. now rewrite Ascii.eqb_refl.
  - rewrite IH. destruct (0 <=? Z.of_nat (String.length a))%Z eqn:E; [lia |].
    apply Z.leb_gt in E. lia.
Qed.

Lemma indexOf_unfold (s sub : string) :
  Js.indexOf s sub
  = if Js.startsWith s sub then 0%Z
    else match s with
         | EmptyString => (-1)%Z
         | String _ t => let i := Js.indexOf t sub in
                         if (i <? 0)%Z then (-1)%Z else (i + 1)%Z
         end.
Proof. destruct s; reflexivity. Qed.

(** A string that begins with a literal ending in a slash, read after a
    prefix: the literal begins in the prefix, or the prefix has no slash. *)
Lemma prefix_across (lit pre s : string) :
  Js.all_chars not_slash lit = true ->
  String.prefix (lit +:+ "/") (pre +:+ s) = true ->
  String.prefix (lit +:+ "/") pre = true \/ Js.all_chars not_slash pre = true.
Proof.
  revert pre. induction lit as [|a lit IH]; intros [|c pre] Hl H; try (now right).
  - cbn [String.append] in *. rewrite prefix_cons in *.
    apply andb_true_iff in H as [Hc _]. left. rewrite Hc. apply prefix_empty.
  - cbn [String.append Js.all_chars] in *. rewrite prefix_cons in *.
    apply andb_true_iff in Hl as [Ha Hl]. apply andb_true_iff in H as [Hc H].
    destruct (IH pre Hl H) as [Hp | Hp].
    + left. now rewrite Hc, Hp.
    + right. apply Ascii.eqb_eq in Hc. subst c. now rewrite Ha, Hp.
Qed.

Lemma at_component_tail (c : ascii) (pre : string) :
  at_component (String c pre) -> at_component pre.
Proof.
  intros [H | [p H]]; [discriminate |].
  destruct p as [|d p]; cbn [String.append] in H; injection H as -> ->.
  - now left.
  - right. now exists p.
Qed.

Lemma at_component_slash (pre : string) :
  at_component pre -> Js.all_chars not_slash pre = true -> pre = EmptyString.
Proof.
  intros [-> | [p ->]] H; [reflexivity |].
  rewrite all_chars_append in H. apply andb_true_iff in H as [_ H]. discriminate H.
Qed.

(** The first [fonts/] of the path is the one of the tree, when none lies
    before it. *)
Lemma indexOf_fonts (pre s : string) :
  at_component pre -> Js.includes pre "fonts/" = false ->
  Js.indexOf (pre +:+ "fonts/" +:+ s) "fonts/" = Z.of_nat (String.length pre).
Proof.
  intros Hc Hi. induction pre as [|c pre IH].
  - change (Js.indexOf ("fonts/" +:+ s) "fonts/" = 0%Z).
    rewrite indexOf_unfold. unfold Js.startsWith. now rewrite prefix_append.
  - rewrite includes_unfold in Hi. apply orb_false_iff in Hi as [Hs Hi].
    change (String c pre +:+ "fonts/" +:+ s)%string
      with (String c (pre +:+ "fonts/" +:+ s)).
    rewrite indexOf_unfold.
    assert (Hn : Js.startsWith (String c (pre +:+ "fonts/" +:+ s)) "fonts/" = false).
    { apply not_true_iff_false. intros H. unfold Js.startsWith in *.
      destruct (prefix_across "fonts" (String c pre) ("fonts/" +:+ s) eq_refl H)
        as [Hp | Hp]; [cbn [String.append] in Hp; congruence |].
      now apply at_component_slash in Hp. }
    rewrite Hn. cbv zeta.
    rewrite (IH (at_component_tail _ _ Hc) Hi). cbn [String.length].
    destruct (Z.of_nat (String.length pre) <? 0)%Z eqn:E; [apply Z.ltb_lt in E; lia | lia].
Qed.

Lemma substring_skip (a s : string) (n : nat) :
  String.substring (String.length a) n (a +:+ s) = String.substring 0 n s.
Proof. induction a as [|c a IH]; [reflexivity | exact IH]. Qed.

Lemma substring_take (m s : string) :
  String.substring 0 (String.length m) (m +:+ s) = m.
Proof.
  induction m as [|c m IH]; cbn [String.length String.append String.substring].
  - now destruct s.
  - now rewrite IH.
Qed.

(** [s.substring(a, b)] between two positions of [s]. *)
Lemma substring_middle (a m s : string) :
  Js.substring (a +:+ m +:+ s) (Z.of_nat (String.length a))
               (Z.of_nat (String.length (a +:+ m)))
  = m.
Proof.
  unfold Js.substring, Js.clamp. rewrite !length_append.
  rewrite !Z.max_l by lia. rewrite !Z.min_l by lia. rewrite !Nat2Z.id.
  rewrite Nat.min_l, Nat.max_r by lia.
  replace (String.length a + String.length m - String.length a) with (String.length m) by lia.
  rewrite substring_skip. apply substring_take.
Qed.

Section Placement.

Variable TextDecoder_decode : list byte -> string.

#[local] Abbreviation processEntry := (processEntry TextDecoder_decode).

Lemma tex_dir_of_tree (lit top dir rest : string) :
  Js.all_chars not_slash top = true -> segment dir ->
  match_segment_after (String "/"%char lit)
                      (top +:+ String "/"%char lit +:+ dir +:+ "/" +:+ rest)
  = Some dir.
Proof.
  intros Htop Hdir. apply match_segment_after_top; [exact Htop | exact Hdir |].
  right. now exists rest.
Qed.

(** X6. Where a TeX-source entry is filed.
    (1) An entry [<top>/tex/latex/<dir>/<rest>], with one directory [top]
        before the tree, is stored as
        [/texlive/texmf-dist/tex/latex/<dir>/<file name>]: the directories
        of [rest] are dropped.
    (2) The same holds for [<top>/tex/generic/<dir>/<rest>] when the path
        holds no [/tex/latex/].
    (3) An entry [tex/latex/<dir>/<file>] at the top of the archive, with
        nothing before the tree, is stored under the package name:
        [/texlive/texmf-dist/tex/latex/<pkgName>/<file>].
    (4) A file directly in [<top>/tex/latex/] is stored in a directory
        that bears its own name. *)
Theorem tex_entry_placement
        (pkgName : JsVal) (result : list (string * ExtractedFile))
        (detectedDeps : list string) (bytes : list byte) :
  let stored_as filePath path :=
    processEntry pkgName (result, detectedDeps) (filePath, bytes)
    = (obj_set path {| content := TextDecoder_decode bytes; encoding := "text" |} result,
       scan_dependencies (TextDecoder_decode bytes) detectedDeps) in
  (forall top dir rest,
     let filePath := (top +:+ "/tex/latex/" +:+ dir +:+ "/" +:+ rest)%string in
     tex_source filePath -> Js.all_chars not_slash top = true -> segment dir ->
     stored_as filePath
       ("/texlive/texmf-dist/tex/latex/" +:+ dir +:+ "/" +:+ file_name rest)%string)
  /\
  (forall top dir rest,
     let filePath := (top +:+ "/tex/generic/" +:+ dir +:+ "/" +:+ rest)%string in
     tex_source filePath -> Js.all_chars not_slash top = true -> segment dir ->
     Js.includes filePath "/tex/latex/" = false ->
     stored_as filePath
       ("/texlive/texmf-dist/tex/generic/" +:+ dir +:+ "/" +:+ file_name rest)%string)
  /\
  (forall dir fileName,
     let filePath := ("tex/latex/" +:+ dir +:+ "/" +:+ fileName)%string in
     tex_source filePath -> segment dir -> segment fileName ->
     stored_as filePath
       ("/texlive/texmf-dist/tex/latex/" +:+ ToString pkgName +:+ "/" +:+ fileName)%string)
  /\
  (forall top fileName,
     let filePath := (top +:+ "/tex/latex/" +:+ fileName)%string in
     tex_source filePath -> Js.all_chars not_slash top = true -> segment fileName ->
     stored_as filePath
       ("/texlive/texmf-dist/tex/latex/" +:+ fileName +:+ "/" +:+ fileName)%string).
Proof.
  intros stored_as. unfold stored_as. split; [| split; [| split]].
  - intros top dir rest [Hs He] Htop Hdir.
    set (filePath := (top +:+ "/tex/latex/" +:+ dir +:+ "/" +:+ rest)%string) in *.
    rewrite processEntry_tex by assumption. do 2 f_equal.
    assert (Hname : file_name filePath = file_name rest).
    { unfold filePath.
      replace (top +:+ "/tex/latex/" +:+ dir +:+ "/" +:+ rest)%string
        with ((top +:+ "/tex/latex/" +:+ dir) +:+ "/" +:+ rest)%string
        by (now rewrite !append_assoc).
      apply file_name_append. }
    rewrite Hname. unfold texTargetDir.
    replace (Js.includes filePath "/tex/latex/") with true
      by (symmetry; apply includes_append).
    unfold filePath.
    rewrite (tex_dir_of_tree "tex/latex/" top dir rest Htop Hdir).
    now rewrite !append_assoc.
  - intros top dir rest [Hs He] Htop Hdir Hlatex.
    set (filePath := (top +:+ "/tex/generic/" +:+ dir +:+ "/" +:+ rest)%string) in *.
    rewrite processEntry_tex by assumption. do 2 f_equal.
    assert (Hname : file_name filePath = file_name rest).
    { unfold filePath.
      replace (top +:+ "/tex/generic/" +:+ dir +:+ "/" +:+ rest)%string
        with ((top +:+ "/tex/generic/" +:+ dir) +:+ "/" +:+ rest)%string
        by (now rewrite !append_assoc).
      apply file_name_append. }
    rewrite Hname. unfold texTargetDir. rewrite Hlatex.
    replace (Js.includes filePath "/tex/generic/") with true
      by (symmetry; apply includes_append).
    unfold filePath.
    rewrite (tex_dir_of_tree "tex/generic/" top dir rest Htop Hdir).
    now rewrite !append_assoc.
  - intros dir fileName [Hs He] [_ Hdir] [_ Hfile].
    set (filePath := ("tex/latex/" +:+ dir +:+ "/" +:+ fileName)%string) in *.
    rewrite processEntry_tex by assumption. do 2 f_equal.
    assert (Hname : file_name filePath = fileName).
    { unfold filePath.
      replace ("tex/latex/" +:+ dir +:+ "/" +:+ fileName)%string
        with (("tex/latex/" +:+ dir) +:+ "/" +:+ fileName)%string
        by (now rewrite !append_assoc).
      rewrite file_name_append. now apply file_name_segment. }
    rewrite Hname. unfold texTargetDir.
    replace (Js.includes filePath "/tex/latex/") with false
      by (symmetry; apply (top_level_tree "latex" "latex" dir fileName);
          assumption || discriminate || reflexivity).
    replace (Js.includes filePath "/tex/generic/") with false
      by (symmetry; apply (top_level_tree "latex" "generic" dir fileName);
          assumption || discriminate || reflexivity).
    now rewrite !append_assoc.
  - intros top fileName [Hs He] Htop Hfile.
    set (filePath := (top +:+ "/tex/latex/" +:+ fileName)%string) in *.
    rewrite processEntry_tex by assumption. do 2 f_equal.
    assert (Hname : file_name filePath = fileName).
    { unfold filePath.
      replace (top +:+ "/tex/latex/" +:+ fileName)%string
        with ((top +:+ "/tex/latex") +:+ "/" +:+ fileName)%string
        by (now rewrite !append_assoc).
      rewrite file_name_append. apply file_name_segment, Hfile. }
    rewrite Hname. unfold texTargetDir.
    replace (Js.includes filePath "/tex/latex/") with true
      by (symmetry; unfold filePath; apply includes_append).
    unfold filePath.
    replace (top +:+ "/tex/latex/" +:+ fileName)%string
      with (top +:+ String "/"%char "tex/latex/" +:+ fileName +:+ EmptyString)%string
      by (now rewrite append_empty_r).
    rewrite match_segment_after_top; [| exact Htop | exact Hfile | now left].
    now rewrite !append_assoc.
Qed.

(** *** Extensions *)

Lemma toLowerCase_append (a b : string) :
  Js.toLowerCase (a +:+ b) = (Js.toLowerCase a +:+ Js.toLowerCase b)%string.
Proof.
  induction a as [|c a IH]; cbn [String.append Js.toLowerCase]; [reflexivity |].
  now rewrite IH.
Qed.

Lemma substringFrom_suffix (a m : string) :
  Js.substringFrom (a +:+ m) (Z.of_nat (String.length a)) = m.
Proof.
  unfold Js.substringFrom.
  pose proof (substring_middle a m EmptyString) as H.
  rewrite !append_empty_r in H. exact H.
Qed.

Lemma substringFrom_all (s : string) : Js.substringFrom s (-1) = s.
Proof.
  unfold Js.substringFrom, Js.substring, Js.clamp.
  rewrite Z.max_r, Z.min_l by lia. rewrite Z.max_l, Z.min_l by lia.
  rewrite Nat2Z.id. cbn [Z.to_nat]. rewrite Nat.min_0_l, Nat.max_0_l, Nat.sub_0_r.
  rewrite <- (append_empty_r s) at 2. apply substring_take.
Qed.

(** Only the full stop is lowered to a full stop. *)
Lemma lower_dot : forallb (fun n => negb (Ascii.eqb (Js.lower (ascii_of_nat n)) "."%char)
                                    || Ascii.eqb (ascii_of_nat n) "."%char)
                          (seq 0 256) = true.
Proof. vm_compute. reflexivity. Qed.

Lemma lower_is_dot (c : ascii) : Js.lower c = "."%char -> c = "."%char.
Proof.
  intros H.
  assert (Hin : In (nat_of_ascii c) (seq 0 256))
    by (apply in_seq; pose proof (nat_ascii_bounded c); lia).
  pose proof (proj1 (forallb_forall _ _) lower_dot _ Hin) as Hc. cbv beta in Hc.
  rewrite ascii_nat_embedding, H in Hc. now apply Ascii.eqb_eq.
Qed.

(** X7. The decoder classifies an entry by the text after the last full
    stop of its path, in lower case: [file_ext] of [<stem>.<ext>] is
    [.<ext>] lowered, whatever the stem, so [FOO.STY] is classified as
    [FOO.sty] is. An entry without a full stop in its path has no
    extension the decoder knows and leaves the state as it is. *)
Theorem extension_decides_in_lower_case :
  (forall stem ext,
     Js.all_chars (not_char "."%char) ext = true ->
     file_ext (stem +:+ "." +:+ ext) = ("." +:+ Js.toLowerCase ext)%string /\
     file_ext (stem +:+ "." +:+ Js.toLowerCase ext) = file_ext (stem +:+ "." +:+ ext))
  /\
  (forall filePath pkgName st bytes,
     Js.all_chars (not_char "."%char) filePath = true ->
     processEntry pkgName st (filePath, bytes) = st).
Proof.
  assert (Hext : forall stem e, Js.all_chars (not_char "."%char) e = true ->
                   file_ext (stem +:+ "." +:+ e) = ("." +:+ Js.toLowerCase e)%string).
  { intros stem e H. unfold file_ext.
    change (stem +:+ "." +:+ e)%string with (stem +:+ String "."%char e)%string.
    rewrite lastIndexOf_append by exact H.
    now rewrite substringFrom_suffix. }
  assert (Hlow : forall e, Js.all_chars (not_char "."%char) e = true ->
                           Js.all_chars (not_char "."%char) (Js.toLowerCase e) = true).
  { induction e as [|c e IH]; [reflexivity |]. intros He.
    cbn [Js.all_chars Js.toLowerCase] in *. apply andb_true_iff in He as [Hc He].
    rewrite (IH He), andb_true_r. unfold not_char in *.
    apply negb_true_iff, Ascii.eqb_neq. intros H. apply lower_is_dot in H.
    subst c. discriminate Hc. }
  assert (Hidem : forall e, Js.toLowerCase (Js.toLowerCase e) = Js.toLowerCase e).
  { induction e as [|c e IH]; [reflexivity |].
    cbn [Js.toLowerCase]. rewrite IH. f_equal.
    assert (Hin : In (nat_of_ascii c) (seq 0 256))
      by (apply in_seq; pose proof (nat_ascii_bounded c); lia).
    assert (H : forallb (fun n => Ascii.eqb (Js.lower (Js.lower (ascii_of_nat n)))
                                            (Js.lower (ascii_of_nat n)))
                        (seq 0 256) = true) by (vm_compute; reflexivity).
    pose proof (proj1 (forallb_forall _ _) H _ Hin) as Hc. cbv beta in Hc.
    rewrite ascii_nat_embedding in Hc. now apply Ascii.eqb_eq. }
  split.
  - intros stem ext He. split; [now apply Hext |].
    rewrite !Hext by auto. now rewrite Hidem.
  - intros filePath pkgName [result deps] bytes He. unfold processEntry.
    destruct (skipped filePath); [reflexivity |].
    assert (Hx : file_ext filePath = Js.toLowerCase filePath).
    { unfold file_ext. rewrite lastIndexOf_segment by exact He.
      now rewrite substringFrom_all. }
    rewrite Hx.
    assert (Hno : forall l, Forall (fun x => exists t, x = String "."%char t) l ->
                            array_includes l (Js.toLowerCase filePath) = false).
    { intros l Hl. apply not_true_iff_false. intros H. apply array_includes_In in H.
      rewrite List.Forall_forall in Hl. destruct (Hl _ H) as [t Ht].
      pose proof (Hlow _ He) as Hd. rewrite Ht in Hd. discriminate Hd. }
    rewrite !Hno; [reflexivity | |]; repeat constructor; eexists; reflexivity.
Qed.

(** Every font extension has its directory in the table, so the default
    of [extToDir[ext] || 'fonts/type1/public'] is never used. *)
Lemma extToDir_covers (ext : string) :
  array_includes fontExtensions ext = true ->
  exists baseDir, assoc ext extToDir = Some baseDir.
Proof.
  intros H. apply array_includes_In in H. cbn [fontExtensions In] in H.
  repeat (destruct H as [<- | H]; [eexists; reflexivity |]). destruct H.
Qed.

(** X8. Where a font entry is filed.
    (1) An entry that lies in a tree [fonts/<kind>/...] of one of the known
        kinds, the tree starting the path or following a slash and no other
        [fonts/] preceding it, keeps its path from [fonts/] on under
        [/texlive/texmf-dist/].
    (2) An entry whose path holds no [fonts/] is filed by its extension:
        under the directory [extToDir] gives for it, which exists for every
        font extension, in a directory named after the package. *)
Theorem font_entry_placement
        (pkgName : JsVal) (result : list (string * ExtractedFile))
        (detectedDeps : list string) (bytes : list byte) :
  let stored_as filePath path :=
    processEntry pkgName (result, detectedDeps) (filePath, bytes)
    = (obj_set path {| content := arrayBufferToBase64 bytes; encoding := "base64" |}
               result,
       detectedDeps) in
  (forall pre kind dirs fileName,
     let tree := ("fonts/" +:+ kind +:+ below dirs)%string in
     font_file (pre +:+ tree +:+ "/" +:+ fileName) ->
     at_component pre -> Js.includes pre "fonts/" = false ->
     In kind fontKinds -> Forall segment dirs -> segment fileName ->
     stored_as (pre +:+ tree +:+ "/" +:+ fileName)%string
               ("/texlive/texmf-dist/" +:+ tree +:+ "/" +:+ fileName)%string)
  /\
  (forall filePath,
     font_file filePath -> Js.includes filePath "fonts/" = false ->
     exists baseDir,
       assoc (file_ext filePath) extToDir = Some baseDir /\
       stored_as filePath
         ("/texlive/texmf-dist/" +:+ baseDir +:+ "/" +:+ ToString pkgName +:+ "/"
          +:+ file_name filePath)%string).
Proof.
  intros stored_as. unfold stored_as. split.
  - intros pre kind dirs fileName (Hs & Ht & He) Hpre Hinc Hk Hd Hf.
    set (tree := ("fonts/" +:+ kind +:+ below dirs)%string) in *.
    set (filePath := (pre +:+ tree +:+ "/" +:+ fileName)%string) in *.
    rewrite processEntry_font by assumption. do 2 f_equal.
    assert (Hname : file_name filePath = fileName).
    { unfold filePath. rewrite <- append_assoc, file_name_append.
      apply file_name_segment, Hf. }
    rewrite Hname. unfold fontTargetDir.
    assert (Hm : fontsMatch filePath = true).
    { unfold filePath, tree. rewrite !append_assoc. now apply fontsMatch_tree. }
    rewrite Hm.
    assert (Hi : Js.indexOf filePath "fonts/" = Z.of_nat (String.length pre)).
    { unfold filePath, tree. rewrite !append_assoc. now apply indexOf_fonts. }
    assert (Hl : Js.lastIndexOf filePath "/"%char
                 = Z.of_nat (String.length (pre +:+ tree))).
    { unfold filePath. rewrite <- append_assoc. apply lastIndexOf_append, Hf. }
    rewrite Hi, Hl. unfold filePath. rewrite substring_middle.
    now rewrite !append_assoc.
  - intros filePath (Hs & Ht & He) Hinc.
    destruct (extToDir_covers _ He) as [baseDir Hb]. exists baseDir.
    split; [exact Hb |].
    rewrite processEntry_font by assumption. do 2 f_equal.
    unfold fontTargetDir.
    destruct (fontsMatch filePath) eqn:Hm;
      [apply fontsMatch_includes in Hm; congruence |].
    rewrite Hb. now rewrite !append_assoc.
Qed.

End Placement.

(** ** Where the dependencies come from *)

(** Every group that [matchAll] yields is the group of a call in the
    text. *)
Lemma matchAll_from_requires (s : string) :
  forall skip pre g,
    In g (matchAll_from skip s) -> requires (pre +:+ s) g.
Proof.
  induction s as [|c s IH]; intros skip pre g; cbn [matchAll_from]; [intros [] |].
  assert (Hnext : forall k, In g (matchAll_from k s) -> requires (pre +:+ String c s) g).
  { intros k H.
    replace (pre +:+ String c s)%string with ((pre +:+ String c EmptyString) +:+ s)%string
      by (now rewrite append_assoc).
    now apply (IH k). }
  destruct skip as [|k]; [| apply Hnext].
  destruct (match_RequirePackage (String c s)) as [[g' r]|] eqn:E; [| apply Hnext].
  intros [<- | H]; [| now apply (Hnext _ H)].
  apply match_RequirePackage_spec in E as (options & -> & Ho & Hne & Hg).
  exists pre, options, r. now repeat split.
Qed.

Section DependencySources.

Variable TextDecoder_decode : list byte -> string.

#[local] Abbreviation processEntry := (processEntry TextDecoder_decode).
#[local] Abbreviation processFiles := (processFiles TextDecoder_decode).

Lemma processEntry_deps_In pkgName st entry d :
  In d (snd (processEntry pkgName st entry))
  <-> (tex_source (fst entry) /\
       exists g, In g (matchAll_RequirePackage (TextDecoder_decode (snd entry)))
                 /\ In d (listed g))
      \/ In d (snd st).
Proof.
  destruct st as [result deps], entry as [filePath bytes]. unfold processEntry, tex_source.
  cbn [fst snd].
  destruct (skipped filePath); [cbn [snd]; intuition discriminate |].
  destruct (array_includes texExtensions (file_ext filePath)).
  - cbn [snd]. rewrite scan_dependencies_In. intuition.
  - destruct (array_includes fontExtensions (file_ext filePath)); cbn [snd];
      intuition discriminate.
Qed.

Lemma fold_processEntry_deps_In pkgName entries st d :
  In d (snd (fold_left (processEntry pkgName) entries st))
  <-> (exists filePath bytes g,
         In (filePath, bytes) entries /\ tex_source filePath /\
         In g (matchAll_RequirePackage (TextDecoder_decode bytes)) /\ In d (listed g))
      \/ In d (snd st).
Proof.
  revert st. induction entries as [|[filePath bytes] entries IH]; intros st;
    cbn [fold_left In].
  - split; [now right | intros [(? & ? & ? & [] & _) | H]; exact H].
  - rewrite IH, processEntry_deps_In. cbn [fst snd]. split.
    + intros [(f & b & g & Hin & Ht & Hg & Hd) | [(Ht & g & Hg & Hd) | Hd]];
        [left; exists f, b, g | left; exists filePath, bytes, g | right]; auto.
    + intros [(f & b & g & [[= <- <-] | Hin] & Ht & Hg & Hd) | Hd];
        [right; left; eauto | left; exists f, b, g; auto | right; right; exact Hd].
Qed.

(** X9. The dependencies of a result are exactly the identifiers listed in
    the [\RequirePackage] calls that the pattern finds in the TeX-source
    files of the archive, less the package name. Each of them is written
    in the text of such a file, between the braces of a call
    [\RequirePackage{...}] or [\RequirePackage[...]{...}]: a name is never
    made up, and fonts and files under [doc/] or [source/] contribute
    none. *)
Theorem dependencies_come_from_RequirePackage
        (entries : list (string * list byte)) (pkgName : JsVal) (r : PackageFiles) :
  processFiles entries pkgName = Some r ->
  forall d,
    (In d (dependencies r) <->
     VString d <> pkgName /\
     exists filePath bytes g,
       In (filePath, bytes) entries /\ tex_source filePath /\
       In g (matchAll_RequirePackage (TextDecoder_decode bytes)) /\
       In d (listed g))
    /\
    (In d (dependencies r) ->
     exists filePath bytes g,
       In (filePath, bytes) entries /\ tex_source filePath /\
       requires (TextDecoder_decode bytes) g /\
       In d (map Js.trim (Js.split g ","%char)) /\ is_identifier d = true).
Proof.
  intros Hr d. rewrite (processFiles_dependencies _ _ _ _ Hr).
  rewrite filter_In, strict_neq_spec, fold_processEntry_deps_In. cbn [snd In].
  split; [tauto |].
  intros [[(filePath & bytes & g & Hin & Ht & Hg & Hd) | []] _].
  exists filePath, bytes, g. repeat (split; [assumption |]).
  unfold listed in Hd. apply filter_In in Hd as [Hd Hi].
  split; [| split; assumption].
  apply (matchAll_from_requires _ 0 EmptyString g Hg).
Qed.

End DependencySources.

(** ** What every invocation of a handler guarantees *)

Lemma fetches_app (t1 t2 : list Event) : fetches (t1 ++ t2) = fetches t1 ++ fetches t2.
Proof. apply flat_map_app. Qed.

Lemma put_keys_app (t1 t2 : list Event) : put_keys (t1 ++ t2) = put_keys t1 ++ put_keys t2.
Proof. apply flat_map_app. Qed.

Lemma get_keys_app (t1 t2 : list Event) : get_keys (t1 ++ t2) = get_keys t1 ++ get_keys t2.
Proof. apply flat_map_app. Qed.

Lemma only_fetches (t : list Event) :
  Forall is_fetch t ->
  List.length (fetches t) = List.length t /\ put_keys t = [] /\ get_keys t = [].
Proof.
  induction 1 as [|e t He _ (IH1 & IH2 & IH3)]; [now repeat split |].
  destruct e; try now destruct He.
  cbn [fetches put_keys get_keys flat_map app List.length] in *.
  fold (fetches t). fold (put_keys t). fold (get_keys t). now rewrite IH1, IH2, IH3.
Qed.

Section HandlerProperties.

Variable unzipSync : list byte -> Outcome (list (string * list byte)).
Variable TextDecoder_decode : list byte -> string.
Variable JSON_stringify : Json -> string.

#[local] Abbreviation jsonResponse := (jsonResponse JSON_stringify).
#[local] Abbreviation blob_text := (blob_text TextDecoder_decode).
#[local] Abbreviation handleTexLiveProxy := (handleTexLiveProxy JSON_stringify).
#[local] Abbreviation handleCtanPkgInfo := (handleCtanPkgInfo JSON_stringify).
#[local] Abbreviation tryCtanTdsZip := (tryCtanTdsZip unzipSync TextDecoder_decode).
#[local] Abbreviation tryCtanSourceZip :=
  (tryCtanSourceZip unzipSync TextDecoder_decode).
#[local] Abbreviation fallback_chain :=
  (fallback_chain unzipSync TextDecoder_decode JSON_stringify).
#[local] Abbreviation handleCtanFetch :=
  (handleCtanFetch unzipSync TextDecoder_decode JSON_stringify).
#[local] Abbreviation not_found := (not_found JSON_stringify).
#[local] Abbreviation found := (found JSON_stringify).
#[local] Abbreviation chain_result :=
  (chain_result unzipSync TextDecoder_decode JSON_stringify).
#[local] Abbreviation source_result :=
  (source_result unzipSync TextDecoder_decode JSON_stringify).

Lemma jsonResponse_cors (data : Json) (st : Z) : carries_cors (jsonResponse data st).
Proof. intros h Hh. now right. Qed.

(** *** The cost of the two stages *)

Ltac stage_cost :=
  rewrite <- ?List.app_assoc;
  do 3 eexists; split; [reflexivity |];
  split; [reflexivity |];
  split; [all_fetches |];
  split; [cbn [List.length app]; lia |];
  intros ? [=]; subst; eauto.

Lemma tryCtanTdsZip_cost (pkgName : JsVal) (w : World) :
  exists res w' t,
    tryCtanTdsZip pkgName w = (Returned res, w') /\
    trace w' = trace w ++ t /\ Forall is_fetch t /\ List.length t <= 3 /\
    (forall r, res = Some r ->
       exists buf, processZip unzipSync TextDecoder_decode buf pkgName
                   = Returned (Some r)).
Proof.
  unfold tryCtanTdsZip. async_unfold. repeat destruct_match; stage_cost.
Qed.

Lemma tryCtanSourceZip_cost (pkgName : JsVal) (w : World) :
  exists res w' t,
    tryCtanSourceZip pkgName w = (Returned res, w') /\
    trace w' = trace w ++ t /\ Forall is_fetch t /\ List.length t <= 2 /\
    (forall r, res = Some r ->
       exists buf, processZip unzipSync TextDecoder_decode buf pkgName
                   = Returned (Some r)).
Proof.
  unfold tryCtanSourceZip. async_unfold. repeat destruct_match; stage_cost.
Qed.

(** The chain: at most five fetches, then at most one put; a result of the
    TDS stage bears the parent name, one of the source stage the
    alias-resolved name. *)
Lemma fallback_chain_cost cacheKey pkgName parentPkg w :
  exists resp w' t,
    fallback_chain cacheKey pkgName parentPkg w = (Returned resp, w') /\
    trace w' = trace w ++ t /\
    List.length (fetches t) <= 5 /\ get_keys t = [] /\
    ((resp = not_found /\ put_keys t = []) \/
     (exists r, put_keys t = [cacheKey] /\
                ((resp = found r "ctan" /\ name r = parentPkg) \/
                 (resp = found r "ctan-source" /\ name r = pkgName)) /\
                forall d, In d (dependencies r) -> VString d <> name r)).
Proof.
  rewrite (fallback_chain_result unzipSync TextDecoder_decode JSON_stringify).
  unfold chain_result, source_result.
  destruct (tryCtanTdsZip_cost parentPkg w) as (res1 & w1 & t1 & -> & T1 & F1 & L1 & R1).
  destruct (only_fetches t1 F1) as (N1 & P1 & G1).
  assert (Hdeps : forall buf p r,
             processZip unzipSync TextDecoder_decode buf p = Returned (Some r) ->
             name r = p /\ forall d, In d (dependencies r) -> VString d <> name r).
  { intros buf p r Hr.
    destruct (processZip_nonempty unzipSync TextDecoder_decode _ _ _ Hr) as (Hn & _).
    split; [exact Hn |]. rewrite Hn. unfold processZip in Hr.
    destruct (unzipSync buf) as [entries | e]; [| discriminate]. injection Hr as Hr.
    rewrite (processFiles_dependencies _ _ _ _ Hr).
    intros d Hd. apply filter_In in Hd as [_ Hd]. now apply strict_neq_spec. }
  destruct res1 as [r|].
  - destruct (R1 r eq_refl) as [buf Hr]. destruct (Hdeps _ _ _ Hr) as [Hn Hd].
    eexists _, _, (t1 ++ [EvPut cacheKey _]). split; [reflexivity |].
    cbn [stored trace]. split; [rewrite T1; symmetry; apply List.app_assoc |].
    rewrite fetches_app, get_keys_app, put_keys_app, List.length_app, N1, P1, G1.
    cbn. split; [lia |]. split; [reflexivity |]. right. exists r. auto.
  - destruct (tryCtanSourceZip_cost pkgName w1)
      as (res2 & w2 & t2 & -> & T2 & F2 & L2 & R2).
    destruct (only_fetches t2 F2) as (N2 & P2 & G2).
    destruct res2 as [r|].
    + destruct (R2 r eq_refl) as [buf Hr]. destruct (Hdeps _ _ _ Hr) as [Hn Hd].
      eexists _, _, ((t1 ++ t2) ++ [EvPut cacheKey _]). split; [reflexivity |].
      cbn [stored trace]. split; [rewrite T2, T1, !List.app_assoc; reflexivity |].
      rewrite !fetches_app, !get_keys_app, !put_keys_app, !List.length_app,
        N1, P1, G1, N2, P2, G2.
      cbn. split; [lia |]. split; [reflexivity |]. right. exists r. auto.
    + eexists _, _, (t1 ++ t2). split; [reflexivity |].
      split; [rewrite T2, T1, List.app_assoc; reflexivity |].
      rewrite !fetches_app, !get_keys_app, !put_keys_app, !List.length_app,
        N1, P1, G1, N2, P2, G2.
      cbn. split; [lia |]. split; [reflexivity |]. now left.
Qed.

(** *** [handleCtanFetch], whatever the request and the world *)

Lemma found_response (r : PackageFiles) (source : string) :
  status (found r source) = 200%Z /\
  In ("Content-Type", "application/json") (headers (found r source)) /\
  In ("X-Cache", "MISS") (headers (found r source)) /\
  carries_cors (found r source) /\
  body (found r source) = BlobText (JSON_stringify (json_of_result r)).
Proof.
  repeat split; cbn; auto. intros h Hh. cbn. auto.
Qed.

Lemma guard_cases (pkgName : string) :
  valid_name pkgName \/
  exists message,
    (if bad_length pkgName then Some "Invalid package name"
     else if bad_characters pkgName then Some "Invalid package name characters"
     else None) = Some message.
Proof.
  destruct (bad_length pkgName) eqn:Hl; [right; eauto |].
  destruct (bad_characters pkgName) eqn:Hc; [right; eauto |].
  left. now apply valid_name_intro.
Qed.

Lemma handleCtanFetch_run (requestedPkg : string) (w : World) :
  exists resp w' t,
    handleCtanFetch requestedPkg w = (Returned resp, w') /\
    trace w' = trace w ++ t /\
    In (status resp) [200; 400; 404; 500]%Z /\
    In ("Content-Type", "application/json") (headers resp) /\
    carries_cors resp /\
    List.length (fetches t) <= 6 /\
    List.length (get_keys t) <= 1 /\
    ((put_keys t = [] /\ bucket w' = bucket w) \/
     (put_keys t = [ctan_cache_key requestedPkg] /\
      status resp = 200%Z /\ In ("X-Cache", "MISS") (headers resp) /\
      bucket w' = <[ctan_cache_key requestedPkg := body resp]> (bucket w))).
Proof.
  destruct (guard_cases requestedPkg) as [Hv | [message Hm]].
  - destruct (bucket w !! ctan_cache_key requestedPkg) as [object|] eqn:Hb.
    + rewrite (handleCtanFetch_hit unzipSync TextDecoder_decode JSON_stringify _ _ _ Hv Hb).
      do 3 eexists. split; [reflexivity |]. split; [reflexivity |].
      cbn. repeat split; auto; try lia. intros h Hh. cbn. auto.
    + assert (Hthrow :
                (exists e rest,
                    handleCtanFetch requestedPkg w
                    = (Returned (jsonResponse
                                   (error_object ("CTAN fetch error: " +:+ e)) 500),
                       looked_up requestedPkg rest w)) ->
                exists resp w' t,
                  handleCtanFetch requestedPkg w = (Returned resp, w') /\
                  trace w' = trace w ++ t /\
                  In (status resp) [200; 400; 404; 500]%Z /\
                  In ("Content-Type", "application/json") (headers resp) /\
                  carries_cors resp /\
                  List.length (fetches t) <= 6 /\
                  List.length (get_keys t) <= 1 /\
                  ((put_keys t = [] /\ bucket w' = bucket w) \/
                   (put_keys t = [ctan_cache_key requestedPkg] /\
                    status resp = 200%Z /\ In ("X-Cache", "MISS") (headers resp) /\
                    bucket w' = <[ctan_cache_key requestedPkg := body resp]> (bucket w)))).
      { intros (e & rest & ->). do 3 eexists. split; [reflexivity |].
        split; [reflexivity |]. cbn.
        repeat split; auto; try lia. apply jsonResponse_cors. }
      pose proof (handleCtanFetch_lookup_throws unzipSync TextDecoder_decode
                    JSON_stringify requestedPkg w Hv Hb) as Hlt.
      destruct (pending w) as [|n rest] eqn:Hp.
      { apply Hthrow. destruct (Hlt I) as [e He]. eauto. }
      destruct (resolved_parent n (resolve_alias requestedPkg)) as [parentPkg|] eqn:Hn.
      2: { apply Hthrow. destruct (Hlt eq_refl) as [e He]. eauto. }
      clear Hlt Hthrow.
      rewrite (handleCtanFetch_miss unzipSync TextDecoder_decode JSON_stringify
                 _ _ _ _ _ Hv Hb Hp Hn).
      destruct (fallback_chain_cost (ctan_cache_key requestedPkg)
                  (resolve_alias requestedPkg) parentPkg (looked_up requestedPkg rest w))
        as (resp & w' & t & E & T & Hf & Hg & Hcases).
      destruct (fallback_chain_outcome unzipSync TextDecoder_decode JSON_stringify
                  (ctan_cache_key requestedPkg) (resolve_alias requestedPkg) parentPkg
                  (looked_up requestedPkg rest w))
        as (resp0 & w0 & t0 & E0 & T0 & Hb0).
      rewrite E in E0. injection E0 as <- <-.
      rewrite T in T0. apply app_inv_head in T0. subst t0.
      exists resp, w',
        (EvGet (ctan_cache_key requestedPkg)
         :: EvFetch (registry_url (resolve_alias requestedPkg)) :: t).
      split; [exact E |].
      split; [rewrite T; cbn [looked_up trace]; now rewrite <- List.app_assoc |].
      cbn [fetches get_keys put_keys flat_map app List.length].
      fold (fetches t). fold (get_keys t). fold (put_keys t). rewrite Hg.
      destruct Hcases as [(-> & Hp0) | (r & Hp0 & Hsrc & _)].
      * cbn. repeat split; auto; try lia; [apply jsonResponse_cors |].
        left. split; [exact Hp0 |].
        destruct Hb0 as [(_ & B & _) | (r & src & t1 & _ & _ & _ & -> & F & _)];
          [exact B |].
        rewrite put_keys_app in Hp0. cbn in Hp0.
        now apply app_eq_nil in Hp0 as [_ Hp0].
      * assert (Hresp : exists src, resp = found r src)
          by (destruct Hsrc as [[-> _] | [-> _]]; eauto).
        destruct Hresp as [src ->].
        destruct (found_response r src) as (S & CT & XC & CO & B).
        rewrite S. cbn [In]. repeat split; auto; try lia.
        right. repeat split; auto.
        destruct Hb0 as [(Hnf & _) | (r' & src' & t1 & Hf' & _ & Bk & _)];
          [discriminate Hnf |].
        rewrite Bk, B. cbn [looked_up bucket].
        apply (f_equal body) in Hf'. cbn in Hf'. injection Hf' as <-. reflexivity.
  - unfold handleCtanFetch, try_catch.
    destruct (bad_length requestedPkg);
      [| destruct (bad_characters requestedPkg); [| discriminate Hm]];
      (exists (jsonResponse (error_object message) 400), w, []);
      injection Hm as <-;
      (split; [reflexivity |]); (split; [now rewrite app_nil_r |]);
      cbn; repeat split; auto; try lia; apply jsonResponse_cors.
Qed.

(** X10. [handleCtanFetch] answers every request, whatever the name, the
    bucket and the network do: it returns a response (no exception leaves
    the handler) whose status is 200, 400, 404 or 500, with a JSON content
    type and the CORS headers. The bucket is written only together with a
    200 answer marked [X-Cache: MISS], and what is stored under the cache
    key of the requested name is then the body of that answer; with every
    other answer the bucket is as it was, so failures are never cached. *)
Theorem handleCtanFetch_always_answers (requestedPkg : string) (w : World) :
  exists resp w',
    handleCtanFetch requestedPkg w = (Returned resp, w') /\
    In (status resp) [200; 400; 404; 500]%Z /\
    In ("Content-Type", "application/json") (headers resp) /\
    carries_cors resp /\
    (bucket w' = bucket w \/
     (status resp = 200%Z /\ In ("X-Cache", "MISS") (headers resp) /\
      bucket w' = <[ctan_cache_key requestedPkg := body resp]> (bucket w))).
Proof.
  destruct (handleCtanFetch_run requestedPkg w)
    as (resp & w' & t & E & _ & S & CT & CO & _ & _ & B).
  exists resp, w'. repeat (split; [assumption |]).
  destruct B as [[_ B] | [_ B]]; [left | right]; exact B.
Qed.

(** X11. The cost of one [handleCtanFetch]: at most six fetches (the
    registry lookup, three of the TDS stage and two of the source stage),
    at most one R2 read and at most one R2 write. *)
Theorem handleCtanFetch_cost (requestedPkg : string) (w : World) :
  exists out w' t,
    handleCtanFetch requestedPkg w = (out, w') /\
    trace w' = trace w ++ t /\
    List.length (fetches t) <= 6 /\
    List.length (get_keys t) <= 1 /\
    List.length (put_keys t) <= 1.
Proof.
  destruct (handleCtanFetch_run requestedPkg w)
    as (resp & w' & t & E & T & _ & _ & _ & F & G & B).
  exists (Returned resp), w', t. repeat (split; [assumption |]).
  destruct B as [[-> _] | [-> _]]; cbn; lia.
Qed.

(** X2. The [name] of a freshly decoded package is the name the archive
    was found under, not the requested one: the parent package that the
    registry named for a result of the TDS stage, the alias-resolved name
    for a result of the source stage. That name, and only that name, is
    kept out of the dependencies. *)
Theorem result_bears_the_resolved_name
        (requestedPkg : string) (w : World) (n : NetResult) (rest : list NetResult)
        (parentPkg : JsVal) (resp : Response) (w' : World) :
  valid_name requestedPkg ->
  bucket w !! ctan_cache_key requestedPkg = None ->
  pending w = n :: rest ->
  resolved_parent n (resolve_alias requestedPkg) = Some parentPkg ->
  handleCtanFetch requestedPkg w = (Returned resp, w') ->
  status resp = 200%Z ->
  exists r,
    ((resp = found r "ctan" /\ name r = parentPkg) \/
     (resp = found r "ctan-source" /\ name r = resolve_alias requestedPkg)) /\
    (forall d, In d (dependencies r) -> VString d <> name r) /\
    bucket w' !! ctan_cache_key requestedPkg
    = Some (BlobText (JSON_stringify (json_of_result r))).
Proof.
  intros Hv Hb Hp Hn Hrun Hst.
  rewrite (handleCtanFetch_miss unzipSync TextDecoder_decode JSON_stringify
             _ _ _ _ _ Hv Hb Hp Hn) in Hrun.
  destruct (fallback_chain_cost (ctan_cache_key requestedPkg)
              (resolve_alias requestedPkg) parentPkg (looked_up requestedPkg rest w))
    as (resp1 & w1 & t & E & _ & _ & _ & Hcases).
  destruct (fallback_chain_outcome unzipSync TextDecoder_decode JSON_stringify
              (ctan_cache_key requestedPkg) (resolve_alias requestedPkg) parentPkg
              (looked_up requestedPkg rest w))
    as (resp0 & w0 & t0 & E0 & _ & Hb0).
  rewrite Hrun in E, E0. injection E as <- <-. injection E0 as <- <-.
  destruct Hcases as [(-> & _) | (r & _ & Hsrc & Hd)]; [discriminate Hst |].
  exists r. split; [exact Hsrc |]. split; [exact Hd |].
  destruct Hb0 as [(-> & _) | (r' & src' & t1 & Hf' & _ & Bk & _)];
    [discriminate Hst |].
  rewrite Bk, lookup_insert_eq. do 2 f_equal.
  assert (Hbody : body resp = BlobText (JSON_stringify (json_of_result r)))
    by (destruct Hsrc as [[-> _] | [-> _]]; reflexivity).
  rewrite Hf' in Hbody. cbn in Hbody. now injection Hbody.
Qed.

(** *** The TexLive passthrough *)

Lemma handleTexLiveProxy_hit pkgName w object :
  valid_name pkgName ->
  bucket w !! texlive_cache_key pkgName = Some object ->
  handleTexLiveProxy pkgName w
  = (Returned {| status := 200;
                 headers := [("Content-Type", "application/x-xz");
                             ("Content-Length", Js.numberToString (blob_size object));
                             ("X-Cache", "HIT")] ++ CORS_HEADERS;
                 body := object |},
     record (EvGet (texlive_cache_key pkgName)) w).
Proof.
  intros Hv Hhit. destruct (valid_name_guard _ Hv) as [Hl Hc].
  unfold handleTexLiveProxy. rewrite Hl, Hc. async_unfold.
  fold (texlive_cache_key pkgName). rewrite Hhit. reflexivity.
Qed.

Lemma handleTexLiveProxy_run (pkgName : string) (w : World) :
  exists resp w' t,
    handleTexLiveProxy pkgName w = (Returned resp, w') /\
    trace w' = trace w ++ t /\
    In (status resp) [200; 400; 404; 500; 502]%Z /\
    carries_cors resp /\
    List.length (fetches t) <= 1 /\
    List.length (get_keys t) <= 1 /\
    ((put_keys t = [] /\ bucket w' = bucket w /\
      (status resp = 200%Z ->
       bucket w !! texlive_cache_key pkgName = Some (body resp) /\
       In ("X-Cache", "HIT") (headers resp) /\ fetches t = [])) \/
     (put_keys t = [texlive_cache_key pkgName] /\
      status resp = 200%Z /\ In ("X-Cache", "MISS") (headers resp) /\
      bucket w' = <[texlive_cache_key pkgName := body resp]> (bucket w))).
Proof.
  destruct (guard_cases pkgName) as [Hv | [message Hm]].
  - destruct (bucket w !! texlive_cache_key pkgName) as [object|] eqn:Hb.
    + rewrite (handleTexLiveProxy_hit _ _ _ Hv Hb).
      do 3 eexists. split; [reflexivity |]. split; [reflexivity |].
      cbn. repeat split; auto; try lia; [intros h Hh; cbn; auto |].
      left. repeat split; auto.
    + destruct (pending w) as [|n rest] eqn:Hp.
      * destruct (valid_name_guard _ Hv) as [Hl Hc].
        unfold handleTexLiveProxy. rewrite Hl, Hc. async_unfold.
        fold (texlive_cache_key pkgName). rewrite Hb, Hp.
        cbn [bucket pending trace fst snd]. rewrite <- ?List.app_assoc.
        do 3 eexists. split; [reflexivity |]. split; [reflexivity |].
        cbn. repeat split; auto; try lia; [apply jsonResponse_cors |].
        left; repeat split; discriminate.
      * rewrite (handleTexLiveProxy_upstream JSON_stringify _ _ _ _ Hv Hb Hp).
        destruct n as [r | e].
        -- destruct (ok r).
           ++ do 3 eexists. split; [reflexivity |].
              cbn [stored_bytes proxied trace bucket].
              split; [rewrite <- List.app_assoc; reflexivity |].
              cbn. repeat split; auto; try lia; [intros h Hh; cbn; auto |].
              right. repeat split; auto.
           ++ destruct (fetched_status r =? 404)%Z;
                (do 3 eexists; split; [reflexivity |];
                 cbn [proxied trace bucket]; split; [reflexivity |];
                 cbn; repeat split; auto; try lia; [apply jsonResponse_cors |];
                 left; repeat split; discriminate).
        -- do 3 eexists. split; [reflexivity |].
           cbn [proxied trace bucket]. split; [reflexivity |].
           cbn. repeat split; auto; try lia; [apply jsonResponse_cors |].
           left; repeat split; discriminate.
  - unfold handleTexLiveProxy, try_catch.
    destruct (bad_length pkgName);
      [| destruct (bad_characters pkgName); [| discriminate Hm]];
      (exists (jsonResponse (error_object message) 400), w, []);
      injection Hm as <-;
      (split; [reflexivity |]); (split; [now rewrite app_nil_r |]);
      cbn; repeat split; auto; try lia; try apply jsonResponse_cors;
      left; repeat split; discriminate.
Qed.

(** X12. [handleTexLiveProxy] answers every request: it returns a response
    with status 200, 400, 404, 500 or 502 and the CORS headers, after at
    most one fetch, one R2 read and one R2 write. The bucket is written only
    together with a 200 answer marked [X-Cache: MISS], and the object stored
    under [texlive-cache/<name>.tar.xz] is then the body of that answer;
    upstream failures are never cached. *)
Theorem handleTexLiveProxy_always_answers (pkgName : string) (w : World) :
  exists resp w' t,
    handleTexLiveProxy pkgName w = (Returned resp, w') /\
    trace w' = trace w ++ t /\
    In (status resp) [200; 400; 404; 500; 502]%Z /\
    carries_cors resp /\
    List.length (fetches t) <= 1 /\
    List.length (get_keys t) <= 1 /\
    List.length (put_keys t) <= 1 /\
    (bucket w' = bucket w \/
     (status resp = 200%Z /\ In ("X-Cache", "MISS") (headers resp) /\
      bucket w' = <[texlive_cache_key pkgName := body resp]> (bucket w))).
Proof.
  destruct (handleTexLiveProxy_run pkgName w)
    as (resp & w' & t & E & T & S & CO & F & G & B).
  exists resp, w', t. repeat (split; [assumption |]).
  destruct B as [(-> & B & _) | (-> & B)]; (split; [cbn; lia |]); [left | right];
    exact B.
Qed.

(** X13. Read-through caching of the TexLive passthrough: after a request
    that was answered 200, the same request is answered from the bucket,
    with the same body and the same [Content-Length], marked
    [X-Cache: HIT], and it performs nothing but the [get]. *)
Theorem texlive_second_request_is_a_hit pkgName w resp w' :
  valid_name pkgName ->
  handleTexLiveProxy pkgName w = (Returned resp, w') ->
  status resp = 200%Z ->
  exists resp',
    handleTexLiveProxy pkgName w'
    = (Returned resp', record (EvGet (texlive_cache_key pkgName)) w') /\
    body resp' = body resp /\
    assoc "Content-Length" (headers resp') = assoc "Content-Length" (headers resp) /\
    assoc "X-Cache" (headers resp') = Some "HIT".
Proof.
  intros Hv Hrun Hst.
  assert (Hhit : bucket w' !! texlive_cache_key pkgName = Some (body resp) /\
                 assoc "Content-Length" (headers resp)
                 = Some (Js.numberToString (blob_size (body resp)))).
  { destruct (bucket w !! texlive_cache_key pkgName) as [object|] eqn:Hb.
    - rewrite (handleTexLiveProxy_hit _ _ _ Hv Hb) in Hrun. injection Hrun as <- <-.
      now split.
    - destruct (pending w) as [|n rest] eqn:Hp.
      + destruct (valid_name_guard _ Hv) as [Hl Hc].
        unfold handleTexLiveProxy in Hrun. rewrite Hl, Hc in Hrun.
        revert Hrun. async_unfold. fold (texlive_cache_key pkgName).
        rewrite Hb, Hp. intros [= <- <-]. discriminate Hst.
      + rewrite (handleTexLiveProxy_upstream JSON_stringify _ _ _ _ Hv Hb Hp) in Hrun.
        destruct n as [r | e]; [| injection Hrun as <- <-; discriminate Hst].
        destruct (ok r).
        * injection Hrun as <- <-. cbn [stored_bytes bucket body].
          split; [apply lookup_insert_eq | reflexivity].
        * destruct (fetched_status r =? 404)%Z; injection Hrun as <- <-;
            discriminate Hst. }
  destruct Hhit as [Hb Hlen].
  rewrite (handleTexLiveProxy_hit _ _ _ Hv Hb). eexists. split; [reflexivity |].
  cbn [body headers]. split; [reflexivity |]. split; [now rewrite Hlen | reflexivity].
Qed.

(** *** The registry metadata endpoint *)

Lemma handleCtanPkgInfo_run (pkgName : string) (w : World) :
  exists resp w' t,
    handleCtanPkgInfo pkgName w = (Returned resp, w') /\
    trace w' = trace w ++ t /\ bucket w' = bucket w /\
    In (status resp) [200; 400; 404; 500]%Z /\
    In ("Content-Type", "application/json") (headers resp) /\
    carries_cors resp /\
    ((t = [] /\ status resp = 400%Z /\ ~ valid_name pkgName /\ w' = w) \/
     (t = [EvFetch (registry_url (VString pkgName))] /\ valid_name pkgName)).
Proof.
  destruct (guard_cases pkgName) as [Hv | [message Hm]].
  - destruct (valid_name_guard _ Hv) as [Hl Hc].
    unfold handleCtanPkgInfo. rewrite Hl, Hc. async_unfold.
    repeat destruct_match;
      (do 3 eexists; split; [reflexivity |]; split; [reflexivity |];
       cbn; repeat split; auto; try apply jsonResponse_cors).
  - unfold handleCtanPkgInfo, try_catch.
    assert (Hnv : ~ valid_name pkgName).
    { intros Hv. destruct (valid_name_guard _ Hv) as [Hl Hc].
      rewrite Hl, Hc in Hm. discriminate. }
    destruct (bad_length pkgName);
      [| destruct (bad_characters pkgName); [| discriminate Hm]];
      (exists (jsonResponse (error_object message) 400), w, []);
      injection Hm as <-;
      (split; [reflexivity |]); (split; [now rewrite app_nil_r |]);
      cbn; repeat split; auto; try apply jsonResponse_cors.
Qed.

(** X14. [handleCtanPkgInfo] answers every request with status 200, 400, 404
    or 500, a JSON content type and the CORS headers; it never reads or
    writes R2, and for a valid name it makes exactly one fetch, the
    registry lookup of the name as it was given: the bootstrap aliases are
    not applied. *)
Theorem handleCtanPkgInfo_never_touches_R2 (pkgName : string) (w : World) :
  exists resp w' t,
    handleCtanPkgInfo pkgName w = (Returned resp, w') /\
    trace w' = trace w ++ t /\ bucket w' = bucket w /\
    In (status resp) [200; 400; 404; 500]%Z /\
    In ("Content-Type", "application/json") (headers resp) /\
    carries_cors resp /\
    get_keys t = [] /\ put_keys t = [] /\
    ((~ valid_name pkgName /\ t = [] /\ status resp = 400%Z) \/
     (valid_name pkgName /\ t = [EvFetch ("https://ctan.org/json/2.0/pkg/" +:+ pkgName)])).
Proof.
  destruct (handleCtanPkgInfo_run pkgName w)
    as (resp & w' & t & E & T & B & S & CT & CO & Hcases).
  exists resp, w', t. repeat (split; [assumption |]).
  destruct Hcases as [(-> & S400 & Hnv & _) | (-> & Hv)].
  - repeat split; auto.
  - repeat split; auto.
Qed.

(** X15. What the metadata endpoint reports. With usable registry metadata
    the answer is 200 and holds the registry's [name] (the requested name
    when the registry gives none), the package it is contained in, and its
    CTAN path. [contained_in] prefers the [texlive] field to the [miktex]
    field, whereas [handleCtanFetch] derives the parent package from
    [miktex] first: when the registry names both, the two endpoints use
    different fields. *)
Theorem handleCtanPkgInfo_reports
        (pkgName : string) (w : World) (n : NetResult) (rest : list NetResult)
        (info : CtanInfo) :
  valid_name pkgName ->
  pending w = n :: rest ->
  registry_ok n info ->
  handleCtanPkgInfo pkgName w
  = (Returned
       (jsonResponse
          (JObject
             [("name", JString (if truthy (info_name info) then field (info_name info)
                                else pkgName));
              ("contained_in",
               if truthy (texlive info) then JString (field (texlive info))
               else if truthy (miktex info) then JString (field (miktex info))
               else JNull);
              ("ctan_path",
               if truthy (ctan_path info) then JString (field (ctan_path info))
               else JNull)])
          200),
     after w [registry_url (VString pkgName)] rest) /\
  (truthy (texlive info) = true -> truthy (miktex info) = true ->
   forall p, parent_of info p = VString (field (miktex info))).
Proof.
  intros Hv Hp (r & -> & Hok & Hj & He). destruct (valid_name_guard _ Hv) as [Hl Hc].
  split.
  - unfold handleCtanPkgInfo. rewrite Hl, Hc. async_unfold.
    rewrite Hp. cbn [bucket pending trace fst snd]. rewrite Hok. cbn [negb].
    rewrite Hj, He. unfold after. cbn [map]. do 3 f_equal.
    unfold json_or_null, or_else.
    destruct (truthy (info_name info)) eqn:E1;
      destruct (truthy (texlive info)) eqn:E2;
      destruct (truthy (miktex info)) eqn:E3;
      rewrite ?E2, ?E3; reflexivity.
  - intros _ Hm p. unfold parent_of. now rewrite Hm.
Qed.

End HandlerProperties.

(** ** Strings: suffixes, slices and replacement *)

Lemma endsWith_unfold (s suffix : string) :
  Js.endsWith s suffix
  = String.eqb s suffix ||
    match s with
    | EmptyString => false
    | String _ t => Js.endsWith t suffix
    end.
Proof. destruct s; reflexivity. Qed.

Lemma endsWith_append (a suffix : string) : Js.endsWith (a +:+ suffix) suffix = true.
Proof.
  induction a as [|c a IH]; cbn [String.append]; rewrite endsWith_unfold.
  - now rewrite String.eqb_refl.
  - rewrite IH. apply orb_true_r.
Qed.

Lemma endsWith_spec (s suffix : string) :
  Js.endsWith s suffix = true <-> exists a, s = (a +:+ suffix)%string.
Proof.
  split.
  - induction s as [|c s IH]; rewrite endsWith_unfold; intros H;
      apply orb_true_iff in H as [H | H].
    + apply String.eqb_eq in H. subst. now exists EmptyString.
    + discriminate H.
    + apply String.eqb_eq in H. subst. now exists EmptyString.
    + destruct (IH H) as [a ->]. now exists (String c a).
  - intros [a ->]. apply endsWith_append.
Qed.

Lemma last_char_append (a b : string) :
  b <> EmptyString -> last_char (a +:+ b) = last_char b.
Proof.
  intros Hb. induction a as [|c a IH]; [reflexivity |].
  cbn [String.append last_char]. rewrite IH.
  destruct (a +:+ b)%string eqn:E; [| reflexivity].
  destruct a; [now destruct Hb | discriminate E].
Qed.

(** Two suffixes with different last characters exclude each other. *)
Lemma endsWith_other (a suffix other : string) :
  suffix <> EmptyString -> other <> EmptyString ->
  last_char suffix <> last_char other ->
  Js.endsWith (a +:+ suffix) other = false.
Proof.
  intros Hs Ho Hne. apply not_true_iff_false. intros H.
  apply endsWith_spec in H as [b H]. apply Hne.
  rewrite <- (last_char_append a suffix Hs), H. now apply last_char_append.
Qed.

Lemma slice_append (p s : string) : Js.slice (p +:+ s) (String.length p) = s.
Proof. induction p as [|c p IH]; [now destruct s | exact IH]. Qed.

Lemma replace_unfold (s pattern replacement : string) :
  Js.replace s pattern replacement
  = match Js.strip_prefix pattern s with
    | Some rest => (replacement +:+ rest)%string
    | None => match s with
              | EmptyString => EmptyString
              | String c t => String c (Js.replace t pattern replacement)
              end
    end.
Proof. destruct s; reflexivity. Qed.

(** The first occurrence of a pattern that starts with a dot, after a stem
    without a dot. *)
Lemma replace_after_stem (stem pattern replacement rest : string) :
  Js.all_chars (not_char "."%char) stem = true ->
  Js.replace (stem +:+ String "."%char pattern +:+ rest) (String "."%char pattern)
             replacement
  = (stem +:+ replacement +:+ rest)%string.
Proof.
  intros H. induction stem as [|c stem IH].
  - change (EmptyString +:+ String "."%char pattern +:+ rest)%string
      with (String "."%char pattern +:+ rest)%string.
    now rewrite replace_unfold, strip_prefix_append.
  - cbn [Js.all_chars] in H. apply andb_true_iff in H as [Hc H].
    change (String c stem +:+ String "."%char pattern +:+ rest)%string
      with (String c (stem +:+ String "."%char pattern +:+ rest)).
    rewrite replace_unfold. cbn [Js.strip_prefix].
    unfold not_char in Hc. apply negb_true_iff in Hc.
    rewrite Ascii.eqb_sym, Hc. now rewrite (IH H).
Qed.

(** ** Query parameters and headers *)

Lemma filter_complement {A : Type} (p : A -> bool) (l : list A) :
  List.filter p (List.filter (fun x => negb (p x)) l) = [].
Proof.
  induction l as [|x l IH]; [reflexivity |].
  cbn [List.filter]. destruct (p x) eqn:E; cbn [negb List.filter]; [exact IH |].
  now rewrite E.
Qed.




Lemma same_header_refl (a : string) : same_header a a = true.
Proof. apply String.eqb_refl. Qed.

Lemma same_header_sym (a b : string) : same_header a b = same_header b a.
Proof. apply String.eqb_sym. Qed.

Lemma same_header_trans (a b c : string) :
  same_header a b = true -> same_header b c = false -> same_header a c = false.
Proof.
  unfold same_header. intros H1 H2. apply String.eqb_eq in H1. now rewrite H1.
Qed.

Lemma Headers_get_filter (name other : string) (l : list (string * string)) :
  same_header other name = false ->
  Headers_get other (List.filter (fun kv => negb (same_header (fst kv) name)) l)
  = Headers_get other l.
Proof.
  intros H. induction l as [|[k v] l IH]; [reflexivity |].
  cbn [List.filter fst Headers_get]. destruct (same_header k name) eqn:E; cbn [negb].
  - rewrite IH. now rewrite (same_header_trans k name other E)
      by (now rewrite same_header_sym).
  - cbn [Headers_get]. now rewrite IH.
Qed.

(** [headers.set] gives the header its value, once, and leaves the headers
    of other names as they are. *)
Lemma Headers_set_spec (name value : string) (l : list (string * string)) :
  Headers_get name (Headers_set name value l) = Some value /\
  header_count name (Headers_set name value l) = 1 /\
  (forall other, same_header other name = false ->
     Headers_get other (Headers_set name value l) = Headers_get other l) /\
  (forall h, In h l -> same_header (fst h) name = false ->
             In h (Headers_set name value l)).
Proof.
  unfold header_count.
  induction l as [|[k v] l (IH1 & IH2 & IH3 & IH4)]; cbn [Headers_set].
  - cbn [Headers_get List.filter fst List.length]. rewrite same_header_refl.
    repeat split; [| intros h []].
    intros other H. cbn [Headers_get]. now rewrite same_header_sym, H.
  - destruct (same_header k name) eqn:E.
    + cbn [Headers_get List.filter fst List.length]. rewrite same_header_refl.
      split; [reflexivity |]. split; [| split].
      * cbn [List.length]. f_equal.
        now rewrite (filter_complement (fun kv => same_header (fst kv) name)).
      * intros other H. cbn [Headers_get].
        rewrite (same_header_sym name other), H.
        rewrite (same_header_trans k name other E) by (now rewrite same_header_sym).
        now apply Headers_get_filter.
      * intros h [<- | Hin] Hh; [cbn [fst] in Hh; congruence |].
        right. apply filter_In. split; [exact Hin | now rewrite Hh].
    + cbn [Headers_get List.filter fst]. rewrite E.
      split; [exact IH1 |]. split; [exact IH2 |]. split.
      * intros other H. cbn [Headers_get]. destruct (same_header k other); [reflexivity |].
        now apply IH3.
      * intros h [<- | Hin] Hh; [now left | right; now apply IH4].
Qed.

Lemma obj_set_In_other {A : Type} (k : string) (v : A) (l : list (string * A))
      (h : string * A) :
  In h l -> fst h <> k -> In h (obj_set k v l).
Proof.
  intros Hin Hne. induction l as [|[k0 v0] l IH]; [destruct Hin |].
  cbn [obj_set]. destruct (String.eqb k k0) eqn:E.
  - apply String.eqb_eq in E. subst k0.
    destruct Hin as [<- | Hin]; [now destruct Hne | now right].
  - destruct Hin as [<- | Hin]; [now left | right; now apply IH].
Qed.

Lemma skipn_app_length {A : Type} (l l' : list A) : skipn (List.length l) (l ++ l') = l'.
Proof. induction l as [|x l IH]; [reflexivity | exact IH]. Qed.

(** ** The R2 file server *)

(** A package handler that ran on the world [w'] with the operations [t]. *)
Lemma lift_run {A : Type} (m : Async A) (s : Edge) (out : Outcome A) (w' : World)
      (t : list Event) :
  m (world s) = (out, w') -> trace w' = trace (world s) ++ t ->
  lift m s
  = (out, {| world := w';
             contentEncoding :=
               fold_right (fun k m => delete k m) (contentEncoding s) (put_keys t);
             caches_default := caches_default s;
             waitUntil := waitUntil s |}).
Proof.
  intros E T. unfold lift. rewrite E, T. now rewrite skipn_app_length.
Qed.

Lemma lift_unchanged {A : Type} (m : Async A) (s : Edge) (out : Outcome A) :
  m (world s) = (out, world s) -> lift m s = (out, s).
Proof.
  intros E. rewrite (lift_run m s out (world s) []); [| exact E | now rewrite app_nil_r].
  now destruct s.
Qed.

Lemma BUNDLES_get_object_run (key : string) (s : Edge) :
  BUNDLES_get_object key s = (Returned (object_at key s), got key s).
Proof.
  unfold BUNDLES_get_object, object_at.
  rewrite (lift_run (BUNDLES_get key) s (Returned (bucket (world s) !! key))
                    (record (EvGet key) (world s)) [EvGet key]) by reflexivity.
  destruct (bucket (world s) !! key); reflexivity.
Qed.

Lemma object_at_got (key key' : string) (s : Edge) :
  object_at key (got key' s) = object_at key s.
Proof. reflexivity. Qed.

(** *** The headers of a served object *)

Ltac header_cases :=
  unfold r2_headers;
  repeat match goal with
         | |- context [if ?b then _ else _] =>
             lazymatch b with
             | context [if _ then _ else _] => fail
             | _ => destruct b eqn:?
             end
         end;
  rewrite ?assoc_obj_set; try reflexivity.

Lemma r2_headers_encoding (key : string) (object : R2ObjectBody) (isBrotli : bool) :
  assoc "Content-Encoding" (r2_headers key object isBrotli)
  = if isBrotli then Some "br"
    else if truthy (object_contentEncoding object)
         then Some (field (object_contentEncoding object))
         else None.
Proof. header_cases. Qed.

Lemma r2_headers_length (key : string) (object : R2ObjectBody) (isBrotli : bool) :
  assoc "Content-Length" (r2_headers key object isBrotli)
  = if (blob_size (object_body object) =? 0)%Z then None
    else Some (Js.numberToString (blob_size (object_body object))).
Proof. header_cases. Qed.

Lemma r2_headers_miss (key : string) (object : R2ObjectBody) (isBrotli : bool) :
  assoc "X-Cache" (r2_headers key object isBrotli) = Some "MISS".
Proof. header_cases. Qed.

Lemma r2_headers_cors (key : string) (object : R2ObjectBody) (isBrotli : bool) :
  incl CORS_HEADERS (r2_headers key object isBrotli).
Proof.
  intros h Hh. unfold r2_headers.
  assert (Hn : fst h <> "X-Cache" /\ fst h <> "Cache-Control" /\
               fst h <> "Content-Type" /\ fst h <> "Content-Length" /\
               fst h <> "Content-Encoding").
  { cbn [CORS_HEADERS In] in Hh.
    repeat (destruct Hh as [<- | Hh]; [repeat split; discriminate |]). destruct Hh. }
  destruct Hn as (N1 & N2 & N3 & N4 & N5).
  repeat match goal with
         | |- In _ (if ?b then _ else _) => destruct b
         | |- In _ (obj_set _ _ _) => apply obj_set_In_other; [| assumption]
         end; exact Hh.
Qed.

Ltac suffix_facts stem ext :=
  repeat match goal with
         | |- context [Js.endsWith (stem +:+ ext)%string ?other] =>
             first
               [ rewrite (endsWith_append stem ext : Js.endsWith (stem +:+ ext) other = true)
               | rewrite (endsWith_other stem ext other) by discriminate ]
         end.

(** X16. The content type and the cache policy of an object served from R2
    follow the extension of the key that was asked for: [.json] is JSON
    and may be cached for five minutes (the test for [.js] does not take
    it for JavaScript), [.gz], [.br], [.wasm] and [.js] have their types
    and, as every other key, the policy of immutable data. [Content-Length]
    is the size of the object served and is left out for an empty object;
    [X-Cache] is [MISS]; the CORS headers are there. *)
Theorem headers_follow_the_extension
        (stem : string) (object : R2ObjectBody) (isBrotli : bool) :
  let policy ext :=
    (assoc "Content-Type" (r2_headers (stem +:+ ext) object isBrotli),
     assoc "Cache-Control" (r2_headers (stem +:+ ext) object isBrotli)) in
  let immutable := "public, max-age=31536000, immutable" in
  policy ".json" = (Some "application/json", Some "public, max-age=300") /\
  policy ".gz" = (Some "application/gzip", Some immutable) /\
  policy ".br" = (Some "application/octet-stream", Some immutable) /\
  policy ".wasm" = (Some "application/wasm", Some immutable) /\
  policy ".js" = (Some "application/javascript", Some immutable) /\
  (forall key,
     assoc "X-Cache" (r2_headers key object isBrotli) = Some "MISS" /\
     incl CORS_HEADERS (r2_headers key object isBrotli) /\
     assoc "Content-Length" (r2_headers key object isBrotli)
     = (if (blob_size (object_body object) =? 0)%Z then None
        else Some (Js.numberToString (blob_size (object_body object)))) /\
     (assoc "Cache-Control" (r2_headers key object isBrotli) = Some immutable \/
      Js.endsWith key ".json" = true)).
Proof.
  intros policy immutable. unfold policy, immutable.
  repeat split.
  - unfold r2_headers. suffix_facts stem ".json". header_cases.
  - unfold r2_headers. suffix_facts stem ".gz". header_cases.
  - unfold r2_headers. suffix_facts stem ".br". header_cases.
  - unfold r2_headers. suffix_facts stem ".wasm". header_cases.
  - unfold r2_headers. suffix_facts stem ".js". header_cases.
  - apply r2_headers_miss.
  - apply r2_headers_cors.
  - apply r2_headers_length.
  - destruct (Js.endsWith key ".json") eqn:E; [now right | left].
    unfold r2_headers. rewrite E. header_cases.
Qed.

Section EdgeProperties.

Variable unzipSync : list byte -> Outcome (list (string * list byte)).
Variable TextDecoder_decode : list byte -> string.
Variable JSON_stringify : Json -> string.
Variable URL_toString : URL -> string.

#[local] Abbreviation handleR2Request := (handleR2Request URL_toString).
#[local] Abbreviation handlePackagesHost :=
  (handlePackagesHost JSON_stringify URL_toString).
#[local] Abbreviation handleCtanProxyHost :=
  (handleCtanProxyHost unzipSync TextDecoder_decode JSON_stringify).
#[local] Abbreviation handlePathBasedRouting :=
  (handlePathBasedRouting unzipSync TextDecoder_decode JSON_stringify URL_toString).
#[local] Abbreviation default_fetch :=
  (default_fetch unzipSync TextDecoder_decode JSON_stringify URL_toString).
#[local] Abbreviation handleCtanFetch :=
  (handleCtanFetch unzipSync TextDecoder_decode JSON_stringify).
#[local] Abbreviation handleTexLiveProxy := (handleTexLiveProxy JSON_stringify).
#[local] Abbreviation handleCtanPkgInfo := (handleCtanPkgInfo JSON_stringify).
#[local] Abbreviation jsonResponse := (jsonResponse JSON_stringify).

#[local] Abbreviation cache_key := (cache_key URL_toString).

Lemma handleR2Request_hit key request s cached :
  caches_default s !! cache_key request = Some cached ->
  handleR2Request key request s
  = (Returned {| status := 200;
                 headers := Headers_set "X-Cache" "HIT" (headers cached);
                 body := body cached |}, s).
Proof.
  intros H. unfold handleR2Request, bindE, cache_match. fold (cache_key request).
  now rewrite H.
Qed.

Lemma handleR2Request_miss key request s :
  caches_default s !! cache_key request = None ->
  handleR2Request key request s
  = let s1 := if brotli_eligible key then got (brotli_key key) s else s in
    match (if brotli_eligible key then object_at (brotli_key key) s else None) with
    | Some object =>
        (Returned (served key object true),
         scheduled (cache_key request) (served key object true) s1)
    | None =>
        match object_at key s with
        | Some object =>
            (Returned (served key object false),
             scheduled (cache_key request) (served key object false) (got key s1))
        | None => (Returned not_found_text, got key s1)
        end
    end.
Proof.
  intros H. unfold handleR2Request, bindE, cache_match. fold (cache_key request).
  rewrite H. unfold try_catchE, retE. fold (brotli_eligible key).
  destruct (brotli_eligible key).
  - rewrite BUNDLES_get_object_run.
    destruct (object_at (brotli_key key) s) as [object|]; [reflexivity |].
    rewrite BUNDLES_get_object_run, object_at_got.
    destruct (object_at key s) as [object|]; reflexivity.
  - rewrite BUNDLES_get_object_run.
    destruct (object_at key s) as [object|]; reflexivity.
Qed.

(** X17. A request whose cache key is in the edge cache is answered from
    it: the state is left as it was (no R2 read, nothing handed to
    [waitUntil]), the body is the cached body, the status is 200, the
    header [X-Cache] is there once with the value [HIT], and every other
    header is the cached one. The key that was asked for plays no part. *)
Theorem edge_cache_hit_bypasses_R2 key request s cached :
  caches_default s !! cache_key request = Some cached ->
  exists resp,
    handleR2Request key request s = (Returned resp, s) /\
    status resp = 200%Z /\
    body resp = body cached /\
    Headers_get "X-Cache" (headers resp) = Some "HIT" /\
    header_count "X-Cache" (headers resp) = 1 /\
    (forall other, same_header other "X-Cache" = false ->
       Headers_get other (headers resp) = Headers_get other (headers cached)).
Proof.
  intros H. rewrite (handleR2Request_hit _ _ _ _ H). eexists. split; [reflexivity |].
  cbn [status body headers].
  destruct (Headers_set_spec "X-Cache" "HIT" (headers cached)) as (H1 & H2 & H3 & _).
  auto.
Qed.

(** X18. The lookup order on an edge-cache miss. For a key that ends in
    [.wasm] or [.data.gz] the Brotli variant is read first, and when it
    exists it is served with [Content-Encoding: br] and the object under the
    key itself is not read. Otherwise the object under the key is read and
    served with the content encoding of its metadata, if it has one. When
    neither exists the answer is the 404 text and nothing is handed to
    [waitUntil]. The bucket and the edge cache are not changed, and a
    served response is handed to [waitUntil] under the cache key. For a
    stem without a dot, the Brotli variant of [<stem>.data.gz] is
    [<stem>.data.br], and that of [<stem>.wasm] is [<stem>.wasm.br]. *)
Theorem brotli_variant_is_read_first key request s :
  caches_default s !! cache_key request = None ->
  (exists resp s' reads,
     handleR2Request key request s = (Returned resp, s') /\
     trace (world s') = trace (world s) ++ map EvGet reads /\
     bucket (world s') = bucket (world s) /\
     caches_default s' = caches_default s /\
     ((brotli_eligible key = true /\ reads = [brotli_key key] /\
       bucket (world s) !! brotli_key key = Some (body resp) /\
       status resp = 200%Z /\
       assoc "Content-Encoding" (headers resp) = Some "br" /\
       waitUntil s' = waitUntil s ++ [(cache_key request, resp)]) \/
      (reads = (if brotli_eligible key then [brotli_key key; key] else [key]) /\
       (brotli_eligible key = true -> bucket (world s) !! brotli_key key = None) /\
       bucket (world s) !! key = Some (body resp) /\
       status resp = 200%Z /\
       assoc "Content-Encoding" (headers resp)
       = (if truthy (contentEncoding s !! key) then contentEncoding s !! key else None) /\
       waitUntil s' = waitUntil s ++ [(cache_key request, resp)]) \/
      (reads = (if brotli_eligible key then [brotli_key key; key] else [key]) /\
       (brotli_eligible key = true -> bucket (world s) !! brotli_key key = None) /\
       bucket (world s) !! key = None /\
       resp = not_found_text /\
       waitUntil s' = waitUntil s)))
  /\
  (forall stem, Js.all_chars (not_char "."%char) stem = true ->
     brotli_eligible (stem +:+ ".data.gz") = true /\
     brotli_key (stem +:+ ".data.gz") = (stem +:+ ".data.br")%string /\
     brotli_eligible (stem +:+ ".wasm") = true /\
     brotli_key (stem +:+ ".wasm") = (stem +:+ ".wasm.br")%string).
Proof.
  intros Hmiss. split.
  - rewrite (handleR2Request_miss _ _ _ Hmiss). cbv zeta. unfold object_at.
    destruct (brotli_eligible key) eqn:He.
    + destruct (bucket (world s) !! brotli_key key) as [b|] eqn:Hbr.
      * eexists _, _, [brotli_key key]. split; [reflexivity |].
        cbn [scheduled got world record trace bucket caches_default waitUntil map].
        repeat (split; [reflexivity |]). left.
        unfold served. cbn [headers body status object_body].
        rewrite r2_headers_encoding. now repeat split.
      * destruct (bucket (world s) !! key) as [b|] eqn:Hk.
        -- eexists _, _, [brotli_key key; key]. split; [reflexivity |].
           cbn [scheduled got world record trace bucket caches_default waitUntil map].
           split; [now rewrite <- List.app_assoc |].
           repeat (split; [reflexivity |]). right. left.
           unfold served. cbn [headers body status object_body].
           rewrite r2_headers_encoding. cbn [object_contentEncoding].
           repeat split; auto.
           destruct (contentEncoding s !! key) as [e|]; [| reflexivity].
           cbn [truthy field]. now destruct (Js.truthy e).
        -- eexists _, _, [brotli_key key; key]. split; [reflexivity |].
           cbn [got world record trace bucket caches_default waitUntil map].
           split; [now rewrite <- List.app_assoc |].
           repeat (split; [reflexivity |]). right. right. now repeat split.
    + destruct (bucket (world s) !! key) as [b|] eqn:Hk.
      * eexists _, _, [key]. split; [reflexivity |].
        cbn [scheduled got world record trace bucket caches_default waitUntil map].
        repeat (split; [reflexivity |]). right. left.
        unfold served. cbn [headers body status object_body].
        rewrite r2_headers_encoding. cbn [object_contentEncoding].
        repeat split; auto; [discriminate |].
        destruct (contentEncoding s !! key) as [e|]; [| reflexivity].
        cbn [truthy field]. now destruct (Js.truthy e).
      * eexists _, _, [key]. split; [reflexivity |].
        cbn [got world record trace bucket caches_default waitUntil map].
        repeat (split; [reflexivity |]). right. right.
        repeat split; auto. discriminate.
  - intros stem Hstem. unfold brotli_eligible, brotli_key.
    rewrite !endsWith_append. rewrite orb_true_r.
    assert (Hw : Js.endsWith (stem +:+ ".wasm") ".data.gz" = false)
      by (apply endsWith_other; discriminate).
    rewrite Hw. cbn [orb]. repeat split.
    + rewrite <- (append_empty_r (stem +:+ ".data.gz")), append_assoc.
      rewrite (replace_after_stem stem "data.gz" ".data.br" EmptyString Hstem).
      now rewrite append_empty_r.
    + now rewrite append_assoc.
Qed.

Lemma settle_scheduled cacheKey response s :
  caches_default (settle (scheduled cacheKey response s)) !! cacheKey = Some response.
Proof.
  unfold settle, scheduled. cbn [caches_default waitUntil].
  rewrite fold_left_app. cbn [fold_left fst snd]. apply lookup_insert_eq.
Qed.

(** X19. Read-through caching at the edge. When a request misses the edge
    cache and is answered 200 from R2, then, once the [cache.put] handed to
    [waitUntil] has completed, the same request is answered from the edge
    cache: with the same body and the same headers, except that [X-Cache]
    is now [HIT], and without reading R2 (the state is left as it is). *)
Theorem edge_second_request_is_a_hit key request s resp s' :
  caches_default s !! cache_key request = None ->
  handleR2Request key request s = (Returned resp, s') ->
  status resp = 200%Z ->
  exists resp',
    handleR2Request key request (settle s') = (Returned resp', settle s') /\
    body resp' = body resp /\
    Headers_get "X-Cache" (headers resp') = Some "HIT" /\
    (forall other, same_header other "X-Cache" = false ->
       Headers_get other (headers resp') = Headers_get other (headers resp)).
Proof.
  intros Hmiss Hrun Hst.
  assert (Hc : caches_default (settle s') !! cache_key request = Some resp).
  { rewrite (handleR2Request_miss _ _ _ Hmiss) in Hrun. cbv zeta in Hrun.
    destruct (if brotli_eligible key then object_at (brotli_key key) s else None)
      as [object|].
    - injection Hrun as <- <-. apply settle_scheduled.
    - destruct (object_at key s) as [object|].
      + injection Hrun as <- <-. apply settle_scheduled.
      + injection Hrun as <- <-. discriminate Hst. }
  rewrite (handleR2Request_hit _ _ _ _ Hc). eexists. split; [reflexivity |].
  cbn [status body headers].
  destruct (Headers_set_spec "X-Cache" "HIT" (headers resp)) as (H1 & _ & H3 & _).
  auto.
Qed.


(** ** The router *)

Lemma host_test (hostname literal part : string) :
  Js.includes literal part = true ->
  String.eqb hostname literal || Js.includes hostname part = Js.includes hostname part.
Proof.
  intros H. destruct (String.eqb hostname literal) eqn:E; [| reflexivity].
  apply String.eqb_eq in E. subst. now rewrite H.
Qed.

(** The dispatch of [default_fetch]: the two host tests are tests for a
    part of the host name. *)
Lemma default_fetch_dispatch request s :
  default_fetch request s
  = if String.eqb (request_method request) "OPTIONS" then
      (Returned {| status := 200; headers := CORS_HEADERS; body := BlobBytes [] |}, s)
    else if Js.includes (hostname (request_url request)) "packages" then
      handlePackagesHost (request_url request) request s
    else if Js.includes (hostname (request_url request)) "ctan" then
      handleCtanProxyHost (request_url request) s
    else handlePathBasedRouting (request_url request) request s.
Proof.
  unfold default_fetch.
  rewrite (host_test _ "packages.siglum.org" "packages") by reflexivity.
  rewrite (host_test _ "ctan-proxy.siglum.org" "ctan") by reflexivity.
  destruct (String.eqb (request_method request) "OPTIONS"); [reflexivity |].
  destruct (Js.includes (hostname (request_url request)) "packages"); [reflexivity |].
  destruct (Js.includes (hostname (request_url request)) "ctan"); reflexivity.
Qed.

Lemma match_route_append (prefix name : string) :
  name <> EmptyString -> Js.any_char is_line_terminator name = false ->
  match_route prefix (prefix +:+ name) = Some name.
Proof.
  intros Hne Hlt. unfold match_route. rewrite strip_prefix_append.
  destruct name as [|c r]; [now destruct Hne |]. now rewrite Hlt.
Qed.

Lemma match_route_none (prefix rest : string) :
  rest = EmptyString \/ Js.any_char is_line_terminator rest = true ->
  match_route prefix (prefix +:+ rest) = None.
Proof.
  intros H. unfold match_route. rewrite strip_prefix_append.
  destruct rest as [|c r]; [reflexivity |].
  destruct H as [H | H]; [discriminate H | now rewrite H].
Qed.

Lemma handleCtanProxyHost_name (url : URL) (name : string) s :
  name <> EmptyString -> name <> "health" ->
  (pathname url = ("/" +:+ name)%string /\ Js.startsWith name "fetch/" = false) \/
  pathname url = ("/fetch/" +:+ name)%string ->
  handleCtanProxyHost url s = lift (handleCtanFetch name) s.
Proof.
  intros Hne Hh Hp. unfold handleCtanProxyHost.
  assert (E : (if Js.startsWith (Js.slice (pathname url) 1) "fetch/"
               then Js.slice (Js.slice (pathname url) 1) 6
               else Js.slice (pathname url) 1) = name).
  { destruct Hp as [[-> Hf] | ->].
    - replace (Js.slice ("/" +:+ name) 1) with name
        by (symmetry; apply (slice_append "/" name)).
      now rewrite Hf.
    - replace (Js.slice ("/fetch/" +:+ name) 1) with ("fetch/" +:+ name)%string
        by (symmetry; apply (slice_append "/" ("fetch/" +:+ name))).
      unfold Js.startsWith. rewrite prefix_append.
      apply (slice_append "fetch/" name). }
  rewrite E.
  destruct name as [|c r]; [now destruct Hne |]. cbn [Js.truthy negb orb].
  destruct (String.eqb (String c r) EmptyString) eqn:E1; [apply String.eqb_eq in E1; discriminate |].
  destruct (String.eqb (String c r) "health") eqn:E2;
    [apply String.eqb_eq in E2; now destruct Hh |].
  reflexivity.
Qed.

(** X21. Three routes lead to the processed fetch of a package [name]: on a
    host whose name holds [ctan] (and not [packages]), the paths [/<name>]
    and [/fetch/<name>]; on a host whose name holds neither, the path
    [/api/fetch/<name>]. Each answers as [handleCtanFetch name]. On the
    [ctan] host the name [health] is taken by the health check, under both
    paths, which answers without any operation; under [/api/fetch/] it is
    a package name like any other. *)
Theorem three_routes_to_a_package (name : string) (request : Request) (s : Edge) :
  request_method request <> "OPTIONS" ->
  name <> EmptyString -> Js.any_char is_line_terminator name = false ->
  let host := hostname (request_url request) in
  let path := pathname (request_url request) in
  (Js.includes host "packages" = false -> Js.includes host "ctan" = true ->
   (name <> "health" ->
    (path = ("/" +:+ name)%string /\ Js.startsWith name "fetch/" = false) \/
    path = ("/fetch/" +:+ name)%string ->
    default_fetch request s = lift (handleCtanFetch name) s) /\
   (path = "/health" \/ path = "/fetch/health" ->
    default_fetch request s
    = (Returned (jsonResponse (health_object "ctan-proxy.siglum.org") 200), s)))
  /\
  (Js.includes host "packages" = false -> Js.includes host "ctan" = false ->
   path = ("/api/fetch/" +:+ name)%string ->
   default_fetch request s = lift (handleCtanFetch name) s).
Proof.
  intros Hm Hne Hlt host path. unfold host, path.
  rewrite default_fetch_dispatch.
  apply String.eqb_neq in Hm. rewrite Hm. split.
  - intros -> ->. split.
    + intros Hh Hp. now apply handleCtanProxyHost_name.
    + intros [Hp | Hp]; unfold handleCtanProxyHost; rewrite Hp; reflexivity.
  - intros -> -> Hp. unfold handlePathBasedRouting. rewrite Hp.
    replace (Js.startsWith ("/api/fetch/" +:+ name) "/bundles/") with false
      by reflexivity.
    replace (Js.startsWith ("/api/fetch/" +:+ name) "/wasm/") with false
      by reflexivity.
    now rewrite match_route_append.
Qed.

Lemma invalid_is_400 (pkgName : string) (w : World) :
  ~ valid_name pkgName ->
  exists message,
    handleCtanFetch pkgName w
    = (Returned (jsonResponse (error_object message) 400), w) /\
    handleTexLiveProxy pkgName w
    = (Returned (jsonResponse (error_object message) 400), w) /\
    handleCtanPkgInfo pkgName w
    = (Returned (jsonResponse (error_object message) 400), w).
Proof.
  intros Hnv. destruct (guard_cases pkgName) as [Hv | [message Hm]]; [now destruct Hnv |].
  exists message.
  unfold handleCtanFetch, handleTexLiveProxy, handleCtanPkgInfo, try_catch.
  destruct (bad_length pkgName);
    [| destruct (bad_characters pkgName); [| discriminate Hm]];
    injection Hm as <-; repeat split.
Qed.

Lemma no_route (rest : string) :
  rest = EmptyString \/ Js.any_char is_line_terminator rest = true ->
  forall prefix, In prefix ["/api/fetch/"; "/api/texlive/"; "/api/ctan-pkg/"] ->
  forall url request s,
    pathname url = (prefix +:+ rest)%string ->
    handlePathBasedRouting url request s = (Returned not_found_text, s).
Proof.
  intros Hrest prefix Hin url request s Hp. unfold handlePathBasedRouting. rewrite Hp.
  cbn [In] in Hin. destruct Hin as [<- | [<- | [<- | []]]].
  - replace (Js.startsWith ("/api/fetch/" +:+ rest) "/bundles/") with false by reflexivity.
    replace (Js.startsWith ("/api/fetch/" +:+ rest) "/wasm/") with false by reflexivity.
    rewrite (match_route_none "/api/fetch/" rest Hrest).
    reflexivity.
  - replace (Js.startsWith ("/api/texlive/" +:+ rest) "/bundles/") with false
      by reflexivity.
    replace (Js.startsWith ("/api/texlive/" +:+ rest) "/wasm/") with false by reflexivity.
    replace (match_route "/api/fetch/" ("/api/texlive/" +:+ rest)) with (@None string)
      by reflexivity.
    rewrite (match_route_none "/api/texlive/" rest Hrest).
    reflexivity.
  - replace (Js.startsWith ("/api/ctan-pkg/" +:+ rest) "/bundles/") with false
      by reflexivity.
    replace (Js.startsWith ("/api/ctan-pkg/" +:+ rest) "/wasm/") with false by reflexivity.
    replace (match_route "/api/fetch/" ("/api/ctan-pkg/" +:+ rest)) with (@None string)
      by reflexivity.
    replace (match_route "/api/texlive/" ("/api/ctan-pkg/" +:+ rest)) with (@None string)
      by reflexivity.
    rewrite (match_route_none "/api/ctan-pkg/" rest Hrest).
    reflexivity.
Qed.

(** X22. A name that is not valid stops at the router, whatever the route:
    the state is left as it was, so nothing is fetched, read or written.
    Under [/api/fetch/], [/api/texlive/] and [/api/ctan-pkg/] the answer is
    the 400 of the validation, or the 404 text when the name is empty or
    holds a line terminator, which the route pattern does not match. On a
    [ctan] host the answer is 400, or the health check for the empty
    name. *)
Theorem invalid_names_stop_at_the_router (rest : string) (request : Request) (s : Edge) :
  request_method request <> "OPTIONS" ->
  ~ valid_name rest ->
  let host := hostname (request_url request) in
  let path := pathname (request_url request) in
  Js.includes host "packages" = false ->
  (Js.includes host "ctan" = false ->
   path = ("/api/fetch/" +:+ rest)%string \/ path = ("/api/texlive/" +:+ rest)%string
   \/ path = ("/api/ctan-pkg/" +:+ rest)%string ->
   exists resp,
     default_fetch request s = (Returned resp, s) /\
     (status resp = 400%Z \/ resp = not_found_text))
  /\
  (Js.includes host "ctan" = true ->
   (path = ("/" +:+ rest)%string /\ Js.startsWith rest "fetch/" = false)
   \/ path = ("/fetch/" +:+ rest)%string ->
   exists resp,
     default_fetch request s = (Returned resp, s) /\
     (status resp = 400%Z \/
      (rest = EmptyString /\
       resp = jsonResponse (health_object "ctan-proxy.siglum.org") 200))).
Proof.
  intros Hm Hnv host path Hpk. unfold host, path in *.
  rewrite default_fetch_dispatch. apply String.eqb_neq in Hm. rewrite Hm, Hpk.
  destruct (invalid_is_400 rest (world s) Hnv) as (message & H1 & H2 & H3).
  split.
  - intros -> Hp.
    assert (Hroute : rest = EmptyString \/ Js.any_char is_line_terminator rest = true
                     \/ (rest <> EmptyString /\
                         Js.any_char is_line_terminator rest = false)).
    { destruct rest; [now left | right].
      destruct (Js.any_char is_line_terminator (String a rest)); [now left | right].
      split; [discriminate | reflexivity]. }
    destruct Hroute as [Hr | [Hr | [Hne Hlt]]].
    + exists not_found_text. split; [| now right].
      destruct Hp as [Hp | [Hp | Hp]];
        eapply (no_route rest (or_introl Hr)); try exact Hp; cbn; auto.
    + exists not_found_text. split; [| now right].
      destruct Hp as [Hp | [Hp | Hp]];
        eapply (no_route rest (or_intror Hr)); try exact Hp; cbn; auto.
    + exists (jsonResponse (error_object message) 400). split; [| now left].
      unfold handlePathBasedRouting.
      destruct Hp as [Hp | [Hp | Hp]]; rewrite Hp.
      * replace (Js.startsWith ("/api/fetch/" +:+ rest) "/bundles/") with false
          by reflexivity.
        replace (Js.startsWith ("/api/fetch/" +:+ rest) "/wasm/") with false
          by reflexivity.
        rewrite match_route_append by assumption. now apply lift_unchanged.
      * replace (Js.startsWith ("/api/texlive/" +:+ rest) "/bundles/") with false
          by reflexivity.
        replace (Js.startsWith ("/api/texlive/" +:+ rest) "/wasm/") with false
          by reflexivity.
        replace (match_route "/api/fetch/" ("/api/texlive/" +:+ rest))
          with (@None string) by reflexivity.
        rewrite match_route_append by assumption. now apply lift_unchanged.
      * replace (Js.startsWith ("/api/ctan-pkg/" +:+ rest) "/bundles/") with false
          by reflexivity.
        replace (Js.startsWith ("/api/ctan-pkg/" +:+ rest) "/wasm/") with false
          by reflexivity.
        replace (match_route "/api/fetch/" ("/api/ctan-pkg/" +:+ rest))
          with (@None string) by reflexivity.
        replace (match_route "/api/texlive/" ("/api/ctan-pkg/" +:+ rest))
          with (@None string) by reflexivity.
        rewrite match_route_append by assumption. now apply lift_unchanged.
  - intros -> Hp. destruct rest as [|c r] eqn:Hrest.
    + exists (jsonResponse (health_object "ctan-proxy.siglum.org") 200).
      split; [| now right].
      unfold handleCtanProxyHost.
      destruct Hp as [[-> _] | ->]; reflexivity.
    + exists (jsonResponse (error_object message) 400). split; [| now left].
      rewrite <- Hrest in *.
      assert (Hh : rest <> "health").
      { intros ->. apply Hnv. apply valid_name_intro; reflexivity. }
      rewrite (handleCtanProxyHost_name _ rest) by (subst; (discriminate || assumption)).
      now apply lift_unchanged.
Qed.

(** *** The package cache through the file routes *)

Lemma ctan_cache_key_json (requestedPkg : string) :
  ctan_cache_key requestedPkg = (("ctan-cache/v5/" +:+ requestedPkg) +:+ ".json")%string.
Proof. reflexivity. Qed.

(** X23. The R2 file routes serve the package cache. When the bucket holds
    a processed package under the cache key of a valid name, a request for
    [/bundles/<that key>] that misses the edge cache is answered 200 with
    that object as body, as JSON that may be cached for five minutes, after
    reading only that key; and [/api/fetch/<name>] answers with the text of
    the same object, marked [X-Cache: HIT]. *)
Theorem cached_package_is_served_as_a_file
        (requestedPkg : string) (file api : Request) (s : Edge) (object : Blob) :
  valid_name requestedPkg ->
  bucket (world s) !! ctan_cache_key requestedPkg = Some object ->
  request_method file <> "OPTIONS" -> request_method api <> "OPTIONS" ->
  Js.includes (hostname (request_url file)) "packages" = false ->
  Js.includes (hostname (request_url file)) "ctan" = false ->
  Js.includes (hostname (request_url api)) "packages" = false ->
  Js.includes (hostname (request_url api)) "ctan" = false ->
  pathname (request_url file) = ("/bundles/" +:+ ctan_cache_key requestedPkg)%string ->
  pathname (request_url api) = ("/api/fetch/" +:+ requestedPkg)%string ->
  caches_default s !! cache_key file = None ->
  (exists resp s',
     default_fetch file s = (Returned resp, s') /\
     status resp = 200%Z /\ body resp = object /\
     assoc "Content-Type" (headers resp) = Some "application/json" /\
     assoc "Cache-Control" (headers resp) = Some "public, max-age=300" /\
     trace (world s') = trace (world s) ++ [EvGet (ctan_cache_key requestedPkg)])
  /\
  (exists resp s',
     default_fetch api s = (Returned resp, s') /\
     status resp = 200%Z /\
     body resp = BlobText (blob_text TextDecoder_decode object) /\
     In ("X-Cache", "HIT") (headers resp) /\
     trace (world s') = trace (world s) ++ [EvGet (ctan_cache_key requestedPkg)]).
Proof.
  intros Hv Hb Hmf Hma Hpf Hcf Hpa Hca Hpathf Hpatha Hmiss.
  rewrite !default_fetch_dispatch.
  apply String.eqb_neq in Hmf, Hma. rewrite Hmf, Hma, Hpf, Hcf, Hpa, Hca.
  unfold handlePathBasedRouting. rewrite Hpathf, Hpatha. split.
  - unfold Js.startsWith at 1. rewrite prefix_append.
    replace (Js.slice ("/bundles/" +:+ ctan_cache_key requestedPkg) 9)
      with (ctan_cache_key requestedPkg)
      by (symmetry; apply (slice_append "/bundles/")).
    rewrite (handleR2Request_miss _ _ _ Hmiss). cbv zeta.
    assert (He : brotli_eligible (ctan_cache_key requestedPkg) = false).
    { unfold brotli_eligible. rewrite ctan_cache_key_json.
      now rewrite !endsWith_other by discriminate. }
    rewrite He. unfold object_at. rewrite Hb.
    do 2 eexists. split; [reflexivity |].
    cbn [served status body headers object_body scheduled got world record trace].
    repeat (split; [reflexivity |]).
    rewrite ctan_cache_key_json.
    split; [| split; [| reflexivity]]; unfold r2_headers;
      suffix_facts ("ctan-cache/v5/" +:+ requestedPkg)%string ".json"; header_cases.
  - replace (Js.startsWith ("/api/fetch/" +:+ requestedPkg) "/bundles/") with false
      by reflexivity.
    replace (Js.startsWith ("/api/fetch/" +:+ requestedPkg) "/wasm/") with false
      by reflexivity.
    assert (Hname : requestedPkg <> EmptyString /\
                    Js.any_char is_line_terminator requestedPkg = false).
    { destruct Hv as [[Hlen _] Hchars]. split.
      - intros ->. cbn in Hlen. lia.
      - apply not_true_iff_false. intros H.
        apply any_char_exists in H as (c & Hin & Hc).
        specialize (Hchars c Hin). unfold name_char in Hchars.
        unfold is_line_terminator in Hc. apply orb_true_iff in Hc.
        rewrite !Nat.eqb_eq in Hc.
        destruct Hchars as [H | [H | [H | [-> | ->]]]];
          destruct Hc as [Hc | Hc]; try lia; cbn in Hc; discriminate. }
    destruct Hname as [Hne Hlt]. rewrite match_route_append by assumption.
    rewrite (lift_run (handleCtanFetch requestedPkg) s _ _
               [EvGet (ctan_cache_key requestedPkg)]
               (handleCtanFetch_hit unzipSync TextDecoder_decode JSON_stringify
                  _ _ _ Hv Hb) eq_refl).
    do 2 eexists. split; [reflexivity |].
    cbn [status body headers world trace record]. repeat split. right. now left.
Qed.

(** *** Every request is answered, with the CORS headers *)

Lemma settle_cors (s : Edge) : edge_cors s -> edge_cors (settle s).
Proof.
  intros [Hc Hw]. split; [| constructor].
  unfold settle. cbn [caches_default].
  revert Hc. generalize (caches_default s).
  induction Hw as [|[k r] l Hr _ IH]; intros c Hc; cbn [fold_left]; [exact Hc |].
  apply IH. intros k' r' H. cbn [fst snd] in H.
  destruct (decide (k' = k)) as [-> | Hne].
  - rewrite lookup_insert_eq in H. injection H as <-. exact Hr.
  - rewrite lookup_insert_ne in H by congruence. eauto.
Qed.

Lemma hit_cors (cached : Response) :
  carries_cors cached ->
  carries_cors {| status := 200;
                  headers := Headers_set "X-Cache" "HIT" (headers cached);
                  body := body cached |}.
Proof.
  intros H h Hh. cbn [headers].
  destruct (Headers_set_spec "X-Cache" "HIT" (headers cached)) as (_ & _ & _ & H4).
  apply H4; [now apply H |].
  cbn [CORS_HEADERS In] in Hh.
  repeat (destruct Hh as [<- | Hh]; [reflexivity |]). destruct Hh.
Qed.

Lemma handleR2Request_run key request s :
  edge_cors s ->
  exists resp s',
    handleR2Request key request s = (Returned resp, s') /\
    (status resp = 200%Z \/ status resp = 404%Z) /\
    carries_cors resp /\ edge_cors s'.
Proof.
  intros [Hc Hw].
  destruct (caches_default s !! cache_key request) as [cached|] eqn:E.
  - rewrite (handleR2Request_hit _ _ _ _ E). do 2 eexists. split; [reflexivity |].
    split; [now left |]. split; [apply hit_cors; eauto | now split].
  - rewrite (handleR2Request_miss _ _ _ E). cbv zeta.
    assert (Hs : forall object br s0,
               caches_default s0 = caches_default s -> waitUntil s0 = waitUntil s ->
               edge_cors (scheduled (cache_key request) (served key object br) s0)).
    { intros object br s0 E1 E2. split; cbn [scheduled caches_default waitUntil].
      - rewrite E1. exact Hc.
      - rewrite E2. apply List.Forall_app. split; [exact Hw |].
        constructor; [apply r2_headers_cors | constructor]. }
    assert (Hg : forall s0, caches_default s0 = caches_default s ->
                            waitUntil s0 = waitUntil s -> edge_cors s0).
    { intros s0 E1 E2. split; [rewrite E1 | rewrite E2]; assumption. }
    destruct (brotli_eligible key);
      [destruct (object_at (brotli_key key) s) as [object|] |];
      try destruct (object_at key s) as [object'|];
      do 2 eexists; (split; [reflexivity |]);
      first
        [ split; [now left |]; split; [apply r2_headers_cors |]; now apply Hs
        | split; [now right |]; split; [apply incl_refl |]; now apply Hg ].
Qed.

Lemma lift_answers (m : Async Response) (s : Edge) (statuses : list Z) :
  edge_cors s ->
  (exists resp w' t,
      m (world s) = (Returned resp, w') /\ trace w' = trace (world s) ++ t /\
      In (status resp) statuses /\ carries_cors resp) ->
  exists resp s',
    lift m s = (Returned resp, s') /\
    In (status resp) statuses /\ carries_cors resp /\ edge_cors s'.
Proof.
  intros Hs (resp & w' & t & E & T & S & C).
  rewrite (lift_run m s _ w' t E T). do 2 eexists. split; [reflexivity |].
  split; [exact S |]. split; [exact C | exact Hs].
Qed.

Lemma status_among (st : Z) (l l' : list Z) : In st l -> incl l l' -> In st l'.
Proof. intros H Hi. now apply Hi. Qed.

(** X24. The worker answers every request: [default_fetch] returns a
    response, whatever the method, the host, the path, the bucket and the
    network, and its status is 200, 400, 404, 500 or 502. When the edge
    cache holds only responses that carry the CORS headers, so does the
    answer, and this stays true of the edge cache after the request and
    after the scheduled [cache.put]. *)
Theorem every_request_is_answered (request : Request) (s : Edge) :
  edge_cors s ->
  exists resp s',
    default_fetch request s = (Returned resp, s') /\
    In (status resp) [200; 400; 404; 500; 502]%Z /\
    carries_cors resp /\
    edge_cors s' /\ edge_cors (settle s').
Proof.
  intros Hs.
  assert (Hgoal : forall resp s',
             In (status resp) [200; 400; 404; 500; 502]%Z ->
             carries_cors resp -> edge_cors s' ->
             In (status resp) [200; 400; 404; 500; 502]%Z /\
             carries_cors resp /\ edge_cors s' /\ edge_cors (settle s')).
  { intros resp s' H1 H2 H3.
    split; [exact H1 | split; [exact H2 | split; [exact H3 | now apply settle_cors]]]. }
  assert (Hr2 : forall key,
             exists resp s',
               handleR2Request key request s = (Returned resp, s') /\
               In (status resp) [200; 400; 404; 500; 502]%Z /\
               carries_cors resp /\ edge_cors s' /\ edge_cors (settle s')).
  { intros key. destruct (handleR2Request_run key request s Hs)
      as (resp & s' & E & S & C & Hs').
    exists resp, s'. split; [exact E |]. apply Hgoal; [| exact C | exact Hs'].
    destruct S as [-> | ->]; cbn; auto. }
  assert (Hjson : forall data,
             exists resp s',
               (Returned (jsonResponse data 200), s) = (Returned resp, s') /\
               In (status resp) [200; 400; 404; 500; 502]%Z /\
               carries_cors resp /\ edge_cors s' /\ edge_cors (settle s')).
  { intros data. do 2 eexists. split; [reflexivity |].
    apply Hgoal; [now left | apply jsonResponse_cors | exact Hs]. }
  assert (Hnf : exists resp s',
             (Returned not_found_text, s) = (Returned resp, s') /\
             In (status resp) [200; 400; 404; 500; 502]%Z /\
             carries_cors resp /\ edge_cors s' /\ edge_cors (settle s')).
  { do 2 eexists. split; [reflexivity |].
    apply Hgoal; [cbn; auto | apply incl_refl | exact Hs]. }
  assert (Hfetch : forall name,
             exists resp s',
               lift (handleCtanFetch name) s = (Returned resp, s') /\
               In (status resp) [200; 400; 404; 500; 502]%Z /\
               carries_cors resp /\ edge_cors s' /\ edge_cors (settle s')).
  { intros name.
    destruct (handleCtanFetch_run unzipSync TextDecoder_decode JSON_stringify
                name (world s)) as (resp & w' & t & E & T & S & _ & C & _).
    destruct (lift_answers (handleCtanFetch name) s [200; 400; 404; 500]%Z Hs)
      as (resp' & s' & E' & S' & C' & Hs'); [eauto 8 |].
    exists resp', s'. split; [exact E' |]. apply Hgoal; [| exact C' | exact Hs'].
    cbn in S' |- *. intuition. }
  rewrite default_fetch_dispatch.
  destruct (String.eqb (request_method request) "OPTIONS").
  { do 2 eexists. split; [reflexivity |].
    apply Hgoal; [now left | apply incl_refl | exact Hs]. }
  destruct (Js.includes (hostname (request_url request)) "packages").
  { unfold handlePackagesHost.
    destruct (negb (Js.truthy (Js.slice (pathname (request_url request)) 1))
              || String.eqb (Js.slice (pathname (request_url request)) 1) EmptyString
              || String.eqb (Js.slice (pathname (request_url request)) 1) "health");
      [apply Hjson | apply Hr2]. }
  destruct (Js.includes (hostname (request_url request)) "ctan").
  { unfold handleCtanProxyHost.
    match goal with
    | |- context [if ?b then retE _ else _] => destruct b
    end; [apply Hjson | apply Hfetch]. }
  unfold handlePathBasedRouting.
  destruct (Js.startsWith (pathname (request_url request)) "/bundles/"); [apply Hr2 |].
  destruct (Js.startsWith (pathname (request_url request)) "/wasm/"); [apply Hr2 |].
  destruct (match_route "/api/fetch/" (pathname (request_url request))) as [name|];
    [apply Hfetch |].
  destruct (match_route "/api/texlive/" (pathname (request_url request))) as [name|].
  { destruct (handleTexLiveProxy_run JSON_stringify name (world s))
      as (resp & w' & t & E & T & S & C & _).
    destruct (lift_answers (handleTexLiveProxy name) s [200; 400; 404; 500; 502]%Z Hs)
      as (resp' & s' & E' & S' & C' & Hs'); [eauto 8 |].
    exists resp', s'. split; [exact E' |]. now apply Hgoal. }
  destruct (match_route "/api/ctan-pkg/" (pathname (request_url request))) as [name|].
  { destruct (handleCtanPkgInfo_run JSON_stringify name (world s))
      as (resp & w' & t & E & T & _ & S & _ & C & _).
    destruct (lift_answers (handleCtanPkgInfo name) s [200; 400; 404; 500]%Z Hs)
      as (resp' & s' & E' & S' & C' & Hs'); [eauto 8 |].
    exists resp', s'. split; [exact E' |]. apply Hgoal; [| exact C' | exact Hs'].
    cbn in S' |- *. intuition. }
  destruct (String.eqb (pathname (request_url request)) "/xzwasm.js").
  { unfold bindE.
    rewrite (lift_run (BUNDLES_get "xzwasm.js.br") s
               (Returned (bucket (world s) !! "xzwasm.js.br"))
               (record (EvGet "xzwasm.js.br") (world s)) [EvGet "xzwasm.js.br"])
      by reflexivity.
    destruct (bucket (world s) !! "xzwasm.js.br") as [object|];
      do 2 eexists; (split; [reflexivity |]);
      (apply Hgoal; [cbn; auto | | exact Hs]).
    - intros h Hh. cbn [headers]. apply in_or_app. now left.
    - apply incl_refl. }
  destruct (String.eqb (pathname (request_url request)) "/"
            || String.eqb (pathname (request_url request)) "/health");
    [apply Hjson | apply Hnf].
Qed.

End EdgeProperties.

(** * The handlers on explicit inputs *)

(** ** C1: the chain on a package whose install archive is a TDS zip *)

Definition foo_world : World :=
  world_with ∅ [registry_answer info_foo; registry_answer info_foo; status_answer 404;
                registry_answer info_foo; status_answer 404].

Definition foo_run : Outcome Response * World :=
  handleCtanFetch (unzip_to sty_archive) ascii_decode print_json "foo" foo_world.

(** C1 as stated fails here. The registry declares an install path and a
    content path for [foo];
    the install archive answers 404. The claim's step (3) asks for a retry
    at [<mirror><contentPath>.tds.zip]. The worker fetches the install
    archive, never [https://mirrors.ctan.org/macros/latex/contrib/foo.tds.zip],
    and goes on to the source zip. *)
Lemma C1_no_retry_after_tds_install :
  truthy (install info_foo) = true /\
  truthy (ctan_path info_foo) = true /\
  refused (status_answer 404) /\
  fetched_urls foo_run
  = ["https://ctan.org/json/2.0/pkg/foo";
     "https://ctan.org/json/2.0/pkg/foo";
     "https://mirrors.ctan.org/install/macros/latex/contrib/foo.tds.zip";
     "https://ctan.org/json/2.0/pkg/foo";
     "https://mirrors.ctan.org/macros/latex/contrib/foo.zip"] /\
  ~ In (tds_url info_foo) (fetched_urls foo_run) /\
  answered foo_run = Some 404%Z.
Proof.
  split; [reflexivity |]. split; [reflexivity |].
  split; [eexists; split; reflexivity |].
  assert (E : fetched_urls foo_run
              = ["https://ctan.org/json/2.0/pkg/foo";
                 "https://ctan.org/json/2.0/pkg/foo";
                 "https://mirrors.ctan.org/install/macros/latex/contrib/foo.tds.zip";
                 "https://ctan.org/json/2.0/pkg/foo";
                 "https://mirrors.ctan.org/macros/latex/contrib/foo.zip"])
    by (vm_compute; reflexivity).
  split; [exact E |]. split; [| vm_compute; reflexivity].
  rewrite E. vm_compute. intuition discriminate.
Qed.

Definition retry_world : World :=
  world_with ∅ [registry_answer info_foo_plain; status_answer 404;
                archive_answer sty_bytes].

(** C1, step (3): with an install path that is not a TDS zip, a refused
    install download is followed by the TDS zip of the content path. *)
Lemma C1_retry_witness :
  tryCtanTdsZip (unzip_to sty_archive) ascii_decode (VString "foo") retry_world
  = (Returned (decoded (unzip_to sty_archive) ascii_decode sty_bytes (VString "foo")),
     after retry_world
           [registry_url (VString "foo"); install_url info_foo_plain;
            tds_url info_foo_plain] []).
Proof.
  destruct (C1_fallback_chain_order (unzip_to sty_archive) ascii_decode print_json)
    as (_ & _ & Hretry & _).
  apply (Hretry (VString "foo") retry_world (registry_answer info_foo_plain)
                (status_answer 404) (archive_answer sty_bytes) [] info_foo_plain).
  - reflexivity.
  - eexists. repeat split; reflexivity.
  - reflexivity.
  - eexists. split; reflexivity.
  - reflexivity.
  - vm_compute. reflexivity.
  - eexists. repeat split; reflexivity.
Defined.

(** ** C2: the two sample archives *)

Lemma C2_witness :
  processZip (unzip_to sty_archive) ascii_decode [] (VString "bar")
  = Returned (Some
      {| name := VString "bar";
         files := [("/texlive/texmf-dist/tex/latex/bar/bar.sty",
                    {| content := sty_text; encoding := "text" |})];
         totalFiles := 1;
         dependencies := ["amsmath"; "graphicx"] |})
  /\
  exists base64Content,
    processZip (unzip_to pfb_archive) ascii_decode [] (VString "bar")
    = Returned (Some
        {| name := VString "bar";
           files := [("/texlive/texmf-dist/fonts/type1/public/bar/bar.pfb",
                      {| content := base64Content; encoding := "base64" |})];
           totalFiles := 1;
           dependencies := [] |})
    /\ Base64.decode base64Content = Some pfb_bytes.
Proof.
  split.
  - rewrite (proj1 (C2_decoder_round_trip (unzip_to sty_archive) ascii_decode
                      [] sty_bytes (VString "bar")) eq_refl).
    vm_compute. reflexivity.
  - apply (proj1 (proj2 (C2_decoder_round_trip (unzip_to pfb_archive) ascii_decode
                           [] pfb_bytes (VString "bar")))).
    reflexivity.
Defined.

(** ** C3: a one-letter name *)

Lemma C3_witness :
  invalid_name "a" /\
  exists r,
    handleCtanFetch (unzip_to []) ascii_decode print_json "a" (world_with ∅ [])
    = (Returned r, world_with ∅ []) /\ status r = 400%Z.
Proof.
  assert (H : invalid_name "a") by (left; simpl; lia).
  split; [exact H |].
  destruct (C3_invalid_name_is_400_before_any_io
              (unzip_to []) ascii_decode print_json "a" (world_with ∅ []) H)
    as ((r & E & _ & S) & _).
  exists r. split; [exact E | exact S].
Defined.

(** ** C4: the example macro, and a text in which it is swallowed *)

Definition sty_result : PackageFiles :=
  {| name := VString "bar";
     files := [("/texlive/texmf-dist/tex/latex/bar/bar.sty",
                {| content := sty_text; encoding := "text" |})];
     totalFiles := 1;
     dependencies := ["amsmath"; "graphicx"] |}.

(** A package file in which a complete call precedes the example macro. *)
Definition preamble_text : string := "\ProvidesPackage{bar}\RequirePackage{keyval}".

Definition preamble_archive : list (string * list byte) :=
  [("foo/tex/latex/bar/bar.sty", list_byte_of_string (preamble_text +:+ example_macro))].

Definition preamble_result : PackageFiles :=
  {| name := VString "bar";
     files := [("/texlive/texmf-dist/tex/latex/bar/bar.sty",
                {| content := preamble_text +:+ example_macro; encoding := "text" |})];
     totalFiles := 1;
     dependencies := ["keyval"; "amsmath"; "graphicx"] |}.

(** The texts that follow the occurrences of [sub] in [s]. *)
Fixpoint tails_after (sub s : string) : list string :=
  match Js.strip_prefix sub s with
  | Some b => [b]
  | None => []
  end ++
  match s with
  | EmptyString => []
  | String _ t => tails_after sub t
  end.

Lemma tails_after_unfold (sub s : string) :
  tails_after sub s
  = match Js.strip_prefix sub s with
    | Some b => [b]
    | None => []
    end ++
    match s with
    | EmptyString => []
    | String _ t => tails_after sub t
    end.
Proof. destruct s; reflexivity. Qed.

Lemma tails_after_spec (a sub b : string) :
  In b (tails_after sub (a +:+ sub +:+ b)).
Proof.
  induction a as [|c a IH]; rewrite tails_after_unfold; apply in_or_app.
  - left. cbn [String.append]. rewrite strip_prefix_append. now left.
  - right. exact IH.
Qed.

Lemma preamble_closed : calls_closed preamble_text.
Proof.
  intros a b E (options & g & Eb & Ho & Hg).
  pose proof (tails_after_spec a RequirePackage_macro b) as Hin.
  rewrite <- E in Hin. vm_compute in Hin. destruct Hin as [<- | []].
  destruct Ho as [-> | (o & -> & _)]; cbn [String.append] in Eb.
  - injection Eb as <-. discriminate Hg.
  - discriminate Eb.
Qed.

Lemma C4_witness :
  processFiles ascii_decode sty_archive (VString "bar") = Some sty_result /\
  dependencies sty_result = ["amsmath"; "graphicx"] /\
  List.NoDup (dependencies sty_result) /\
  processFiles ascii_decode preamble_archive (VString "bar") = Some preamble_result /\
  calls_closed preamble_text /\
  In "amsmath" (dependencies preamble_result) /\
  In "graphicx" (dependencies preamble_result).
Proof.
  assert (H : processFiles ascii_decode sty_archive (VString "bar") = Some sty_result)
    by (vm_compute; reflexivity).
  split; [exact H |].
  destruct (C4_dependencies_of_RequirePackage ascii_decode sty_archive
              (VString "bar") sty_result H) as ((Hnd & _) & _ & Hexact).
  split.
  { rewrite (Hexact "foo/tex/latex/bar/bar.sty" sty_bytes EmptyString EmptyString);
      try reflexivity.
    split; reflexivity. }
  split; [exact Hnd |].
  assert (H' : processFiles ascii_decode preamble_archive (VString "bar")
               = Some preamble_result) by (vm_compute; reflexivity).
  split; [exact H' |]. split; [exact preamble_closed |].
  destruct (C4_dependencies_of_RequirePackage ascii_decode preamble_archive
              (VString "bar") preamble_result H') as (_ & Hin & _).
  assert (Hd : forall d, In d ["amsmath"; "graphicx"] -> VString d <> VString "bar" ->
                         In d (dependencies preamble_result)).
  { apply (Hin "foo/tex/latex/bar/bar.sty"
               (list_byte_of_string (preamble_text +:+ example_macro))
               preamble_text EmptyString).
    - now left.
    - split; vm_compute; reflexivity.
    - vm_compute. reflexivity.
    - exact preamble_closed. }
  split; apply Hd; cbn [In]; auto; discriminate.
Defined.

(** C4 as stated fails here. The text of [bar.sty] contains the example
    macro, yet [amsmath] is not among the dependencies: the match that
    starts at the first [\RequirePackage{] runs to the closing brace of the
    example macro, and its first item is not an identifier. *)
Lemma C4_macro_swallowed :
  Js.includes swallowed_text example_macro = true /\
  tex_source "bar.sty" /\
  ascii_decode (list_byte_of_string swallowed_text) = swallowed_text /\
  processFiles ascii_decode [("bar.sty", list_byte_of_string swallowed_text)]
               (VString "bar")
  = Some {| name := VString "bar";
            files := [("/texlive/texmf-dist/tex/latex/bar/bar.sty",
                       {| content := swallowed_text; encoding := "text" |})];
            totalFiles := 1;
            dependencies := ["graphicx"] |} /\
  ~ In "amsmath" ["graphicx"].
Proof.
  split; [vm_compute; reflexivity |].
  split; [split; vm_compute; reflexivity |].
  split; [vm_compute; reflexivity |].
  split; [vm_compute; reflexivity |].
  intros [H | []]. discriminate H.
Qed.

(** ** C5: a cached package *)

Definition cached_world : World :=
  world_with {[ ctan_cache_key "pgf" := BlobText "{}" ]} [].

Lemma valid_pgf : valid_name "pgf".
Proof. apply valid_name_intro; reflexivity. Qed.

Lemma C5_witness :
  valid_name "pgf" /\
  bucket cached_world !! ctan_cache_key "pgf" = Some (BlobText "{}") /\
  exists resp w',
    handleCtanFetch (unzip_to []) ascii_decode print_json "pgf" cached_world
    = (Returned resp, w') /\
    body resp = BlobText "{}" /\
    trace w' = [EvGet "ctan-cache/v5/pgf.json"].
Proof.
  assert (Hhit : bucket cached_world !! ctan_cache_key "pgf" = Some (BlobText "{}"))
    by (vm_compute; reflexivity).
  split; [exact valid_pgf |]. split; [exact Hhit |].
  destruct (C5_cache_hit_short_circuits (unzip_to []) ascii_decode print_json
              "pgf" cached_world (BlobText "{}") valid_pgf Hhit)
    as (resp & w' & E & _ & B & _ & _ & T & _).
  exists resp, w'. split; [exact E |]. split; [exact B | exact T].
Defined.

(** ** C6: an archive of documentation and sources only *)

(** Equality of two buffers. *)
Fixpoint same_bytes (a b : list byte) : bool :=
  match a, b with
  | [], [] => true
  | x :: a', y :: b' => Byte.eqb x y && same_bytes a' b'
  | _, _ => false
  end.

(** An [unzipSync] that knows the listed archives and throws on every
    other buffer. *)
Definition unzip_archives (archives : list (list byte * list (string * list byte)))
  : list byte -> Outcome (list (string * list byte)) :=
  fun buf =>
    match List.find (fun a => same_bytes buf (fst a)) archives with
    | Some a => Returned (snd a)
    | None => Thrown "invalid zip data"
    end.

(** The bytes of the archive whose entries are [doc_archive]. *)
Definition doc_zip : list byte := list_byte_of_string "PK doc".

(** The registry knows [foo]; the mirror delivers the same archive of
    documentation and sources as install archive and as source archive. *)
Definition doc_world : World :=
  world_with ∅ [registry_answer info_foo;
                registry_answer info_foo; archive_answer doc_zip;
                registry_answer info_foo; archive_answer doc_zip].

Definition doc_run : Outcome Response * World :=
  handleCtanFetch (unzip_archives [(doc_zip, doc_archive)]) ascii_decode print_json
                  "foo" doc_world.

Lemma doc_archive_excluded : Forall (fun e => excluded (fst e)) doc_archive.
Proof.
  apply List.Forall_cons; [| apply List.Forall_cons; [| apply List.Forall_nil]].
  - left. exists EmptyString, "manual.pdf". split; [reflexivity | now left].
  - right. exists EmptyString, "bar.dtx". split; [reflexivity | now left].
Qed.

Lemma C6_witness :
  processZip (unzip_to doc_archive) ascii_decode [] (VString "bar") = Returned None /\
  exists w',
    doc_run = (Returned (not_found print_json), w') /\
    bucket w' = bucket doc_world.
Proof.
  split.
  - destruct (C6_doc_and_source_excluded (unzip_to doc_archive) ascii_decode print_json)
      as (_ & _ & H & _).
    apply (H [] (VString "bar") (list_byte_of_string "%PDF")
             (list_byte_of_string "% \iffalse")).
    reflexivity.
  - destruct (C6_doc_and_source_excluded (unzip_archives [(doc_zip, doc_archive)])
                ascii_decode print_json) as (_ & _ & _ & _ & H).
    destruct (H "foo" doc_world (registry_answer info_foo)
                [registry_answer info_foo; archive_answer doc_zip;
                 registry_answer info_foo; archive_answer doc_zip])
      as (w' & E & _ & B).
    + apply valid_name_intro; reflexivity.
    + vm_compute. reflexivity.
    + reflexivity.
    + discriminate.
    + intros fr entries Hin _ Hu. unfold registry_answer, archive_answer in Hin.
      cbn [In] in Hin.
      destruct Hin as [E | [E | [E | [E | []]]]]; injection E as <-;
        vm_compute in Hu; try discriminate Hu; injection Hu as <-;
        exact doc_archive_excluded.
    + exists w'. split; [exact E | exact B].
Defined.

(** ** C7: a name that [Object.prototype] knows *)

Definition constructor_run : Outcome Response * World :=
  handleCtanFetch (unzip_to []) ascii_decode print_json "constructor"
                  (world_with ∅ [status_answer 404; status_answer 404;
                                 status_answer 404]).

(** C7 (the code at a failing input). The claim: every name that is not in
    the bootstrap alias table is looked up under its own name.
    [constructor] is a valid package name and no bootstrap alias, yet
    [bootstrapAliases[requestedPkg]] finds the inherited
    [Object.prototype.constructor]: the registry is asked three times for
    the string conversion of that function, never for [constructor]. *)
Lemma C7_constructor_lookup :
  valid_name "constructor" /\
  assoc "constructor" bootstrapAliases = None /\
  resolve_alias "constructor" = VFunction "Object" /\
  fetched_urls constructor_run
  = ["https://ctan.org/json/2.0/pkg/function Object() { [native code] }";
     "https://ctan.org/json/2.0/pkg/function Object() { [native code] }";
     "https://ctan.org/json/2.0/pkg/function Object() { [native code] }"] /\
  ~ In (registry_url (VString "constructor")) (fetched_urls constructor_run) /\
  answered constructor_run = Some 404%Z.
Proof.
  split; [apply valid_name_intro; reflexivity |].
  split; [reflexivity |]. split; [reflexivity |].
  assert (E : fetched_urls constructor_run
              = ["https://ctan.org/json/2.0/pkg/function Object() { [native code] }";
                 "https://ctan.org/json/2.0/pkg/function Object() { [native code] }";
                 "https://ctan.org/json/2.0/pkg/function Object() { [native code] }"])
    by (vm_compute; reflexivity).
  split; [exact E |]. split; [| vm_compute; reflexivity].
  rewrite E. vm_compute. intuition discriminate.
Qed.

(** ** C8: the registry answers 500 *)



(** ** C9: the passthrough proxy when the upstream fails *)

Definition reset_run : Outcome Response * World :=
  handleTexLiveProxy print_json "pgf" (world_with ∅ [NetworkError "connection reset"]).

(** C9 as stated fails here: a transport failure in the passthrough path
    is answered with 500, not with 502. *)
Lemma C9_transport_failure_is_500 :
  valid_name "pgf" /\
  fetched_urls reset_run = [texlive_url "pgf"] /\
  answered reset_run = Some 500%Z /\
  answered reset_run <> Some 502%Z.
Proof.
  split; [exact valid_pgf |]. split; [vm_compute; reflexivity |].
  split; [vm_compute; reflexivity |]. vm_compute. discriminate.
Qed.

Lemma C9_witness :
  handleTexLiveProxy print_json "pgf" (world_with ∅ [status_answer 503])
  = (Returned (jsonResponse print_json
                 (error_object "TexLive fetch failed: 503") 502),
     proxied "pgf" [] (world_with ∅ [status_answer 503]))
  /\
  handleCtanFetch (unzip_to []) ascii_decode print_json "pgf"
                  (world_with ∅ [NetworkError "connection reset"])
  = (Returned (jsonResponse print_json
                 (error_object "CTAN fetch error: connection reset") 500),
     looked_up "pgf" [] (world_with ∅ [NetworkError "connection reset"])).
Proof.
  destruct (C9_upstream_failures (unzip_to []) ascii_decode print_json)
    as (H & _ & _ & _ & _ & _ & _ & _ & _ & H8).
  split.
  - assert (Hmiss : bucket (world_with ∅ [status_answer 503]) !! texlive_cache_key "pgf"
                    = None) by (vm_compute; reflexivity).
    destruct (H "pgf" (world_with ∅ [status_answer 503]) (status_answer 503) []
                valid_pgf Hmiss eq_refl) as (_ & H502 & _).
    apply (H502 {| fetched_status := 503;
                   fetched_json := Thrown "Unexpected token < in JSON";
                   fetched_arrayBuffer := [] |}); [reflexivity | reflexivity |].
    discriminate.
  - assert (Hmiss : bucket (world_with ∅ [NetworkError "connection reset"])
                      !! ctan_cache_key "pgf" = None) by (vm_compute; reflexivity).
    destruct (H8 "pgf" (world_with ∅ [NetworkError "connection reset"])
                 (NetworkError "connection reset") [] valid_pgf Hmiss eq_refl)
      as (Hrejected & _).
    apply Hrejected. now left.
Defined.

(** ** C10: [tikz] is cached under its own key *)

Definition tikz_archive : list (string * list byte) :=
  [("pgf/tex/latex/pgf/frontendlayer/tikz.sty",
    list_byte_of_string "\RequirePackage{pgf,tikz}")].

Definition info_pgf : CtanInfo :=
  {| errors := false;
     info_name := Some "pgf";
     install := Some "/graphics/pgf/base/pgf.tds.zip";
     ctan_path := Some "/graphics/pgf/base";
     miktex := Some "pgf";
     texlive := Some "pgf" |}.

Definition tikz_run : Outcome Response * World :=
  handleCtanFetch (unzip_to tikz_archive) ascii_decode print_json "tikz"
                  (world_with ∅ [registry_answer info_pgf; registry_answer info_pgf;
                                 archive_answer []]).

Definition tikz_result : PackageFiles :=
  {| name := VString "pgf";
     files := [("/texlive/texmf-dist/tex/latex/pgf/tikz.sty",
                {| content := "\RequirePackage{pgf,tikz}"; encoding := "text" |})];
     totalFiles := 1;
     dependencies := ["tikz"] |}.

Lemma C10_witness :
  exists resp w',
    tikz_run = (Returned resp, w') /\
    status resp = 200%Z /\
    trace w'
    = [EvGet "ctan-cache/v5/tikz.json";
       EvFetch "https://ctan.org/json/2.0/pkg/pgf";
       EvFetch "https://ctan.org/json/2.0/pkg/pgf";
       EvFetch "https://mirrors.ctan.org/install/graphics/pgf/base/pgf.tds.zip";
       EvPut "ctan-cache/v5/tikz.json" (body resp)] /\
    bucket w' !! ctan_cache_key "tikz" = Some (body resp) /\
    bucket w' !! ctan_cache_key "pgf" = None.
Proof.
  destruct (C10_cache_key_from_requested_name (unzip_to tikz_archive) ascii_decode
              print_json) as (_ & _ & _ & _ & _ & H & _).
  unfold tikz_run.
  rewrite (H "tikz"
             (world_with ∅ [registry_answer info_pgf; registry_answer info_pgf;
                            archive_answer []])
             (registry_answer info_pgf) (registry_answer info_pgf)
             (archive_answer []) [] info_pgf [] (VString "pgf") tikz_result).
  - do 2 eexists. split; [reflexivity |]. split; [reflexivity |].
    split; [vm_compute; reflexivity |]. split; vm_compute; reflexivity.
  - apply valid_name_intro; reflexivity.
  - vm_compute. reflexivity.
  - reflexivity.
  - reflexivity.
  - eexists. repeat split; reflexivity.
  - reflexivity.
  - eexists. repeat split; reflexivity.
  - vm_compute. reflexivity.
Defined.

(** ** A second request for a package just decoded *)

Definition first_run : Outcome Response * World :=
  handleCtanFetch (unzip_to sty_archive) ascii_decode print_json "foo"
                  (world_with ∅ [registry_answer info_foo; registry_answer info_foo;
                                 archive_answer sty_bytes]).

Lemma second_request_witness :
  answered first_run = Some 200%Z /\
  exists resp',
    fst (handleCtanFetch (unzip_to sty_archive) ascii_decode print_json "foo"
                         (snd first_run))
    = Returned resp' /\
    In ("X-Cache", "HIT") (headers resp').
Proof.
  assert (H : answered first_run = Some 200%Z) by (vm_compute; reflexivity).
  split; [exact H |].
  assert (Hrun : first_run = first_run) by reflexivity.
  unfold first_run at 1 in Hrun. revert H Hrun.
  generalize first_run. intros [[resp | e] w'] H Hrun; [| discriminate H].
  injection H as Hst.
  destruct (second_request_is_a_hit (unzip_to sty_archive) ascii_decode print_json
              "foo" _ resp w' ltac:(apply valid_name_intro; reflexivity) Hrun Hst)
    as (resp' & E & _ & Hhit).
  exists resp'. cbn [snd]. rewrite E. split; [reflexivity | exact Hhit].
Defined.

(** ** An aliased request whose archive names the requested package *)

(** [processZip] leaves out the name it is called with, here the resolved
    name [pgf]; the requested name [tikz] stays among the dependencies. *)
Lemma requested_name_among_dependencies :
  resolve_alias "tikz" = VString "pgf" /\
  processZip (unzip_to tikz_archive) ascii_decode [] (VString "pgf")
  = Returned (Some
      {| name := VString "pgf";
         files := [("/texlive/texmf-dist/tex/latex/pgf/tikz.sty",
                    {| content := "\RequirePackage{pgf,tikz}"; encoding := "text" |})];
         totalFiles := 1;
         dependencies := ["tikz"] |}) /\
  fetched_urls tikz_run
  = ["https://ctan.org/json/2.0/pkg/pgf"; "https://ctan.org/json/2.0/pkg/pgf";
     "https://mirrors.ctan.org/install/graphics/pgf/base/pgf.tds.zip"] /\
  answered tikz_run = Some 200%Z.
Proof. repeat split; vm_compute; reflexivity. Qed.

(** * The decoder, the file server and the router on explicit inputs *)

(** ** Samples for the routing layer *)

(** A plain serialisation of a URL. *)
Definition print_url (u : URL) : string :=
  protocol u +:+ "//" +:+ hostname u +:+ pathname u +:+ "?"
  +:+ fold_right (fun kv rest => fst kv +:+ "=" +:+ snd kv +:+ "&" +:+ rest)
                 EmptyString (searchParams u).

Definition get_request (host path : string) : Request :=
  {| request_method := "GET";
     request_url := {| protocol := "https:"; hostname := host; port := EmptyString;
                       pathname := path; searchParams := [];
                       fragment := EmptyString |} |}.

Definition edge_with (objects : gmap string Blob) (cached : gmap string Response)
           (answers : list NetResult) : Edge :=
  {| world := world_with objects answers; contentEncoding := ∅;
     caches_default := cached; waitUntil := [] |}.

(** ** The file set of the sample archive *)

Lemma file_set_witness :
  processFiles ascii_decode sty_archive (VString "bar") = Some sty_result /\
  List.NoDup (map fst (files sty_result)) /\
  1 <= totalFiles sty_result <= List.length sty_archive.
Proof.
  assert (H : processFiles ascii_decode sty_archive (VString "bar") = Some sty_result)
    by (vm_compute; reflexivity).
  split; [exact H |].
  destruct (processZip_file_set ascii_decode sty_archive (VString "bar") sty_result H)
    as (Hnd & _ & Hn & _).
  split; [exact Hnd | exact Hn].
Defined.

(** Two entries that are stored under one path. *)
Definition twice_archive : list (string * list byte) :=
  [("a/x.sty", list_byte_of_string "first"); ("b/x.sty", list_byte_of_string "second")].

Definition twice_result : PackageFiles :=
  {| name := VString "pkg";
     files := [("/texlive/texmf-dist/tex/latex/pkg/x.sty",
                {| content := "second"; encoding := "text" |})];
     totalFiles := 1;
     dependencies := [] |}.

Lemma last_entry_witness :
  processFiles ascii_decode twice_archive (VString "pkg") = Some twice_result /\
  assoc "/texlive/texmf-dist/tex/latex/pkg/x.sty" (files twice_result)
  = Some {| content := "second"; encoding := "text" |}.
Proof.
  assert (H : processFiles ascii_decode twice_archive (VString "pkg") = Some twice_result)
    by (vm_compute; reflexivity).
  split; [exact H |].
  destruct (last_entry_of_a_path_wins ascii_decode twice_archive (VString "pkg")
              twice_result H) as (_ & Hlast).
  apply (Hlast [("a/x.sty", list_byte_of_string "first")]
               ("b/x.sty", list_byte_of_string "second") []).
  - reflexivity.
  - vm_compute. reflexivity.
  - constructor.
Defined.

(** ** Placement of sample entries *)

Lemma tex_placement_witness :
  processEntry ascii_decode (VString "pkg") ([], [])
               ("foo/tex/latex/bar/sub/bar.sty", [])
  = (obj_set ("/texlive/texmf-dist/tex/latex/" +:+ "bar" +:+ "/" +:+ file_name "sub/bar.sty")
             {| content := ascii_decode []; encoding := "text" |} [],
     scan_dependencies (ascii_decode []) []).
Proof.
  apply (proj1 (tex_entry_placement ascii_decode (VString "pkg") [] [] [])
               "foo" "bar" "sub/bar.sty").
  - split; vm_compute; reflexivity.
  - reflexivity.
  - split; [discriminate | reflexivity].
Defined.

Lemma font_placement_witness :
  processEntry ascii_decode (VString "pkg") ([], [])
               ("foo/fonts/type1/public/bar/bar.pfb", pfb_bytes)
  = (obj_set ("/texlive/texmf-dist/" +:+ ("fonts/" +:+ "type1" +:+ below ["public"; "bar"])
              +:+ "/" +:+ "bar.pfb")
             {| content := arrayBufferToBase64 pfb_bytes; encoding := "base64" |} [],
     []).
Proof.
  apply (proj1 (font_entry_placement ascii_decode (VString "pkg") [] [] pfb_bytes)
               "foo/" "type1" ["public"; "bar"] "bar.pfb").
  - repeat split; vm_compute; reflexivity.
  - right. now exists "foo".
  - vm_compute. reflexivity.
  - cbn. auto.
  - repeat constructor; discriminate.
  - split; [discriminate | reflexivity].
Defined.

(** ** The dependencies of the sample archive *)

Lemma dependencies_witness :
  processFiles ascii_decode sty_archive (VString "bar") = Some sty_result /\
  exists filePath bytes g,
    In (filePath, bytes) sty_archive /\ tex_source filePath /\
    requires (ascii_decode bytes) g /\
    In "amsmath" (map Js.trim (Js.split g ","%char)).
Proof.
  assert (H : processFiles ascii_decode sty_archive (VString "bar") = Some sty_result)
    by (vm_compute; reflexivity).
  split; [exact H |].
  destruct (dependencies_come_from_RequirePackage ascii_decode sty_archive
              (VString "bar") sty_result H "amsmath") as (_ & Hsrc).
  destruct (Hsrc (or_introl eq_refl)) as (filePath & bytes & g & Hin & Ht & Hr & Hd & _).
  exists filePath, bytes, g. auto.
Defined.

(** ** The name of a package found through an alias *)

Lemma resolved_name_witness :
  resolve_alias "tikz" = VString "pgf" /\
  exists r, name r = VString "pgf" /\
            bucket (snd tikz_run) !! ctan_cache_key "tikz"
            = Some (BlobText (print_json (json_of_result r))).
Proof.
  split; [reflexivity |].
  assert (H : answered tikz_run = Some 200%Z) by (vm_compute; reflexivity).
  assert (Hrun : tikz_run = tikz_run) by reflexivity.
  unfold tikz_run at 1 in Hrun. revert H Hrun.
  generalize tikz_run. intros [[resp | e] w'] H Hrun; [| discriminate H].
  injection H as Hst.
  destruct (result_bears_the_resolved_name (unzip_to tikz_archive) ascii_decode print_json
              "tikz"
              (world_with ∅ [registry_answer info_pgf; registry_answer info_pgf;
                             archive_answer []])
              (registry_answer info_pgf)
              [registry_answer info_pgf; archive_answer []] (VString "pgf") resp w'
              ltac:(apply valid_name_intro; reflexivity) eq_refl eq_refl eq_refl
              Hrun Hst)
    as (r & Hname & _ & Hb).
  exists r. split; [| exact Hb].
  destruct Hname as [[_ Hn] | [_ Hn]]; exact Hn.
Defined.

(** ** The TexLive passthrough, twice *)

Definition texlive_run : Outcome Response * World :=
  handleTexLiveProxy print_json "pgf" (world_with ∅ [archive_answer pfb_bytes]).

Lemma texlive_second_request_witness :
  answered texlive_run = Some 200%Z /\
  exists resp',
    fst (handleTexLiveProxy print_json "pgf" (snd texlive_run)) = Returned resp' /\
    assoc "X-Cache" (headers resp') = Some "HIT".
Proof.
  assert (H : answered texlive_run = Some 200%Z) by (vm_compute; reflexivity).
  split; [exact H |].
  assert (Hrun : texlive_run = texlive_run) by reflexivity.
  unfold texlive_run at 1 in Hrun. revert H Hrun.
  generalize texlive_run. intros [[resp | e] w'] H Hrun; [| discriminate H].
  injection H as Hst.
  destruct (texlive_second_request_is_a_hit print_json "pgf" _ resp w'
              valid_pgf Hrun Hst) as (resp' & E & _ & _ & Hhit).
  exists resp'. cbn [snd]. rewrite E. split; [reflexivity | exact Hhit].
Defined.

(** ** The metadata of a package *)

Lemma pkg_info_witness :
  answered (handleCtanPkgInfo print_json "pgf" (world_with ∅ [registry_answer info_pgf]))
  = Some 200%Z.
Proof.
  rewrite (proj1 (handleCtanPkgInfo_reports print_json "pgf"
                    (world_with ∅ [registry_answer info_pgf])
                    (registry_answer info_pgf) [] info_pgf valid_pgf eq_refl
                    (ex_intro _ _ (conj eq_refl (conj eq_refl (conj eq_refl eq_refl)))))).
  reflexivity.
Defined.

(** ** The file server on explicit inputs *)

Definition core_request : Request := get_request "packages.siglum.org" "/core.data.gz".

Definition cached_response : Response :=
  {| status := 200;
     headers := obj_set "X-Cache" "MISS" CORS_HEADERS;
     body := BlobBytes pfb_bytes |}.

Definition warm_edge : Edge :=
  edge_with ∅ {[ cache_key print_url core_request := cached_response ]} [].

Definition cold_edge : Edge :=
  edge_with {[ "core.data.br" := BlobBytes pfb_bytes; "core.data.gz" := BlobBytes [] ]}
            ∅ [].

Lemma edge_hit_witness :
  exists resp,
    handleR2Request print_url "core.data.gz" core_request warm_edge
    = (Returned resp, warm_edge) /\
    body resp = BlobBytes pfb_bytes /\
    Headers_get "X-Cache" (headers resp) = Some "HIT".
Proof.
  assert (H : caches_default warm_edge !! cache_key print_url core_request
              = Some cached_response) by (vm_compute; reflexivity).
  destruct (edge_cache_hit_bypasses_R2 print_url "core.data.gz" core_request warm_edge
              cached_response H) as (resp & E & _ & B & X & _).
  exists resp. split; [exact E |]. split; [exact B | exact X].
Defined.

Lemma brotli_witness :
  exists resp s' reads,
    handleR2Request print_url "core.data.gz" core_request cold_edge = (Returned resp, s') /\
    trace (world s') = trace (world cold_edge) ++ map EvGet reads.
Proof.
  assert (H : caches_default cold_edge !! cache_key print_url core_request = None)
    by (vm_compute; reflexivity).
  destruct (brotli_variant_is_read_first print_url "core.data.gz" core_request cold_edge H)
    as ((resp & s' & reads & E & T & _) & _).
  exists resp, s', reads. split; [exact E | exact T].
Defined.

Definition cold_run : Outcome Response * Edge :=
  handleR2Request print_url "core.data.gz" core_request cold_edge.

Lemma edge_second_request_witness :
  exists resp resp',
    fst cold_run = Returned resp /\
    fst (handleR2Request print_url "core.data.gz" core_request (settle (snd cold_run)))
    = Returned resp' /\
    body resp' = body resp /\
    Headers_get "X-Cache" (headers resp') = Some "HIT".
Proof.
  assert (Hmiss : caches_default cold_edge !! cache_key print_url core_request = None)
    by (vm_compute; reflexivity).
  assert (Hst : match fst cold_run with
                | Returned r => status r = 200%Z
                | Thrown _ => False
                end) by (vm_compute; reflexivity).
  assert (Hrun : cold_run = cold_run) by reflexivity.
  unfold cold_run at 1 in Hrun. revert Hst Hrun.
  generalize cold_run. intros [[resp | e] s'] Hst Hrun; [| destruct Hst].
  cbn [fst] in Hst.
  destruct (edge_second_request_is_a_hit print_url "core.data.gz" core_request cold_edge
              resp s' Hmiss Hrun Hst) as (resp' & E & B & X & _).
  exists resp, resp'. cbn [fst snd]. rewrite E. now repeat split.
Defined.

(** ** The router on explicit inputs *)

Lemma routes_witness :
  default_fetch (unzip_to []) ascii_decode print_json print_url
                (get_request "ctan-proxy.siglum.org" "/fetch/pgf") (edge_with ∅ ∅ [])
  = lift (handleCtanFetch (unzip_to []) ascii_decode print_json "pgf") (edge_with ∅ ∅ []).
Proof.
  apply (proj1 (three_routes_to_a_package (unzip_to []) ascii_decode print_json print_url
                  "pgf" (get_request "ctan-proxy.siglum.org" "/fetch/pgf")
                  (edge_with ∅ ∅ [])
                  ltac:(discriminate) ltac:(discriminate) eq_refl)).
  - vm_compute. reflexivity.
  - vm_compute. reflexivity.
  - discriminate.
  - now right.
Defined.

Lemma invalid_route_witness :
  exists resp,
    default_fetch (unzip_to []) ascii_decode print_json print_url
                  (get_request "siglum.workers.dev" "/api/fetch/a/b") (edge_with ∅ ∅ [])
    = (Returned resp, edge_with ∅ ∅ []) /\
    (status resp = 400%Z \/ resp = not_found_text).
Proof.
  assert (Hnv : ~ valid_name "a/b").
  { intros Hv. destruct (valid_name_guard _ Hv) as [_ H]. discriminate H. }
  apply (proj1 (invalid_names_stop_at_the_router (unzip_to []) ascii_decode print_json
                  print_url "a/b" (get_request "siglum.workers.dev" "/api/fetch/a/b")
                  (edge_with ∅ ∅ []) ltac:(discriminate) Hnv eq_refl)).
  - vm_compute. reflexivity.
  - now left.
Defined.

Definition stocked_edge : Edge :=
  edge_with {[ ctan_cache_key "pgf" := BlobText "{}" ]} ∅ [].

Lemma cached_file_witness :
  exists resp s',
    default_fetch (unzip_to []) ascii_decode print_json print_url
                  (get_request "siglum.workers.dev" "/bundles/ctan-cache/v5/pgf.json")
                  stocked_edge
    = (Returned resp, s') /\
    body resp = BlobText "{}" /\
    assoc "Content-Type" (headers resp) = Some "application/json".
Proof.
  destruct (cached_package_is_served_as_a_file (unzip_to []) ascii_decode print_json
              print_url "pgf"
              (get_request "siglum.workers.dev" "/bundles/ctan-cache/v5/pgf.json")
              (get_request "siglum.workers.dev" "/api/fetch/pgf")
              stocked_edge (BlobText "{}") valid_pgf)
    as ((resp & s' & E & _ & B & CT & _) & _);
    try (vm_compute; reflexivity); try discriminate.
  exists resp, s'. split; [exact E |]. split; [exact B | exact CT].
Defined.

Lemma every_request_witness :
  exists resp s',
    default_fetch (unzip_to []) ascii_decode print_json print_url
                  (get_request "siglum.workers.dev" "/nowhere") (edge_with ∅ ∅ [])
    = (Returned resp, s') /\
    In (status resp) [200; 400; 404; 500; 502]%Z /\
    carries_cors resp.
Proof.
  assert (H : edge_cors (edge_with ∅ ∅ [])).
  { split; [| constructor]. intros k r Hk. cbn in Hk.
    rewrite lookup_empty in Hk. discriminate Hk. }
  destruct (every_request_is_answered (unzip_to []) ascii_decode print_json print_url
              (get_request "siglum.workers.dev" "/nowhere") (edge_with ∅ ∅ []) H)
    as (resp & s' & E & S & C & _).
  exists resp, s'. split; [exact E |]. split; [exact S | exact C].
Defined.
